(** * Appointment portal: a shallow embedding of the booking, claim, advance,
      annotation and aggregation logic, and theorems about it.

    The portal is a set of React pages that talk to a Firestore document
    store.  Each page keeps a local copy (its React state) of the documents it
    fetched when it was mounted, decides from that copy which buttons to
    offer, and writes to the store without conditions.  The embedding keeps
    these two levels apart: the store, and the page states that are snapshots
    of it.

    Conventions.
    - Firestore [Timestamp]s and JavaScript [Date]s are integers: milliseconds
      since the epoch.  [tz] is the local time zone: the offsets of local
      time from UTC, which may change in the course of the year.
    - The value of an [<input type="date">] is the empty string or an ISO
      calendar date; the latter is held as its day count since 1970-01-01, so
      that [new Date(v)] is UTC midnight of that day.
    - Strings are [string]; [.length] is [String.length].
    - A rating is a JavaScript number; it is held as an integer, and a mean of
      ratings as an exact rational.
    - Loading flags, spinners and navigation are not part of the model (but
      for the page [Register] goes to on success), and the store is taken to
      be available: [addDoc] always succeeds on well-formed data,
      [updateDoc] fails only on a missing document, and the ordered queries
      have their indexes.
    - Pages are the components [BookAppointment], [PendingAppointments],
      [DoctorAppointments], [PatientAppointments], [Dashboard], [Profile]
      and [Register]; each has a module of its name here, with the
      component's handlers under their own names, and so has the
      [AuthContext] provider.  What the authentication service answers is
      an input. *)

From Stdlib Require Import ZArith QArith List String Ascii Bool Lia Sorted.
From stdpp Require Import base option gmap strings list.

Local Open Scope string_scope.
Local Open Scope Z_scope.

(** ** Shared types (the interfaces [User], [Appointment], [Prescription],
       [Feedback] and [Doctor]) *)

Inductive Role := patient | doctor.

Inductive Status := pending | confirmed | in_progress | completed.

Inductive DateValue := NoDate | IsoDate (day : Z).

Record User := mkUser {
  uid : string;
  name : string;
  role : Role
}.

(** Of a doctor only [uid] and [name] are used. *)
Record Doctor := mkDoctor {
  doctor_uid : string;
  doctor_name : string
}.

Record Appointment := mkAppointment {
  patientId : string;
  patientName : string;
  doctorId : option string;
  doctorName : option string;
  preferredDoctorId : option string;
  preferredDoctorName : option string;
  date : DateValue;
  time : string;
  healthConcern : string;
  status : Status;
  createdAt : Z;
  updatedAt : Z
}.

Record Medicine := mkMedicine {
  med_name : string;
  dosage : string;
  frequency : string
}.

Record Prescription := mkPrescription {
  presc_appointmentId : string;
  medicines : list Medicine;
  presc_createdAt : Z
}.

Record Feedback := mkFeedback {
  fb_appointmentId : string;
  fb_patientId : string;
  fb_doctorId : string;
  rating : Z;
  comment : option string;
  fb_createdAt : Z
}.

(** A document of the [users] collection as [signup] writes it: the fields
    of [User], of which the pages above use [uid], [name] and [role] only. *)
Record UserData := mkUserData {
  user_uid : string;
  user_email : string;
  user_name : string;
  user_role : Role;
  user_createdAt : Z
}.

#[global] Instance Role_eq_dec : EqDecision Role.
Proof. solve_decision. Defined.
#[global] Instance Status_eq_dec : EqDecision Status.
Proof. solve_decision. Defined.
#[global] Instance DateValue_eq_dec : EqDecision DateValue.
Proof. solve_decision. Defined.

(** A message shown to the user, as [toast.error] or [toast.success]. *)
Inductive Toast := toast_error (msg : string) | toast_success (msg : string).

(** The position of a status in the life cycle. *)
Definition statusRank (s : Status) : nat :=
  match s with
  | pending => 0
  | confirmed => 1
  | in_progress => 2
  | completed => 3
  end.

(** The status string with its hyphen replaced by a space. *)
Definition statusWords (s : Status) : string :=
  match s with
  | pending => "pending"
  | confirmed => "confirmed"
  | in_progress => "in progress"
  | completed => "completed"
  end.

(** ** The document store *)

(** The collections [appointments], [prescriptions] and [feedback].
    Appointments are updated by identifier and are a map; prescriptions and
    feedback are only ever added and queried by their fields, and are lists
    in the order of creation. *)
Record Store := mkStore {
  coll_appointments : gmap string Appointment;
  coll_prescriptions : list Prescription;
  coll_feedback : list Feedback
}.

Definition emptyStore : Store := mkStore ∅ [] [].

(** A fetched document: [{ id: doc.id, ...doc.data() }]. *)
Abbreviation AppointmentDoc := (string * Appointment)%type.

Module Firestore.

(** [updateDoc(doc(db, 'appointments', id), patch)]: rejects when the
    document does not exist, and otherwise merges the patch. *)
Definition updateDoc (id : string) (patch : Appointment -> Appointment)
    (m : gmap string Appointment) : option (gmap string Appointment) :=
  match m !! id with
  | Some a => Some (<[id := patch a]> m)
  | None => None
  end.

(** [addDoc(collection(db, 'appointments'), data)] under the identifier the
    store assigns. *)
Definition addDoc (newId : string) (data : Appointment)
    (m : gmap string Appointment) : gmap string Appointment :=
  <[newId := data]> m.

(** [getDocs(query(collection(db, 'appointments'), where ...))]; the order
    of the result is the store's. *)
Definition getDocs (p : Appointment -> bool)
    (m : gmap string Appointment) : list AppointmentDoc :=
  filter (fun d => p d.2 = true) (map_to_list m).

(** [orderBy('createdAt', 'desc')] on a query result: the documents by
    falling time of creation.  The order among documents created at the same
    instant is the one this insertion gives; nothing below depends on it. *)
Fixpoint insertByCreatedAt (d : AppointmentDoc) (l : list AppointmentDoc)
    : list AppointmentDoc :=
  match l with
  | [] => [d]
  | d' :: l' =>
      if createdAt d'.2 <? createdAt d.2
      then d :: d' :: l'
      else d' :: insertByCreatedAt d l'
  end.

Definition orderByCreatedAtDesc (l : list AppointmentDoc) : list AppointmentDoc :=
  foldr insertByCreatedAt [] l.

End Firestore.

(** ** JavaScript helpers *)

Definition msPerDay : Z := 86400000.

(** [new Date(v)] for an ISO date: UTC midnight of the day. *)
Definition newDate (day : Z) : Z := day * msPerDay.

(** The local time zone, as ECMAScript's [LocalTZA(t, isUTC)]: the offset of
    local time from UTC, in milliseconds, in force at a UTC instant, and the
    offset in force at a local time value.  The two differ from instant to
    instant where clocks are changed during the year. *)
Record TimeZone := mkTimeZone {
  offsetAtUTC : Z -> Z;
  offsetAtLocal : Z -> Z
}.

(** A zone whose clocks are never changed; an offset stands for its zone. *)
Definition fixedZone (offset : Z) : TimeZone :=
  mkTimeZone (fun _ => offset) (fun _ => offset).

Coercion fixedZone : Z >-> TimeZone.

(** [d.setHours(h, m, s, ms)]: the local time value of [d], its time within
    the day replaced by the given one, taken back to UTC
    ([UTC(MakeDate(Day(LocalTime(d)), MakeTime(h, m, s, ms)))]). *)
Definition setHours (tz : TimeZone) (d h m s ms : Z) : Z :=
  let t := d + offsetAtUTC tz d in
  let local := t / msPerDay * msPerDay + (((h * 60 + m) * 60 + s) * 1000 + ms) in
  local - offsetAtLocal tz local.

(** The local calendar day (as a day count) an instant falls on. *)
Definition localDay (tz : TimeZone) (t : Z) : Z :=
  (t + offsetAtUTC tz t) / msPerDay.

(** Day count of a civil date, for writing examples. *)
Definition daysFromCivil (y m d : Z) : Z :=
  let y' := if m <=? 2 then y - 1 else y in
  let era := y' / 400 in
  let yoe := y' - era * 400 in
  let mp := (m + 9) mod 12 in
  let doy := (153 * mp + 2) / 5 + d - 1 in
  let doe := yoe * 365 + yoe / 4 - yoe / 100 + doy in
  era * 146097 + doe - 719468.

Definition digitChar (n : nat) : ascii := ascii_of_nat (48 + n).

Fixpoint toString_digits (fuel n : nat) (acc : string) : string :=
  match fuel with
  | O => acc
  | S fuel' =>
      let acc' := String (digitChar (n mod 10)) acc in
      if (n / 10 =? 0)%nat then acc' else toString_digits fuel' (n / 10) acc'
  end.

(** [n.toString()] for a natural number. *)
Definition toString (n : nat) : string := toString_digits (S n) n "".

Fixpoint repeatChar (k : nat) (c : ascii) : string :=
  match k with
  | O => ""
  | S k' => String c (repeatChar k' c)
  end.

(** [s.padStart(len, c)] for a one-character pad. *)
Definition padStart (len : nat) (c : ascii) (s : string) : string :=
  repeatChar (len - String.length s) c ++ s.

(** The values of [i] in [for (let i = start; i < stop; i += step)] and in
    [for (let i = start; i <= stop; i += step)]. *)
Fixpoint forLoopLt (fuel start stop step : nat) : list nat :=
  match fuel with
  | O => []
  | S fuel' =>
      if (start <? stop)%nat
      then start :: forLoopLt fuel' (start + step) stop step
      else []
  end.

Fixpoint forLoopLe (fuel start stop step : nat) : list nat :=
  match fuel with
  | O => []
  | S fuel' =>
      if (start <=? stop)%nat
      then start :: forLoopLe fuel' (start + step) stop step
      else []
  end.

(** [s.endsWith(suffix)] *)
Definition endsWith (s suffix : string) : bool :=
  (String.length suffix <=? String.length s)%nat
  && bool_decide (substring (String.length s - String.length suffix)
                    (String.length suffix) s = suffix).

(** [a || b] on strings that may be undefined: the first that is neither
    undefined nor empty. *)
Definition orElse (a : option string) (b : string) : string :=
  match a with
  | Some s => if bool_decide (s = "") then b else s
  | None => b
  end.

(** ** Booking page ([BookAppointment]) *)

Module BookAppointment.

Record FormData := mkFormData {
  fd_preferredDoctorId : string;
  fd_date : DateValue;
  fd_time : string;
  fd_healthConcern : string
}.

(** The query of the mount effect, [where('role', '==', 'doctor')] on
    [users], mapped to [{ uid: doc.id, ...doc.data() }]: the [uid] of the
    data, spread last, is the one kept. *)
Definition fetchDoctors (users : gmap string UserData) : list Doctor :=
  (fun d : string * UserData => mkDoctor (user_uid d.2) (user_name d.2))
    <$> filter (fun d : string * UserData => user_role d.2 = doctor)
          (map_to_list users).

(** The values of the doctor [<select>]: the empty placeholder and the
    [uid] of each fetched doctor. *)
Definition doctorOptions (doctors : list Doctor) : list string :=
  "" :: (doctor_uid <$> doctors).

(** [for (hour = 9; hour <= 17; hour++) for (minute = 0; minute < 60;
    minute += 30)], pushing [hh:mm]. *)
Definition generateTimeSlots : list string :=
  flat_map (fun hour =>
    map (fun minute =>
           padStart 2 "0" (toString hour) ++ ":" ++ padStart 2 "0" (toString minute))
        (forLoopLt 60 0 60 30))
    (forLoopLe 18 9 17 1).

(** The window of the daily-cap query, computed from the form's date:
    [appointmentDate.setHours(0,0,0,0)] and then, on the date so changed,
    [appointmentDate.setHours(23,59,59,999)]. *)
Definition startOfDay (tz : TimeZone) (day : Z) : Z :=
  setHours tz (newDate day) 0 0 0 0.
Definition endOfDay (tz : TimeZone) (day : Z) : Z :=
  setHours tz (startOfDay tz day) 23 59 59 999.

(** The documents matched by the daily-cap query. *)
Definition existingAppointments (tz : TimeZone) (currentUser : User) (day : Z)
    (db : Store) : list AppointmentDoc :=
  Firestore.getDocs
    (fun a => bool_decide (patientId a = uid currentUser)
              && (startOfDay tz day <=? createdAt a)
              && (createdAt a <=? endOfDay tz day))
    (coll_appointments db).

(** The submit handler: field checks, the concern's length, the daily-cap
    query, then [addDoc] with status pending.  [now] and [now'] are the two
    readings of the clock, [Timestamp.now()], for [createdAt] and
    [updatedAt]. *)
Definition handleSubmit (currentUser : User) (doctors : list Doctor)
    (formData : FormData) (now now' : Z) (tz : TimeZone) (newId : string)
    (db : Store)
    : Toast * Store :=
  match fd_date formData with
  | NoDate => (toast_error "Please fill in all fields", db)
  | IsoDate day =>
      if bool_decide (fd_preferredDoctorId formData = "")
         || bool_decide (fd_time formData = "")
         || bool_decide (fd_healthConcern formData = "")
      then (toast_error "Please fill in all fields", db)
      else if (200 <? String.length (fd_healthConcern formData))%nat
      then (toast_error "Health concern must be 200 characters or less", db)
      else if (2 <=? length (existingAppointments tz currentUser day db))%nat
      then (toast_error "You cannot book more than 2 appointments on the same day", db)
      else
        match find (fun d => bool_decide (doctor_uid d = fd_preferredDoctorId formData))
                   doctors with
        | None =>
            (* [preferredDoctorName: undefined] is refused by [addDoc];
               the rejection is caught. *)
            (toast_error "Failed to book appointment", db)
        | Some selectedDoctor =>
            (toast_success "Appointment booked successfully!",
             mkStore
               (Firestore.addDoc newId
                  (mkAppointment (uid currentUser) (name currentUser)
                     None None
                     (Some (fd_preferredDoctorId formData))
                     (Some (doctor_name selectedDoctor))
                     (fd_date formData) (fd_time formData)
                     (fd_healthConcern formData)
                     pending now now')
                  (coll_appointments db))
               (coll_prescriptions db) (coll_feedback db))
        end
  end.

End BookAppointment.


(** ** Pending-requests page of doctors ([PendingAppointments]) *)

Module PendingAppointments.

(** The page's React state: the list fetched when the page was mounted,
    less the appointments accepted from it since. *)
Record State := mkState {
  appointments : list AppointmentDoc
}.

(** The query of the mount effect: [where('status', '==', 'pending')]. *)
Definition fetchPendingAppointments (db : Store) : State :=
  mkState (Firestore.getDocs (fun a => bool_decide (status a = pending))
             (coll_appointments db)).

(** [updateDoc] with status, [doctorId], [doctorName] and [updatedAt]; on
    success the appointment leaves the page's list. *)
Definition handleAcceptAppointment (currentUser : User) (now : Z)
    (st : State) (appointmentId : string) (db : Store)
    : Toast * State * Store :=
  match Firestore.updateDoc appointmentId
          (fun a =>
             mkAppointment (patientId a) (patientName a)
               (Some (uid currentUser)) (Some (name currentUser))
               (preferredDoctorId a) (preferredDoctorName a)
               (date a) (time a) (healthConcern a)
               confirmed (createdAt a) now)
          (coll_appointments db) with
  | Some m =>
      (toast_success "Appointment accepted successfully!",
       mkState (filter (fun apt => apt.1 <> appointmentId) (appointments st)),
       mkStore m (coll_prescriptions db) (coll_feedback db))
  | None => (toast_error "Failed to accept appointment", st, db)
  end.

End PendingAppointments.

(** ** My-appointments page of doctors ([DoctorAppointments]) *)

Module DoctorAppointments.

Record State := mkState {
  appointments : list AppointmentDoc;
  prescriptions : gmap string Prescription;
  showPrescriptionModal : option string;
  prescriptionForm : list Medicine
}.

Definition blankMedicine : Medicine := mkMedicine "" "" "".

(** The prescription shown for an appointment: [docs[0]] of the query on
    [appointmentId], if any.  The query has no [orderBy]: when several
    documents match, which of them comes first is the store's choice (it
    orders them by their identifiers).  The one created first stands for it
    here; what is proved of the pages holds whichever it is. *)
Definition prescriptionOf (db : Store) (appointmentId : string)
    : option Prescription :=
  head (filter (fun p => presc_appointmentId p = appointmentId)
          (coll_prescriptions db)).

Definition fetchPrescriptions (db : Store)
    (completedAppointments : list AppointmentDoc) : gmap string Prescription :=
  foldl (fun prescriptionsData apt =>
           match prescriptionOf db apt.1 with
           | Some p => <[apt.1 := p]> prescriptionsData
           | None => prescriptionsData
           end)
        ∅ completedAppointments.

(** The query of the mount effect: [where('doctorId', '==', uid)], and the
    prescriptions of the completed ones. *)
Definition fetchMyAppointments (currentUser : User) (db : Store) : State :=
  let appointmentsList :=
    Firestore.getDocs
      (fun a => bool_decide (doctorId a = Some (uid currentUser)))
      (coll_appointments db) in
  let completedAppointments :=
    filter (fun apt => status apt.2 = completed) appointmentsList in
  mkState appointmentsList (fetchPrescriptions db completedAppointments)
    None [blankMedicine].

Definition getNextStatus (currentStatus : Status) : option Status :=
  match currentStatus with
  | confirmed => Some in_progress
  | in_progress => Some completed
  | _ => None
  end.

(** [{ ...apt, status: newStatus }] *)
Definition withStatus (newStatus : Status) (a : Appointment) : Appointment :=
  mkAppointment (patientId a) (patientName a) (doctorId a) (doctorName a)
    (preferredDoctorId a) (preferredDoctorName a)
    (date a) (time a) (healthConcern a)
    newStatus (createdAt a) (updatedAt a).

(** [updateDoc] with [status] and [updatedAt]; on success the page's copy
    of the appointment takes the new status. *)
Definition handleStatusUpdate (now : Z) (st : State)
    (appointmentId : string) (newStatus : Status) (db : Store)
    : Toast * State * Store :=
  match Firestore.updateDoc appointmentId
          (fun a =>
             mkAppointment (patientId a) (patientName a)
               (doctorId a) (doctorName a)
               (preferredDoctorId a) (preferredDoctorName a)
               (date a) (time a) (healthConcern a)
               newStatus (createdAt a) now)
          (coll_appointments db) with
  | Some m =>
      (toast_success ("Appointment " ++ statusWords newStatus ++ " successfully!"),
       mkState
         ((fun apt : AppointmentDoc =>
             if decide (apt.1 = appointmentId)
             then (apt.1, withStatus newStatus apt.2)
             else apt) <$> appointments st)
         (prescriptions st) (showPrescriptionModal st) (prescriptionForm st),
       mkStore m (coll_prescriptions db) (coll_feedback db))
  | None => (toast_error "Failed to update appointment status", st, db)
  end.

Definition handleAddMedicine (st : State) : State :=
  mkState (appointments st) (prescriptions st) (showPrescriptionModal st)
    (prescriptionForm st ++ [blankMedicine]).

Definition handleRemoveMedicine (index : nat) (st : State) : State :=
  if (1 <? length (prescriptionForm st))%nat
  then mkState (appointments st) (prescriptions st) (showPrescriptionModal st)
         (take index (prescriptionForm st) ++ drop (S index) (prescriptionForm st))
  else st.

Inductive MedicineField := fName | fDosage | fFrequency.

Definition setField (field : MedicineField) (value : string) (m : Medicine)
    : Medicine :=
  match field with
  | fName => mkMedicine value (dosage m) (frequency m)
  | fDosage => mkMedicine (med_name m) value (frequency m)
  | fFrequency => mkMedicine (med_name m) (dosage m) value
  end.

Definition handleMedicineChange (index : nat) (field : MedicineField)
    (value : string) (st : State) : State :=
  mkState (appointments st) (prescriptions st) (showPrescriptionModal st)
    (imap (fun i medicine => if decide (i = index)
                             then setField field value medicine
                             else medicine)
          (prescriptionForm st)).

(** [!med.name || !med.dosage || !med.frequency] *)
Definition incomplete (med : Medicine) : bool :=
  bool_decide (med_name med = "") || bool_decide (dosage med = "")
  || bool_decide (frequency med = "").

(** The only test is that of the medicine entries; then [addDoc], and the
    page records the prescription, closes the modal and resets the form. *)
Definition handleSubmitPrescription (now : Z) (st : State)
    (appointmentId : string) (db : Store) : Toast * State * Store :=
  if existsb incomplete (prescriptionForm st)
  then (toast_error "Please fill in all medicine fields", st, db)
  else
    let prescriptionData :=
      mkPrescription appointmentId (prescriptionForm st) now in
    (toast_success "Prescription added successfully!",
     mkState (appointments st)
       (<[appointmentId := prescriptionData]> (prescriptions st))
       None [blankMedicine],
     mkStore (coll_appointments db)
       (coll_prescriptions db ++ [prescriptionData]) (coll_feedback db)).

(** The [Add Prescription] button of an appointment card is rendered when
    [appointment.status === 'completed' && !prescriptions[appointment.id]];
    it opens the modal for that appointment. *)
Definition addPrescriptionOffered (st : State) (apt : AppointmentDoc) : bool :=
  bool_decide (status apt.2 = completed)
  && bool_decide (prescriptions st !! apt.1 = None).

Definition openPrescriptionModal (appointmentId : string) (st : State) : State :=
  mkState (appointments st) (prescriptions st) (Some appointmentId)
    (prescriptionForm st).

Definition cancelPrescriptionModal (st : State) : State :=
  mkState (appointments st) (prescriptions st) None [blankMedicine].

Definition getStatusColor (s : Status) : string :=
  match s with
  | confirmed => "bg-blue-100 text-blue-800"
  | in_progress => "bg-purple-100 text-purple-800"
  | completed => "bg-green-100 text-green-800"
  | _ => "bg-gray-100 text-gray-800"
  end.

Definition getStatusLabel (s : Status) : option string :=
  match s with
  | in_progress => Some "Start Appointment"
  | completed => Some "Complete Appointment"
  | _ => None
  end.

(** The status button of an appointment card: rendered when
    [getNextStatus(appointment.status)] is not null; a click calls
    [handleStatusUpdate] with that status, and the text is what
    [getStatusLabel] gives for it (none when that is null). *)
Definition statusButton (apt : AppointmentDoc) : option (Status * option string) :=
  match getNextStatus (status apt.2) with
  | Some newStatus => Some (newStatus, getStatusLabel newStatus)
  | None => None
  end.

End DoctorAppointments.

(** ** My-appointments page of patients ([PatientAppointments]) *)

Module PatientAppointments.

Record FeedbackForm := mkFeedbackForm {
  form_rating : Z;
  form_comment : string
}.

Record State := mkState {
  appointments : list AppointmentDoc;
  prescriptions : gmap string Prescription;
  feedbacks : gmap string Feedback;
  showFeedbackModal : option string;
  feedbackForm : FeedbackForm
}.

Definition initialForm : FeedbackForm := mkFeedbackForm 5 "".

(** [docs[0]] of the feedback query on [appointmentId] and [patientId], if
    any.  This query, too, has no [orderBy]; the document created first
    stands for the one the store puts first. *)
Definition feedbackOf (db : Store) (appointmentId patientId : string)
    : option Feedback :=
  head (filter (fun f => fb_appointmentId f = appointmentId
                         /\ fb_patientId f = patientId)
          (coll_feedback db)).

Definition fetchFeedbacks (currentUser : User) (db : Store)
    (completedAppointments : list AppointmentDoc) : gmap string Feedback :=
  foldl (fun feedbacksData apt =>
           match feedbackOf db apt.1 (uid currentUser) with
           | Some f => <[apt.1 := f]> feedbacksData
           | None => feedbacksData
           end)
        ∅ completedAppointments.

(** The query of the mount effect: [where('patientId', '==', uid)], and the
    prescriptions and this patient's feedback of the completed ones. *)
Definition fetchAppointments (currentUser : User) (db : Store) : State :=
  let appointmentsList :=
    Firestore.getDocs
      (fun a => bool_decide (patientId a = uid currentUser))
      (coll_appointments db) in
  let completedAppointments :=
    filter (fun apt => status apt.2 = completed) appointmentsList in
  mkState appointmentsList
    (DoctorAppointments.fetchPrescriptions db completedAppointments)
    (fetchFeedbacks currentUser db completedAppointments)
    None initialForm.

(** [!feedbackForm.rating], then the comment's length, then [addDoc] (with
    [comment || null]); the page records the feedback, closes the modal and
    resets the form. *)
Definition handleSubmitFeedback (currentUser : User) (now : Z) (st : State)
    (appointmentId doctorId : string) (db : Store) : Toast * State * Store :=
  if form_rating (feedbackForm st) =? 0
  then (toast_error "Please provide a rating", st, db)
  else if (150 <? String.length (form_comment (feedbackForm st)))%nat
  then (toast_error "Comment must be 150 characters or less", st, db)
  else
    (toast_success "Feedback submitted successfully!",
     mkState (appointments st) (prescriptions st)
       (<[appointmentId :=
            mkFeedback appointmentId (uid currentUser) doctorId
              (form_rating (feedbackForm st))
              (Some (form_comment (feedbackForm st))) now]> (feedbacks st))
       None initialForm,
     mkStore (coll_appointments db) (coll_prescriptions db)
       (coll_feedback db ++
        [mkFeedback appointmentId (uid currentUser) doctorId
           (form_rating (feedbackForm st))
           (if decide (form_comment (feedbackForm st) = "")
            then None else Some (form_comment (feedbackForm st)))
           now])).

(** A JavaScript truthiness test on [appointment.doctorId]. *)
Definition truthy (o : option string) : bool :=
  match o with
  | Some s => negb (bool_decide (s = ""))
  | None => false
  end.

(** The [Leave Feedback] button of an appointment card is rendered when
    [appointment.status === 'completed' && appointment.doctorId] and
    [feedbacks[appointment.id]] is not set. *)
Definition leaveFeedbackOffered (st : State) (apt : AppointmentDoc) : bool :=
  bool_decide (status apt.2 = completed)
  && truthy (doctorId apt.2)
  && bool_decide (feedbacks st !! apt.1 = None).

Definition openFeedbackModal (appointmentId : string) (st : State) : State :=
  mkState (appointments st) (prescriptions st) (feedbacks st)
    (Some appointmentId) (feedbackForm st).

Definition cancelFeedbackModal (st : State) : State :=
  mkState (appointments st) (prescriptions st) (feedbacks st)
    None initialForm.

(** The stars of the rating control: [[1, 2, 3, 4, 5].map(star => ...)],
    each calling [onRate(star)] when clicked. *)
Definition stars : list Z := [1; 2; 3; 4; 5].

Definition onRate (star : Z) (st : State) : State :=
  mkState (appointments st) (prescriptions st) (feedbacks st)
    (showFeedbackModal st)
    (mkFeedbackForm star (form_comment (feedbackForm st))).

Definition onCommentChange (value : string) (st : State) : State :=
  mkState (appointments st) (prescriptions st) (feedbacks st)
    (showFeedbackModal st)
    (mkFeedbackForm (form_rating (feedbackForm st)) value).

(** The [Submit Feedback] button of the modal: looks the appointment up in
    the page's list and submits when it has a doctor; [None] when the
    click has no effect. *)
Definition submitFeedbackClicked (currentUser : User) (now : Z) (st : State)
    (db : Store) : option (Toast * State * Store) :=
  match showFeedbackModal st with
  | None => None
  | Some appointmentId =>
      match find (fun apt => bool_decide (apt.1 = appointmentId))
                 (appointments st) with
      | Some apt =>
          match doctorId apt.2 with
          | Some d =>
              if truthy (Some d)
              then Some (handleSubmitFeedback currentUser now st appointmentId d db)
              else None
          | None => None
          end
      | None => None
      end
  end.

Definition getStatusColor (s : Status) : string :=
  match s with
  | pending => "bg-yellow-100 text-yellow-800"
  | confirmed => "bg-blue-100 text-blue-800"
  | in_progress => "bg-purple-100 text-purple-800"
  | completed => "bg-green-100 text-green-800"
  end.

(** [renderStars(rating)]: for each of the five stars, whether it is drawn
    filled ([star <= rating]). *)
Definition renderStars (rating : Z) : list bool :=
  (fun star => bool_decide (star <= rating)) <$> stars.

(** The heading of an appointment card, after [Dr. ]:
    [appointment.doctorName || appointment.preferredDoctorName || 'To be assigned']. *)
Definition doctorHeading (a : Appointment) : string :=
  orElse (doctorName a) (orElse (preferredDoctorName a) "To be assigned").

(** The prescription block of a card: rendered when
    [appointment.status === 'completed' && prescriptions[appointment.id]]. *)
Definition prescriptionShown (st : State) (apt : AppointmentDoc)
    : option Prescription :=
  if bool_decide (status apt.2 = completed) then prescriptions st !! apt.1 else None.

(** The feedback block of a card: the patient's own feedback, rendered when
    the appointment is completed, has a doctor and [feedbacks[appointment.id]]
    is set. *)
Definition feedbackShown (st : State) (apt : AppointmentDoc) : option Feedback :=
  if bool_decide (status apt.2 = completed) && truthy (doctorId apt.2)
  then feedbacks st !! apt.1
  else None.

End PatientAppointments.

(** ** Aggregation: [Dashboard] and [Profile] *)

Definition countStatus (s : Status) (l : list AppointmentDoc) : nat :=
  length (filter (fun apt => status apt.2 = s) l).

(** [feedbacks.reduce((sum, feedback) => sum + feedback.rating, 0)] *)
Definition totalRating (feedbacks : list Feedback) : Z :=
  fold_left (fun sum f => sum + rating f) feedbacks 0.

(** The documents of the feedback query on [doctorId]. *)
Definition feedbackFor (db : Store) (doctor_id : string) : list Feedback :=
  filter (fun f => fb_doctorId f = doctor_id) (coll_feedback db).

(** The appointments query of both pages, by role. *)
Definition appointmentsOf (currentUser : User) (db : Store) : list AppointmentDoc :=
  match role currentUser with
  | patient =>
      Firestore.getDocs (fun a => bool_decide (patientId a = uid currentUser))
        (coll_appointments db)
  | doctor =>
      Firestore.getDocs (fun a => bool_decide (doctorId a = Some (uid currentUser)))
        (coll_appointments db)
  end.

Module Dashboard.

Record Stats := mkStats {
  totalAppointments : nat;
  pendingAppointments : nat;
  completedAppointments : nat;
  averageRating : Q
}.

(** The average is computed for a doctor with a completed appointment and
    some feedback, and is 0 otherwise. *)
Definition fetchDashboardData (currentUser : User) (db : Store) : Stats :=
  let appointments := appointmentsOf currentUser db in
  let completed := countStatus completed appointments in
  mkStats (length appointments) (countStatus pending appointments) completed
    (if bool_decide (role currentUser = doctor) && (0 <? completed)%nat
     then
       let feedbacks := feedbackFor db (uid currentUser) in
       if (0 <? length feedbacks)%nat
       then (inject_Z (totalRating feedbacks)
             / inject_Z (Z.of_nat (length feedbacks)))%Q
       else 0%Q
     else 0%Q).

(** [setRecentAppointments(appointments.slice(0, 5))], on the query result
    ordered by falling [createdAt]. *)
Definition recentAppointments (currentUser : User) (db : Store)
    : list AppointmentDoc :=
  take 5 (Firestore.orderByCreatedAtDesc (appointmentsOf currentUser db)).

(** The name on a row of the recent list: for a patient
    [appointment.doctorName || appointment.preferredDoctorName || 'Doctor TBD'],
    for a doctor the patient's name. *)
Definition rowName (currentUser : User) (a : Appointment) : string :=
  match role currentUser with
  | patient => orElse (doctorName a) (orElse (preferredDoctorName a) "Doctor TBD")
  | doctor => patientName a
  end.

End Dashboard.

Module Profile.

Record Stats := mkStats {
  totalAppointments : nat;
  completedAppointments : nat;
  averageRating : Q;
  totalFeedbacks : nat
}.

(** The average is computed for a doctor with some feedback, and is 0
    otherwise. *)
Definition fetchProfileData (currentUser : User) (db : Store) : Stats :=
  let appointments := appointmentsOf currentUser db in
  match role currentUser with
  | doctor =>
      let feedbacks := feedbackFor db (uid currentUser) in
      mkStats (length appointments) (countStatus completed appointments)
        (if (0 <? length feedbacks)%nat
         then (inject_Z (totalRating feedbacks)
               / inject_Z (Z.of_nat (length feedbacks)))%Q
         else 0%Q)
        (length feedbacks)
  | patient =>
      mkStats (length appointments) (countStatus completed appointments) 0%Q 0
  end.

(** [feedbacks.slice(0, 5)], each with the patient's name of the appointment
    it belongs to among the doctor's appointments:
    [appointment?.patientName || 'Unknown Patient'].  Empty for a patient.
    The feedback query has no [orderBy]: which five come first when there
    are more is the store's choice, and the order of creation stands for its
    order here. *)
Definition recentFeedbacks (currentUser : User) (db : Store)
    : list (Feedback * string) :=
  match role currentUser with
  | doctor =>
      let appointments := appointmentsOf currentUser db in
      (fun feedback =>
         (feedback,
          orElse (patientName <$> (snd <$> find (fun apt : AppointmentDoc =>
                                      bool_decide (apt.1 = fb_appointmentId feedback))
                                    appointments))
                 "Unknown Patient"))
        <$> take 5 (feedbackFor db (uid currentUser))
  | patient => []
  end.

Definition renderStars (rating : Z) : list bool :=
  (fun star => bool_decide (star <= rating)) <$> [1; 2; 3; 4; 5].

End Profile.

(** ** Accounts: [AuthContext] and [Register] *)

(** What [createUserWithEmailAndPassword] answers: a rejection with its
    message, or the [uid] of the new account.  It is the authentication
    service's, and an input here. *)
Inductive AuthResult := authRejected (message : string) | authCreated (newUid : string).

Module AuthContext.

Definition domain : string := "@meditrack.local".

(** [signup]: throws on a foreign domain and on a rejection by the
    authentication service; otherwise writes the user document under the new
    [uid] with [setDoc] and shows a toast.  [inl] is the message of the error
    thrown. *)
Definition signup (email password name : string) (role : Role)
    (auth : AuthResult) (now : Z) (users : gmap string UserData)
    : string + (Toast * gmap string UserData) :=
  if negb (endsWith email domain)
  then inl "Only @meditrack.local email addresses are allowed"
  else
    match auth with
    | authRejected message => inl message
    | authCreated newUid =>
        inr (toast_success "Account created successfully!",
             <[newUid := mkUserData newUid email name role now]> users)
    end.

(** The user the pages get as [currentUser] once signed in: the data of the
    document [users/uid], if it exists. *)
Definition currentUserOf (signedIn : string) (users : gmap string UserData)
    : option User :=
  (fun d => mkUser (user_uid d) (user_name d) (user_role d)) <$> users !! signedIn.

End AuthContext.

Module Register.

Record FormData := mkFormData {
  fd_name : string;
  fd_email : string;
  fd_password : string;
  fd_confirmPassword : string;
  fd_role : Role
}.

(** The submit handler: the four checks in their order, then [signup]; on
    success the page navigates to [/dashboard] (the second component), and an
    error thrown by [signup] is shown with its message, or with
    [Registration failed] when the message is empty. *)
Definition handleSubmit (formData : FormData) (auth : AuthResult) (now : Z)
    (users : gmap string UserData)
    : Toast * option string * gmap string UserData :=
  if bool_decide (fd_name formData = "") || bool_decide (fd_email formData = "")
     || bool_decide (fd_password formData = "")
     || bool_decide (fd_confirmPassword formData = "")
  then (toast_error "Please fill in all fields", None, users)
  else if negb (endsWith (fd_email formData) "@meditrack.local")
  then (toast_error "Only @meditrack.local email addresses are allowed", None, users)
  else if negb (bool_decide (fd_password formData = fd_confirmPassword formData))
  then (toast_error "Passwords do not match", None, users)
  else if (String.length (fd_password formData) <? 6)%nat
  then (toast_error "Password must be at least 6 characters long", None, users)
  else
    match AuthContext.signup (fd_email formData) (fd_password formData)
            (fd_name formData) (fd_role formData) auth now users with
    | inr (t, users') => (t, Some "/dashboard", users')
    | inl message =>
        (toast_error (if bool_decide (message = "") then "Registration failed"
                      else message),
         None, users)
    end.

(** Submitting one registration form after another. *)
Fixpoint registrations (l : list (FormData * AuthResult * Z))
    (users : gmap string UserData) : gmap string UserData :=
  match l with
  | [] => users
  | (formData, auth, now) :: l' =>
      registrations l' (handleSubmit formData auth now users).2
  end.

End Register.

(** ** The portal: one store, many mounted pages *)

Inductive Page :=
  | PendingPage (u : User) (st : PendingAppointments.State)
  | DoctorPage (u : User) (st : DoctorAppointments.State)
  | PatientPage (u : User) (st : PatientAppointments.State).

Record World := mkWorld {
  db : Store;
  pages : list Page
}.

Definition initialWorld : World := mkWorld emptyStore [].

(** What a user can do.  [page] is the position of a mounted page.  The
    routes restrict the pages by role through a guard component that is not
    among the sources; here any user may open any page, which only adds
    behaviours. *)
Inductive Event :=
  | Book (u : User) (doctors : list Doctor)
      (formData : BookAppointment.FormData) (now now' : Z) (tz : TimeZone)
      (newId : string)
  | OpenPending (u : User)
  | OpenDoctor (u : User)
  | OpenPatient (u : User)
  | Accept (page : nat) (appointmentId : string) (now : Z)
  | Advance (page : nat) (appointmentId : string) (now : Z)
  | AddPrescription (page : nat) (appointmentId : string)
  | AddMedicine (page : nat)
  | RemoveMedicine (page index : nat)
  | ChangeMedicine (page index : nat)
      (field : DoctorAppointments.MedicineField) (value : string)
  | CancelPrescription (page : nat)
  | SubmitPrescription (page : nat) (now : Z)
  | LeaveFeedback (page : nat) (appointmentId : string)
  | Rate (page : nat) (star : Z)
  | Comment (page : nat) (value : string)
  | CancelFeedback (page : nat)
  | SubmitFeedback (page : nat) (now : Z).

Definition findDoc (appointmentId : string) (l : list AppointmentDoc)
    : option AppointmentDoc :=
  find (fun apt => bool_decide (apt.1 = appointmentId)) l.

Definition onDoctorPage (w : World) (page : nat)
    (f : User -> DoctorAppointments.State
         -> option (DoctorAppointments.State * Store)) : option World :=
  match pages w !! page with
  | Some (DoctorPage u st) =>
      match f u st with
      | Some (st', db') => Some (mkWorld db' (<[page := DoctorPage u st']> (pages w)))
      | None => None
      end
  | _ => None
  end.

Definition onPatientPage (w : World) (page : nat)
    (f : User -> PatientAppointments.State
         -> option (PatientAppointments.State * Store)) : option World :=
  match pages w !! page with
  | Some (PatientPage u st) =>
      match f u st with
      | Some (st', db') => Some (mkWorld db' (<[page := PatientPage u st']> (pages w)))
      | None => None
      end
  | _ => None
  end.

(** The effect of an event; [None] when the portal does not offer it (no
    such page, button not rendered).  A new appointment gets an identifier
    that is not in use. *)
Definition exec (e : Event) (w : World) : option World :=
  match e with
  | Book u doctors formData now now' tz newId =>
      if bool_decide (coll_appointments (db w) !! newId = None)
      then Some (mkWorld
                   (BookAppointment.handleSubmit u doctors formData now now' tz newId (db w)).2
                   (pages w))
      else None
  | OpenPending u =>
      Some (mkWorld (db w)
              (pages w ++ [PendingPage u
                 (PendingAppointments.fetchPendingAppointments (db w))]))
  | OpenDoctor u =>
      Some (mkWorld (db w)
              (pages w ++ [DoctorPage u
                 (DoctorAppointments.fetchMyAppointments u (db w))]))
  | OpenPatient u =>
      Some (mkWorld (db w)
              (pages w ++ [PatientPage u
                 (PatientAppointments.fetchAppointments u (db w))]))
  | Accept page appointmentId now =>
      match pages w !! page with
      | Some (PendingPage u st) =>
          match findDoc appointmentId (PendingAppointments.appointments st) with
          | Some _ =>
              let r := PendingAppointments.handleAcceptAppointment
                         u now st appointmentId (db w) in
              Some (mkWorld r.2 (<[page := PendingPage u r.1.2]> (pages w)))
          | None => None
          end
      | _ => None
      end
  | Advance page appointmentId now =>
      onDoctorPage w page (fun u st =>
        match findDoc appointmentId (DoctorAppointments.appointments st) with
        | Some apt =>
            match DoctorAppointments.getNextStatus (status apt.2) with
            | Some newStatus =>
                let r := DoctorAppointments.handleStatusUpdate
                           now st appointmentId newStatus (db w) in
                Some (r.1.2, r.2)
            | None => None
            end
        | None => None
        end)
  | AddPrescription page appointmentId =>
      onDoctorPage w page (fun u st =>
        match findDoc appointmentId (DoctorAppointments.appointments st) with
        | Some apt =>
            if DoctorAppointments.addPrescriptionOffered st apt
            then Some (DoctorAppointments.openPrescriptionModal appointmentId st, db w)
            else None
        | None => None
        end)
  | AddMedicine page =>
      onDoctorPage w page (fun u st =>
        match DoctorAppointments.showPrescriptionModal st with
        | Some _ => Some (DoctorAppointments.handleAddMedicine st, db w)
        | None => None
        end)
  | RemoveMedicine page index =>
      onDoctorPage w page (fun u st =>
        match DoctorAppointments.showPrescriptionModal st with
        | Some _ => Some (DoctorAppointments.handleRemoveMedicine index st, db w)
        | None => None
        end)
  | ChangeMedicine page index field value =>
      onDoctorPage w page (fun u st =>
        match DoctorAppointments.showPrescriptionModal st with
        | Some _ =>
            Some (DoctorAppointments.handleMedicineChange index field value st, db w)
        | None => None
        end)
  | CancelPrescription page =>
      onDoctorPage w page (fun u st =>
        match DoctorAppointments.showPrescriptionModal st with
        | Some _ => Some (DoctorAppointments.cancelPrescriptionModal st, db w)
        | None => None
        end)
  | SubmitPrescription page now =>
      onDoctorPage w page (fun u st =>
        match DoctorAppointments.showPrescriptionModal st with
        | Some appointmentId =>
            let r := DoctorAppointments.handleSubmitPrescription
                       now st appointmentId (db w) in
            Some (r.1.2, r.2)
        | None => None
        end)
  | LeaveFeedback page appointmentId =>
      onPatientPage w page (fun u st =>
        match findDoc appointmentId (PatientAppointments.appointments st) with
        | Some apt =>
            if PatientAppointments.leaveFeedbackOffered st apt
            then Some (PatientAppointments.openFeedbackModal appointmentId st, db w)
            else None
        | None => None
        end)
  | Rate page star =>
      onPatientPage w page (fun u st =>
        match PatientAppointments.showFeedbackModal st with
        | Some _ =>
            if bool_decide (star ∈ PatientAppointments.stars)
            then Some (PatientAppointments.onRate star st, db w)
            else None
        | None => None
        end)
  | Comment page value =>
      onPatientPage w page (fun u st =>
        match PatientAppointments.showFeedbackModal st with
        | Some _ => Some (PatientAppointments.onCommentChange value st, db w)
        | None => None
        end)
  | CancelFeedback page =>
      onPatientPage w page (fun u st =>
        match PatientAppointments.showFeedbackModal st with
        | Some _ => Some (PatientAppointments.cancelFeedbackModal st, db w)
        | None => None
        end)
  | SubmitFeedback page now =>
      onPatientPage w page (fun u st =>
        match PatientAppointments.submitFeedbackClicked u now st (db w) with
        | Some r => Some (r.1.2, r.2)
        | None => None
        end)
  end.

(** Running a sequence of events from a world. *)
Fixpoint run (es : list Event) (w : World) : option World :=
  match es with
  | [] => Some w
  | e :: es' =>
      match exec e w with
      | Some w' => run es' w'
      | None => None
      end
  end.

Inductive reachable : World -> Prop :=
  | reachable_initial : reachable initialWorld
  | reachable_step w e w' : reachable w -> exec e w = Some w' -> reachable w'.

(** ** Notions used in the statements *)

(** The status a page's copy shows for the appointment an event acts on,
    for the two events that write a status. *)
Definition seenStatus (e : Event) (w : World) : option (string * Status) :=
  match e with
  | Accept page appointmentId _ =>
      match pages w !! page with
      | Some (PendingPage _ st) =>
          (fun apt : AppointmentDoc => (apt.1, status apt.2))
            <$> findDoc appointmentId (PendingAppointments.appointments st)
      | _ => None
      end
  | Advance page appointmentId _ =>
      match pages w !! page with
      | Some (DoctorPage _ st) =>
          (fun apt : AppointmentDoc => (apt.1, status apt.2))
            <$> findDoc appointmentId (DoctorAppointments.appointments st)
      | _ => None
      end
  | _ => None
  end.

Definition storedStatus (w : World) (appointmentId : string) : option Status :=
  status <$> coll_appointments (db w) !! appointmentId.

(** An event is in sync for an appointment when, if it writes that
    appointment's status, the acting page's copy shows the stored status. *)
Definition inSync (appointmentId : string) (e : Event) (w : World) : Prop :=
  forall seen, seenStatus e w = Some (appointmentId, seen) ->
               storedStatus w appointmentId = Some seen.

Fixpoint inSyncRun (appointmentId : string) (es : list Event) (w : World) : Prop :=
  match es with
  | [] => True
  | e :: es' =>
      inSync appointmentId e w /\
      match exec e w with
      | Some w' => inSyncRun appointmentId es' w'
      | None => True
      end
  end.


(** The arithmetic mean of the ratings of a list of feedback records. *)
Definition meanRating (fs : list Feedback) : Q :=
  Qdiv (inject_Z (foldr Z.add 0 (map rating fs)))
       (inject_Z (Z.of_nat (length fs))).

(** The appointment as [handleAcceptAppointment] rewrites it. *)
Definition claimedBy (u : User) (now : Z) (a : Appointment) : Appointment :=
  mkAppointment (patientId a) (patientName a)
    (Some (uid u)) (Some (name u))
    (preferredDoctorId a) (preferredDoctorName a)
    (date a) (time a) (healthConcern a) confirmed (createdAt a) now.

(** The appointment as [handleStatusUpdate] rewrites it. *)
Definition advancedTo (newStatus : Status) (now : Z) (a : Appointment)
    : Appointment :=
  mkAppointment (patientId a) (patientName a) (doctorId a) (doctorName a)
    (preferredDoctorId a) (preferredDoctorName a)
    (date a) (time a) (healthConcern a) newStatus (createdAt a) now.

(** How one event may change the appointments collection. *)
Inductive appointmentsChange (w : World) (e : Event)
    (m' : gmap string Appointment) : Prop :=
  | change_none :
      m' = coll_appointments (db w) -> appointmentsChange w e m'
  | change_create u doctors formData now now' tz newId a :
      e = Book u doctors formData now now' tz newId ->
      coll_appointments (db w) !! newId = None ->
      status a = pending -> doctorId a = None ->
      patientId a = uid u -> createdAt a = now ->
      m' = <[newId := a]> (coll_appointments (db w)) ->
      appointmentsChange w e m'
  | change_claim page id now u st apt a :
      e = Accept page id now ->
      pages w !! page = Some (PendingPage u st) ->
      findDoc id (PendingAppointments.appointments st) = Some apt ->
      coll_appointments (db w) !! id = Some a ->
      m' = <[id := claimedBy u now a]> (coll_appointments (db w)) ->
      appointmentsChange w e m'
  | change_advance page id now u st apt newStatus a :
      e = Advance page id now ->
      pages w !! page = Some (DoctorPage u st) ->
      findDoc id (DoctorAppointments.appointments st) = Some apt ->
      DoctorAppointments.getNextStatus (status apt.2) = Some newStatus ->
      coll_appointments (db w) !! id = Some a ->
      m' = <[id := advancedTo newStatus now a]> (coll_appointments (db w)) ->
      appointmentsChange w e m'.

(** The patient's stored appointments created on a given local day. *)
Definition createdOn (tz : TimeZone) (patient_id : string) (day : Z) (db : Store)
    : list AppointmentDoc :=
  filter (fun apt => patientId apt.2 = patient_id
                     /\ localDay tz (createdAt apt.2) = day)
         (map_to_list (coll_appointments db)).


(** Every entry of a prescription form is filled in. *)
Definition allFilled (form : list Medicine) : Prop :=
  Forall (fun med => med_name med <> "" /\ dosage med <> "" /\ frequency med <> "")
         form.

(** The stored prescriptions for an appointment. *)
Definition prescriptionRecords (db : Store) (appointmentId : string)
    : list Prescription :=
  filter (fun p => presc_appointmentId p = appointmentId) (coll_prescriptions db).

(** The stored feedback records of a patient for an appointment. *)
Definition feedbackRecords (db : Store) (appointmentId patient_id : string)
    : list Feedback :=
  filter (fun f => fb_appointmentId f = appointmentId /\ fb_patientId f = patient_id)
         (coll_feedback db).

(** The state of the pending page mounted at a position, if there is one. *)
Definition pendingPageAt (w : World) (page : nat)
    : option (User * PendingAppointments.State) :=
  match pages w !! page with
  | Some (PendingPage u st) => Some (u, st)
  | _ => None
  end.

(** The state of the doctor's page mounted at a position, if there is one. *)
Definition doctorPageAt (w : World) (page : nat)
    : option (User * DoctorAppointments.State) :=
  match pages w !! page with
  | Some (DoctorPage u st) => Some (u, st)
  | _ => None
  end.

(** The state of the patient's page mounted at a position, if there is one. *)
Definition patientPageAt (w : World) (page : nat)
    : option (User * PatientAppointments.State) :=
  match pages w !! page with
  | Some (PatientPage u st) => Some (u, st)
  | _ => None
  end.

(** ** Invariants of the portal *)

(** The stored appointment has a doctor. *)
Definition claimed (db : Store) (appointmentId : string) : Prop :=
  exists a, coll_appointments db !! appointmentId = Some a /\ doctorId a <> None.

(** The doctor fields are empty exactly on the pending appointments. *)
Definition storeOk (db : Store) : Prop :=
  forall id a, coll_appointments db !! id = Some a ->
               (doctorId a = None <-> status a = pending).

(** What a mounted page's copy satisfies: a pending page lists pending
    copies; a doctor's page lists, once each, appointments claimed in the
    store and claimed by this doctor in the copy, and its modal is open only
    on a copy that is completed and has no prescription on the page; a
    patient's modal is open only on a completed copy without feedback on the
    page, and its rating is one of the stars. *)
Definition pageOk (db : Store) (p : Page) : Prop :=
  match p with
  | PendingPage u st =>
      forall apt, apt ∈ PendingAppointments.appointments st ->
                  status apt.2 = pending
  | DoctorPage u st =>
      NoDup (DoctorAppointments.appointments st).*1 /\
      (forall apt, apt ∈ DoctorAppointments.appointments st ->
                   doctorId apt.2 = Some (uid u) /\ claimed db apt.1) /\
      (forall id, DoctorAppointments.showPrescriptionModal st = Some id ->
                  DoctorAppointments.prescriptions st !! id = None /\
                  exists apt, apt ∈ DoctorAppointments.appointments st /\
                              apt.1 = id /\ status apt.2 = completed)
  | PatientPage u st =>
      (forall id, PatientAppointments.showFeedbackModal st = Some id ->
                  PatientAppointments.feedbacks st !! id = None /\
                  exists apt, apt ∈ PatientAppointments.appointments st /\
                              apt.1 = id /\ status apt.2 = completed) /\
      1 <= PatientAppointments.form_rating (PatientAppointments.feedbackForm st) <= 5
  end.

Definition worldOk (w : World) : Prop :=
  storeOk (db w) /\ Forall (pageOk (db w)) (pages w).

(** ** Further notions: what is stored, and by which event *)

(** The conditions under which [handleSubmit] books: a date [day], every
    field filled in, a concern of at most 200 characters, fewer than two
    documents matched by the daily-cap query, and the chosen doctor [d]
    found in the fetched list. *)
Definition admitted (tz : TimeZone) (u : User) (doctors : list Doctor)
    (formData : BookAppointment.FormData) (db : Store) (day : Z) (d : Doctor)
    : Prop :=
  BookAppointment.fd_date formData = IsoDate day /\
  BookAppointment.fd_preferredDoctorId formData <> "" /\
  BookAppointment.fd_time formData <> "" /\
  BookAppointment.fd_healthConcern formData <> "" /\
  (String.length (BookAppointment.fd_healthConcern formData) <= 200)%nat /\
  (length (BookAppointment.existingAppointments tz u day db) < 2)%nat /\
  find (fun d0 => bool_decide (doctor_uid d0
                               = BookAppointment.fd_preferredDoctorId formData))
       doctors = Some d.

(** The document [handleSubmit] adds. *)
Definition booked (u : User) (formData : BookAppointment.FormData)
    (now now' : Z) (d : Doctor) : Appointment :=
  mkAppointment (uid u) (name u) None None
    (Some (BookAppointment.fd_preferredDoctorId formData))
    (Some (doctor_name d))
    (BookAppointment.fd_date formData) (BookAppointment.fd_time formData)
    (BookAppointment.fd_healthConcern formData) pending now now'.

(** The document [handleSubmitFeedback] adds. *)
Definition feedbackDoc (u : User) (st : PatientAppointments.State)
    (appointmentId doctor_id : string) (now : Z) : Feedback :=
  mkFeedback appointmentId (uid u) doctor_id
    (PatientAppointments.form_rating (PatientAppointments.feedbackForm st))
    (if decide (PatientAppointments.form_comment
                  (PatientAppointments.feedbackForm st) = "")
     then None
     else Some (PatientAppointments.form_comment
                  (PatientAppointments.feedbackForm st)))
    now.

(** How one event may change the store: not at all, or by one of five
    writes. *)
Inductive storeChange (w : World) (e : Event) (db' : Store) : Prop :=
  | store_same :
      db' = db w -> storeChange w e db'
  | store_book u doctors formData now now' tz newId day d :
      e = Book u doctors formData now now' tz newId ->
      coll_appointments (db w) !! newId = None ->
      admitted tz u doctors formData (db w) day d ->
      db' = mkStore (<[newId := booked u formData now now' d]> (coll_appointments (db w)))
              (coll_prescriptions (db w)) (coll_feedback (db w)) ->
      storeChange w e db'
  | store_claim page id now u st apt a :
      e = Accept page id now ->
      pages w !! page = Some (PendingPage u st) ->
      findDoc id (PendingAppointments.appointments st) = Some apt ->
      coll_appointments (db w) !! id = Some a ->
      db' = mkStore (<[id := claimedBy u now a]> (coll_appointments (db w)))
              (coll_prescriptions (db w)) (coll_feedback (db w)) ->
      storeChange w e db'
  | store_advance page id now u st apt newStatus a :
      e = Advance page id now ->
      pages w !! page = Some (DoctorPage u st) ->
      findDoc id (DoctorAppointments.appointments st) = Some apt ->
      DoctorAppointments.getNextStatus (status apt.2) = Some newStatus ->
      coll_appointments (db w) !! id = Some a ->
      db' = mkStore (<[id := advancedTo newStatus now a]> (coll_appointments (db w)))
              (coll_prescriptions (db w)) (coll_feedback (db w)) ->
      storeChange w e db'
  | store_prescribe page now u st id :
      e = SubmitPrescription page now ->
      pages w !! page = Some (DoctorPage u st) ->
      DoctorAppointments.showPrescriptionModal st = Some id ->
      allFilled (DoctorAppointments.prescriptionForm st) ->
      db' = mkStore (coll_appointments (db w))
              (coll_prescriptions (db w)
               ++ [mkPrescription id (DoctorAppointments.prescriptionForm st) now])
              (coll_feedback (db w)) ->
      storeChange w e db'
  | store_rate page now u st id apt d :
      e = SubmitFeedback page now ->
      pages w !! page = Some (PatientPage u st) ->
      PatientAppointments.showFeedbackModal st = Some id ->
      findDoc id (PatientAppointments.appointments st) = Some apt ->
      doctorId apt.2 = Some d -> d <> "" ->
      PatientAppointments.form_rating (PatientAppointments.feedbackForm st) <> 0 ->
      (String.length (PatientAppointments.form_comment
                        (PatientAppointments.feedbackForm st)) <= 150)%nat ->
      db' = mkStore (coll_appointments (db w)) (coll_prescriptions (db w))
              (coll_feedback (db w) ++ [feedbackDoc u st id d now]) ->
      storeChange w e db'.

(** The fields of an appointment that are written when it is booked. *)
Definition bookingFields (a : Appointment)
    : string * string * option string * option string * DateValue * string
      * string * Z :=
  (patientId a, patientName a, preferredDoctorId a, preferredDoctorName a,
   date a, time a, healthConcern a, createdAt a).

(** [medicine[field]] *)
Definition fieldOf (field : DoctorAppointments.MedicineField) (m : Medicine)
    : string :=
  match field with
  | DoctorAppointments.fName => med_name m
  | DoctorAppointments.fDosage => dosage m
  | DoctorAppointments.fFrequency => frequency m
  end.

(** Created no earlier than: the order of [orderBy('createdAt', 'desc')]. *)
Definition notOlder (x y : AppointmentDoc) : Prop :=
  createdAt y.2 <= createdAt x.2.

(** ** Further invariants of the portal *)

(** A stored appointment has what the booking form requires, and has its
    two doctor fields set together. *)
Definition appointmentOk (a : Appointment) : Prop :=
  date a <> NoDate /\ time a <> "" /\ healthConcern a <> "" /\
  (String.length (healthConcern a) <= 200)%nat /\
  (exists p, preferredDoctorId a = Some p /\ p <> "") /\
  is_Some (preferredDoctorName a) /\
  (doctorId a = None <-> doctorName a = None).

(** A stored prescription has at least one medicine, every entry filled in,
    and belongs to a stored appointment that has a doctor. *)
Definition prescriptionOk (db : Store) (p : Prescription) : Prop :=
  medicines p <> [] /\ allFilled (medicines p) /\
  claimed db (presc_appointmentId p).

(** The stored appointment belongs to the patient. *)
Definition ownedBy (db : Store) (patient_id appointmentId : string) : Prop :=
  exists a, coll_appointments db !! appointmentId = Some a /\
            patientId a = patient_id.

(** A stored feedback has a rating from 1 to 5, a comment that is absent or
    has between 1 and 150 characters, a doctor, and belongs to a stored
    appointment of the patient who gave it. *)
Definition feedbackOk (db : Store) (f : Feedback) : Prop :=
  1 <= rating f <= 5 /\
  match comment f with
  | Some c => c <> "" /\ (String.length c <= 150)%nat
  | None => True
  end /\
  fb_doctorId f <> "" /\
  ownedBy db (fb_patientId f) (fb_appointmentId f).

Definition recordsOk (db : Store) : Prop :=
  (forall id a, coll_appointments db !! id = Some a -> appointmentOk a) /\
  Forall (prescriptionOk db) (coll_prescriptions db) /\
  Forall (feedbackOk db) (coll_feedback db).

(** What more a mounted page's copy satisfies: every appointment listed on
    a pending page is stored; a doctor's page lists no pending copy and its
    prescription form has at least one entry; every appointment listed on a
    patient's page is a stored appointment of that patient. *)
Definition copiesOk (db : Store) (p : Page) : Prop :=
  match p with
  | PendingPage u st =>
      forall apt, apt ∈ PendingAppointments.appointments st ->
                  is_Some (coll_appointments db !! apt.1)
  | DoctorPage u st =>
      DoctorAppointments.prescriptionForm st <> [] /\
      (forall apt, apt ∈ DoctorAppointments.appointments st ->
                   status apt.2 <> pending)
  | PatientPage u st =>
      forall apt, apt ∈ PatientAppointments.appointments st ->
                  ownedBy db (uid u) apt.1
  end.

Definition portalOk (w : World) : Prop :=
  recordsOk (db w) /\ Forall (copiesOk (db w)) (pages w).

(** ** Accounts: what every stored user document satisfies *)

(** A user document is stored under its own [uid], has a name, and an
    e-mail address of the portal's domain. *)
Definition usersOk (users : gmap string UserData) : Prop :=
  forall id d, users !! id = Some d ->
               user_uid d = id /\ user_name d <> "" /\
               exists local, user_email d = local ++ "@meditrack.local".

(** The conditions under which [Register]'s [handleSubmit] calls [signup]: a
    name, an address of the portal's domain, and a password of at least six
    characters, typed twice. *)
Definition registrable (formData : Register.FormData) : Prop :=
  Register.fd_name formData <> "" /\
  (exists local, Register.fd_email formData = local ++ "@meditrack.local") /\
  Register.fd_password formData = Register.fd_confirmPassword formData /\
  (6 <= String.length (Register.fd_password formData))%nat.

(** The user document [signup] writes for a form. *)
Definition registered (formData : Register.FormData) (newUid : string) (now : Z)
    : UserData :=
  mkUserData newUid (Register.fd_email formData) (Register.fd_name formData)
    (Register.fd_role formData) now.

(** ** Worked examples: people, dates and traces *)

Definition alice : User := mkUser "p1" "Alice" patient.
Definition drDay : User := mkUser "d1" "Dr Day" doctor.
Definition drEve : User := mkUser "d2" "Dr Eve" doctor.
Definition staff : list Doctor := [mkDoctor "d1" "Dr Day"; mkDoctor "d2" "Dr Eve"].

Definition june10 : Z := daysFromCivil 2025 6 10.
Definition june9 : Z := daysFromCivil 2025 6 9.

(** 09:00 on 2025-06-10 with a doctor preference and a short concern. *)
Definition headacheForm (day : Z) : BookAppointment.FormData :=
  BookAppointment.mkFormData "d1" (IsoDate day) "09:00" "headache".

(** An instant on 2025-06-09 (UTC), [h] hours after midnight. *)
Definition onJune9 (h : Z) : Z := newDate june9 + h * 3600000.

(** The world a trace leads to from the initial one. *)
Definition worldAfter (es : list Event) : World :=
  default initialWorld (run es initialWorld).

(** Alice books for 2025-06-10; both doctors open the pending page and see
    the request; Dr Day accepts it. *)
Definition raceTrace : list Event :=
  [Book alice staff (headacheForm june10) (onJune9 8) (onJune9 8) 0 "a1";
   OpenPending drDay;
   OpenPending drEve;
   Accept 0 "a1" (onJune9 9)].

(** Dr Day then opens the my-appointments page and starts and completes the
    appointment. *)
Definition careTrace : list Event :=
  (raceTrace ++
   [OpenDoctor drDay;
    Advance 2 "a1" (onJune9 10);
    Advance 2 "a1" (onJune9 11)])%list.

(** On 2025-06-09 Alice books twice for 2025-06-10. *)
Definition twoBookings : list Event :=
  [Book alice staff (headacheForm june10) (onJune9 8) (onJune9 8) 0 "a1";
   Book alice staff (headacheForm june10) (onJune9 9) (onJune9 9) 0 "a2"].

(** On 2025-06-09 Alice books twice for that same day. *)
Definition twoBookingsToday : list Event :=
  [Book alice staff (headacheForm june9) (onJune9 8) (onJune9 8) 0 "a1";
   Book alice staff (headacheForm june9) (onJune9 9) (onJune9 9) 0 "a2"].

(** Dr Eve then accepts from her stale list, and Dr Day, whose page still
    shows the appointment as completed, writes a prescription. *)
Definition staleModalTrace : list Event :=
  (careTrace ++
   [Accept 1 "a1" (onJune9 12);
    AddPrescription 2 "a1";
    ChangeMedicine 2 0 DoctorAppointments.fName "Paracetamol";
    ChangeMedicine 2 0 DoctorAppointments.fDosage "500mg";
    ChangeMedicine 2 0 DoctorAppointments.fFrequency "3x daily"])%list.

(** Alice opens her page on the completed appointment and the feedback
    form for it. *)
Definition feedbackFormTrace : list Event :=
  (careTrace ++ [OpenPatient alice; LeaveFeedback 3 "a1"])%list.

(** Alice leaves five stars; then Dr Eve accepts the appointment from her
    stale pending list. *)
Definition ratedThenReclaimedTrace : list Event :=
  (feedbackFormTrace ++
   [SubmitFeedback 3 (onJune9 14); Accept 1 "a1" (onJune9 15)])%list.

(** Alice has her page open twice and leaves feedback from both. *)
Definition twoTabsTrace : list Event :=
  (careTrace ++
   [OpenPatient alice; OpenPatient alice;
    LeaveFeedback 3 "a1"; SubmitFeedback 3 (onJune9 14);
    LeaveFeedback 4 "a1"; Comment 4 "Great"; SubmitFeedback 4 (onJune9 15)])%list.

(** Dr Day has the my-appointments page open twice, both loaded while the
    appointment was confirmed, and starts and completes it on the first. *)
Definition twoDoctorTabsTrace : list Event :=
  (raceTrace ++
   [OpenDoctor drDay; OpenDoctor drDay;
    Advance 2 "a1" (onJune9 10);
    Advance 2 "a1" (onJune9 11)])%list.

(** The whole course of one appointment: booked, accepted, started,
    completed, prescribed for, and rated by the patient. *)
Definition scenarioTrace : list Event :=
  (careTrace ++
   [AddPrescription 2 "a1";
    ChangeMedicine 2 0 DoctorAppointments.fName "Paracetamol";
    ChangeMedicine 2 0 DoctorAppointments.fDosage "500mg";
    ChangeMedicine 2 0 DoctorAppointments.fFrequency "3x daily";
    SubmitPrescription 2 (onJune9 12);
    OpenPatient alice;
    LeaveFeedback 3 "a1";
    Comment 3 "Great";
    SubmitFeedback 3 (onJune9 13)])%list.

(** On 2025-06-09 Alice books six times for 2025-06-10, an hour apart. *)
Definition sixBookings : list Event :=
  (fun h => Book alice staff (headacheForm june10) (onJune9 h) (onJune9 h) 0
              ("a" ++ toString (Z.to_nat h)))
    <$> [1; 2; 3; 4; 5; 6].

(** Dr Day's registration form. *)
Definition drDayForm : Register.FormData :=
  Register.mkFormData "Dr Day" "day@meditrack.local" "secret1" "secret1" doctor.




(** A zone whose clocks go from the offset [before] to the offset [after]
    at the UTC instant [change]; a local time that occurs twice or not at
    all is read with the offset before the change. *)
Definition zoneWithChange (before after change : Z) : TimeZone :=
  mkTimeZone (fun t => if t <? change then before else after)
    (fun local => if local <? change + Z.max before after then before else after).

(** Berlin in the autumn of 2025: summer time ends on 26 October at 01:00
    UTC. *)
Definition oct26 : Z := daysFromCivil 2025 10 26.
Definition berlin : TimeZone :=
  zoneWithChange (2 * 3600000) (1 * 3600000) (newDate oct26 + 1 * 3600000).

(** * Theorems *)

(** ** The course of one appointment *)

(** The appointment ends completed and Dr Day's, with one prescription and
    one feedback; on the pages that made them, neither a second prescription
    nor a second feedback is offered. *)
Example scenario_outcome :
  let w := worldAfter scenarioTrace in
  run scenarioTrace initialWorld = Some w /\
  storedStatus w "a1" = Some completed /\
  doctorId <$> coll_appointments (db w) !! "a1" = Some (Some "d1") /\
  coll_prescriptions (db w)
  = [mkPrescription "a1" [mkMedicine "Paracetamol" "500mg" "3x daily"] (onJune9 12)] /\
  coll_feedback (db w)
  = [mkFeedback "a1" "p1" "d1" 5 (Some "Great") (onJune9 13)] /\
  exec (AddPrescription 2 "a1") w = None /\
  exec (LeaveFeedback 3 "a1") w = None.
Proof. vm_compute. split_and!; reflexivity. Qed.

(** ** The handlers, case by case *)

Lemma handleAcceptAppointment_found u now st id db a :
  coll_appointments db !! id = Some a ->
  PendingAppointments.handleAcceptAppointment u now st id db
  = (toast_success "Appointment accepted successfully!",
     PendingAppointments.mkState
       (filter (fun apt => apt.1 <> id) (PendingAppointments.appointments st)),
     mkStore (<[id := claimedBy u now a]> (coll_appointments db))
       (coll_prescriptions db) (coll_feedback db)).
Proof.
  intros H. unfold PendingAppointments.handleAcceptAppointment, Firestore.updateDoc.
  rewrite H. reflexivity.
Qed.

Lemma handleAcceptAppointment_missing u now st id db :
  coll_appointments db !! id = None ->
  PendingAppointments.handleAcceptAppointment u now st id db
  = (toast_error "Failed to accept appointment", st, db).
Proof.
  intros H. unfold PendingAppointments.handleAcceptAppointment, Firestore.updateDoc.
  rewrite H. reflexivity.
Qed.

Lemma handleSubmit_store u doctors formData now now' tz newId db :
  (BookAppointment.handleSubmit u doctors formData now now' tz newId db).2 = db \/
  exists a, status a = pending /\ doctorId a = None /\
            patientId a = uid u /\ createdAt a = now /\
            (BookAppointment.handleSubmit u doctors formData now now' tz newId db).2
            = mkStore (<[newId := a]> (coll_appointments db))
                (coll_prescriptions db) (coll_feedback db).
Proof.
  unfold BookAppointment.handleSubmit.
  repeat case_match; try (left; reflexivity).
  right. eexists. split_and!; [..|reflexivity]; reflexivity.
Qed.

Lemma handleAcceptAppointment_store u now st id db :
  (PendingAppointments.handleAcceptAppointment u now st id db).2 = db \/
  exists a, coll_appointments db !! id = Some a /\
            (PendingAppointments.handleAcceptAppointment u now st id db).2
            = mkStore (<[id := claimedBy u now a]> (coll_appointments db))
                (coll_prescriptions db) (coll_feedback db).
Proof.
  destruct (coll_appointments db !! id) as [a|] eqn:E.
  - right. exists a. split; [reflexivity|].
    by rewrite (handleAcceptAppointment_found _ _ _ _ _ _ E).
  - left. by rewrite handleAcceptAppointment_missing.
Qed.

Lemma handleStatusUpdate_found now st id ns db a :
  coll_appointments db !! id = Some a ->
  DoctorAppointments.handleStatusUpdate now st id ns db
  = (toast_success ("Appointment " ++ statusWords ns ++ " successfully!"),
     DoctorAppointments.mkState
       ((fun apt : AppointmentDoc =>
           if decide (apt.1 = id)
           then (apt.1, DoctorAppointments.withStatus ns apt.2)
           else apt) <$> DoctorAppointments.appointments st)
       (DoctorAppointments.prescriptions st)
       (DoctorAppointments.showPrescriptionModal st)
       (DoctorAppointments.prescriptionForm st),
     mkStore (<[id := advancedTo ns now a]> (coll_appointments db))
       (coll_prescriptions db) (coll_feedback db)).
Proof.
  intros H. unfold DoctorAppointments.handleStatusUpdate, Firestore.updateDoc.
  rewrite H. reflexivity.
Qed.

Lemma handleStatusUpdate_missing now st id ns db :
  coll_appointments db !! id = None ->
  DoctorAppointments.handleStatusUpdate now st id ns db
  = (toast_error "Failed to update appointment status", st, db).
Proof.
  intros H. unfold DoctorAppointments.handleStatusUpdate, Firestore.updateDoc.
  rewrite H. reflexivity.
Qed.

Lemma getNextStatus_Some s ns :
  DoctorAppointments.getNextStatus s = Some ns <->
  (s = confirmed /\ ns = in_progress) \/ (s = in_progress /\ ns = completed).
Proof.
  destruct s; simpl; split; intros H;
    try (destruct H as [[? ?]|[? ?]]); try discriminate; simplify_eq; auto.
Qed.

Lemma findDoc_Some id l apt :
  findDoc id l = Some apt -> apt ∈ l /\ apt.1 = id.
Proof.
  unfold findDoc. intros H. apply find_some in H as [Hin Hb].
  apply bool_decide_eq_true in Hb. split; [|done].
  by apply list_elem_of_In.
Qed.

(** ** The invariants hold in every reachable world *)

Lemma claimed_same_appointments db db' id :
  coll_appointments db' = coll_appointments db -> claimed db id -> claimed db' id.
Proof. unfold claimed. intros ->. done. Qed.

Lemma claimed_insert_fresh db newId a ps fs id :
  coll_appointments db !! newId = None ->
  claimed db id ->
  claimed (mkStore (<[newId := a]> (coll_appointments db)) ps fs) id.
Proof.
  intros Hfresh (a0 & Ha0 & Hd). exists a0. split; [|done]. simpl.
  rewrite lookup_insert_ne; [done|]. intros ->. congruence.
Qed.

Lemma claimed_insert_claim db id u now a ps fs id' :
  claimed db id' ->
  claimed (mkStore (<[id := claimedBy u now a]> (coll_appointments db)) ps fs) id'.
Proof.
  intros (a0 & Ha0 & Hd). unfold claimed. simpl.
  destruct (decide (id = id')) as [->|Hne].
  - rewrite lookup_insert_eq. eexists. split; [reflexivity|]. done.
  - rewrite lookup_insert_ne by done. eauto.
Qed.

Lemma claimed_insert_advance db id ns now a ps fs id' :
  coll_appointments db !! id = Some a ->
  claimed db id' ->
  claimed (mkStore (<[id := advancedTo ns now a]> (coll_appointments db)) ps fs) id'.
Proof.
  intros Ha (a0 & Ha0 & Hd). unfold claimed. simpl.
  destruct (decide (id = id')) as [->|Hne].
  - rewrite lookup_insert_eq. eexists. split; [reflexivity|]. simpl. congruence.
  - rewrite lookup_insert_ne by done. eauto.
Qed.

Lemma pageOk_mono db db' p :
  (forall id, claimed db id -> claimed db' id) -> pageOk db p -> pageOk db' p.
Proof.
  intros Hmono. destruct p as [u st|u st|u st]; simpl; [done| |done].
  intros (Hnd & Hcl & Hmodal). split_and!; [done| |done].
  intros apt Hin. destruct (Hcl apt Hin). auto.
Qed.

Lemma pagesOk_mono db db' ps :
  (forall id, claimed db id -> claimed db' id) ->
  Forall (pageOk db) ps -> Forall (pageOk db') ps.
Proof.
  intros Hmono Hps. eapply Forall_impl; [exact Hps|].
  intros p. by apply pageOk_mono.
Qed.

Lemma storeOk_insert db id a ps fs :
  storeOk db -> (doctorId a = None <-> status a = pending) ->
  storeOk (mkStore (<[id := a]> (coll_appointments db)) ps fs).
Proof.
  intros Hok Ha id' a'. simpl. destruct (decide (id = id')) as [->|Hne].
  - rewrite lookup_insert_eq. intros [= <-]. done.
  - rewrite lookup_insert_ne by done. apply Hok.
Qed.

Lemma getDocs_elem p m (apt : AppointmentDoc) :
  apt ∈ Firestore.getDocs p m <-> p apt.2 = true /\ m !! apt.1 = Some apt.2.
Proof.
  unfold Firestore.getDocs. rewrite list_elem_of_filter.
  destruct apt as [id a]. simpl. by rewrite elem_of_map_to_list.
Qed.

Lemma getDocs_NoDup p m : NoDup (Firestore.getDocs p m).*1.
Proof.
  unfold Firestore.getDocs.
  eapply sublist_NoDup; [apply (NoDup_fst_map_to_list m)|].
  apply fmap_sublist, sublist_filter.
Qed.

Lemma onDoctorPage_Some w page f w' :
  onDoctorPage w page f = Some w' ->
  exists u st st' db',
    pages w !! page = Some (DoctorPage u st) /\ f u st = Some (st', db') /\
    w' = mkWorld db' (<[page := DoctorPage u st']> (pages w)).
Proof.
  unfold onDoctorPage. intros H.
  destruct (pages w !! page) as [[u st|u st|u st]|]; try discriminate.
  destruct (f u st) as [[st' db']|] eqn:Ef; [|discriminate].
  injection H as <-. by exists u, st, st', db'.
Qed.

Lemma onPatientPage_Some w page f w' :
  onPatientPage w page f = Some w' ->
  exists u st st' db',
    pages w !! page = Some (PatientPage u st) /\ f u st = Some (st', db') /\
    w' = mkWorld db' (<[page := PatientPage u st']> (pages w)).
Proof.
  unfold onPatientPage. intros H.
  destruct (pages w !! page) as [[u st|u st|u st]|]; try discriminate.
  destruct (f u st) as [[st' db']|] eqn:Ef; [|discriminate].
  injection H as <-. by exists u, st, st', db'.
Qed.

(** An event that acts on one page: name the page, its states before and
    after, and the equation [Hf] that gives the new state and store. *)
Ltac on_page He Hpage Hf :=
  first [apply onDoctorPage_Some in He as (? & ? & ? & ? & Hpage & Hf & ->)
        |apply onPatientPage_Some in He as (? & ? & ? & ? & Hpage & Hf & ->)];
  cbv beta in Hf.

(** An event that only edits a page: split its conditions and read off the
    new state. *)
Ltac page_edit Hf :=
  repeat case_match; try discriminate; injection Hf as <- <-.

(** A page-local event: the store is untouched and one page is replaced by
    one that satisfies its invariant. *)
Lemma worldOk_replace_page w page p' :
  worldOk w -> pageOk (db w) p' ->
  worldOk (mkWorld (db w) (<[page := p']> (pages w))).
Proof.
  intros [Hs Hp] Hp'. split; [done|]. simpl. by apply Forall_insert.
Qed.

Lemma worldOk_book w u doctors formData now now' tz newId :
  worldOk w -> coll_appointments (db w) !! newId = None ->
  worldOk (mkWorld
             (BookAppointment.handleSubmit u doctors formData now now' tz newId (db w)).2
             (pages w)).
Proof.
  intros [Hs Hp] Hfresh.
  destruct (handleSubmit_store u doctors formData now now' tz newId (db w))
    as [->|(a & Hst & Hdoc & _ & _ & ->)]; [done|].
  split; simpl.
  - apply storeOk_insert; [done|]. rewrite Hst, Hdoc. done.
  - eapply pagesOk_mono; [|exact Hp]. intros id. by apply claimed_insert_fresh.
Qed.

Lemma worldOk_accept w page u st appointmentId now :
  worldOk w -> pages w !! page = Some (PendingPage u st) ->
  worldOk
    (mkWorld
       (PendingAppointments.handleAcceptAppointment u now st appointmentId (db w)).2
       (<[page := PendingPage u
            (PendingAppointments.handleAcceptAppointment
               u now st appointmentId (db w)).1.2]> (pages w))).
Proof.
  intros [Hs Hp] Hpage.
  pose proof (Forall_lookup_1 _ _ _ _ Hp Hpage) as Hst. simpl in Hst.
  destruct (coll_appointments (db w) !! appointmentId) as [a|] eqn:E.
  - rewrite (handleAcceptAppointment_found _ _ _ _ _ _ E). simpl. split; simpl.
    + apply storeOk_insert; [done|]. simpl. split; discriminate.
    + apply Forall_insert.
      * eapply pagesOk_mono; [|exact Hp]. intros id. apply claimed_insert_claim.
      * simpl. intros apt [_ Hin]%list_elem_of_filter. by apply Hst.
  - rewrite (handleAcceptAppointment_missing _ _ _ _ _ E). simpl.
    split; [done|]. simpl. by apply Forall_insert.
Qed.

Lemma NoDup_fst_inj {A B} (l : list (A * B)) x y :
  NoDup l.*1 -> x ∈ l -> y ∈ l -> x.1 = y.1 -> x = y.
Proof.
  induction l as [|z l IH]; csimpl; [by intros _ ?%not_elem_of_nil|].
  intros [Hz Hnd]%NoDup_cons [->|Hx]%elem_of_cons [->|Hy]%elem_of_cons Heq.
  - done.
  - exfalso. apply Hz. rewrite Heq. by apply list_elem_of_fmap_2.
  - exfalso. apply Hz. rewrite <- Heq. by apply list_elem_of_fmap_2.
  - by apply IH.
Qed.

Lemma worldOk_advance w page u st appointmentId apt newStatus now :
  worldOk w -> pages w !! page = Some (DoctorPage u st) ->
  findDoc appointmentId (DoctorAppointments.appointments st) = Some apt ->
  DoctorAppointments.getNextStatus (status apt.2) = Some newStatus ->
  worldOk
    (mkWorld
       (DoctorAppointments.handleStatusUpdate
          now st appointmentId newStatus (db w)).2
       (<[page := DoctorPage u
            (DoctorAppointments.handleStatusUpdate
               now st appointmentId newStatus (db w)).1.2]> (pages w))).
Proof.
  intros [Hs Hp] Hpage [Hin Hid]%findDoc_Some Hnext.
  pose proof (Forall_lookup_1 _ _ _ _ Hp Hpage) as (Hnd & Hcl & Hmodal).
  simpl in Hnd, Hcl, Hmodal.
  destruct (Hcl apt Hin) as [_ (a & Ha & Hdoc)]. rewrite Hid in Ha.
  rewrite (handleStatusUpdate_found _ _ _ _ _ _ Ha). simpl.
  assert (Hmono : forall id, claimed (db w) id ->
            claimed (mkStore (<[appointmentId := advancedTo newStatus now a]>
                                (coll_appointments (db w)))
                       (coll_prescriptions (db w)) (coll_feedback (db w))) id).
  { intros id. by apply claimed_insert_advance. }
  split; simpl.
  - apply storeOk_insert; [done|]. simpl.
    apply getNextStatus_Some in Hnext. split; [done|].
    intros ->. destruct Hnext as [[_ ?]|[_ ?]]; discriminate.
  - apply Forall_insert; [by eapply pagesOk_mono|]. simpl. split_and!.
    + rewrite <- list_fmap_compose.
      erewrite (list_fmap_ext _ fst); [exact Hnd|].
      intros i x _. simpl. by case_decide.
    + intros apt' (apt0 & -> & Hin0)%list_elem_of_fmap.
      destruct (Hcl apt0 Hin0) as [Hd0 Hc0].
      case_decide; simpl; auto.
    + intros id Hshow. destruct (Hmodal id Hshow) as (Hnone & apt1 & Hin1 & Hid1 & Hst1).
      split; [done|]. exists apt1. split_and!; [|done..].
      apply list_elem_of_fmap. exists apt1. split; [|done].
      case_decide as Heq; [|done]. exfalso.
      assert (apt1 = apt) as -> by (apply (NoDup_fst_inj _ _ _ Hnd Hin1 Hin); congruence).
      rewrite Hst1 in Hnext. discriminate.
Qed.

Lemma pageOk_doctor_form db u st form :
  pageOk db (DoctorPage u st) ->
  pageOk db (DoctorPage u
    (DoctorAppointments.mkState (DoctorAppointments.appointments st)
       (DoctorAppointments.prescriptions st)
       (DoctorAppointments.showPrescriptionModal st) form)).
Proof. done. Qed.

Lemma pageOk_doctor_closed db u st presc form :
  pageOk db (DoctorPage u st) ->
  pageOk db (DoctorPage u
    (DoctorAppointments.mkState (DoctorAppointments.appointments st)
       presc None form)).
Proof. intros (Hnd & Hcl & _). split_and!; [done..|]. intros id [=]. Qed.

Lemma pageOk_submitPrescription db u st id now :
  pageOk db (DoctorPage u st) ->
  pageOk (DoctorAppointments.handleSubmitPrescription now st id db).2
    (DoctorPage u (DoctorAppointments.handleSubmitPrescription now st id db).1.2).
Proof.
  intros Hok. unfold DoctorAppointments.handleSubmitPrescription.
  case_match; cbn [fst snd]; [done|].
  eapply pageOk_mono; [|by apply pageOk_doctor_closed].
  intros id'. by apply claimed_same_appointments.
Qed.

Lemma handleSubmitPrescription_appointments now st id db :
  coll_appointments (DoctorAppointments.handleSubmitPrescription now st id db).2
  = coll_appointments db.
Proof. unfold DoctorAppointments.handleSubmitPrescription. by case_match. Qed.

Lemma handleSubmitFeedback_appointments u now st id d db :
  coll_appointments (PatientAppointments.handleSubmitFeedback u now st id d db).2
  = coll_appointments db.
Proof. unfold PatientAppointments.handleSubmitFeedback. by repeat case_match. Qed.

Lemma pageOk_submitFeedback db u st id d now :
  pageOk db (PatientPage u st) ->
  pageOk (PatientAppointments.handleSubmitFeedback u now st id d db).2
    (PatientPage u (PatientAppointments.handleSubmitFeedback u now st id d db).1.2).
Proof.
  intros Hok. unfold PatientAppointments.handleSubmitFeedback.
  repeat case_match; simpl; done.
Qed.

Lemma storeOk_same_appointments db db' :
  coll_appointments db' = coll_appointments db -> storeOk db -> storeOk db'.
Proof. unfold storeOk. intros ->. done. Qed.

Lemma worldOk_same_appointments w db' page p' :
  worldOk w -> coll_appointments db' = coll_appointments (db w) ->
  pageOk db' p' ->
  worldOk (mkWorld db' (<[page := p']> (pages w))).
Proof.
  intros [Hs Hp] Heq Hp'. split; simpl.
  - by eapply storeOk_same_appointments.
  - apply Forall_insert; [|done].
    eapply pagesOk_mono; [|exact Hp]. intros id. by apply claimed_same_appointments.
Qed.

Lemma worldOk_mount w p :
  worldOk w -> pageOk (db w) p -> worldOk (mkWorld (db w) (pages w ++ [p])).
Proof.
  intros [Hs Hp] Hp'. split; [done|]. simpl.
  apply Forall_app. split; [done|]. by constructor.
Qed.

Lemma pageOk_fetchPending db u :
  pageOk db (PendingPage u (PendingAppointments.fetchPendingAppointments db)).
Proof.
  simpl. intros apt [Hp _]%getDocs_elem. by apply bool_decide_eq_true in Hp.
Qed.

Lemma pageOk_fetchMy db u :
  pageOk db (DoctorPage u (DoctorAppointments.fetchMyAppointments u db)).
Proof.
  simpl. split_and!.
  - apply getDocs_NoDup.
  - intros apt [Hp Hl]%getDocs_elem. apply bool_decide_eq_true in Hp.
    split; [done|]. exists apt.2. split; [done|]. by rewrite Hp.
  - intros id [=].
Qed.

Lemma pageOk_fetchPatient db u :
  pageOk db (PatientPage u (PatientAppointments.fetchAppointments u db)).
Proof. simpl. split; [intros id [=]|lia]. Qed.

Lemma pageOk_lookup w page p : worldOk w -> pages w !! page = Some p -> pageOk (db w) p.
Proof. intros [_ Hp] Hpage. exact (Forall_lookup_1 _ _ _ _ Hp Hpage). Qed.

(** Every event keeps the invariants. *)
Lemma worldOk_exec w e w' : worldOk w -> exec e w = Some w' -> worldOk w'.
Proof.
  intros Hok He. destruct e; simpl in He.
  - (* Book *)
    case_match eqn:Hg; [|discriminate]. injection He as <-.
    apply bool_decide_eq_true in Hg. by apply worldOk_book.
  - injection He as <-. apply worldOk_mount; [done|apply pageOk_fetchPending].
  - injection He as <-. apply worldOk_mount; [done|apply pageOk_fetchMy].
  - injection He as <-. apply worldOk_mount; [done|apply pageOk_fetchPatient].
  - (* Accept *)
    destruct (pages w !! page) as [[u st|u st|u st]|] eqn:Hpage; try discriminate.
    case_match; [|discriminate]. injection He as <-.
    by apply worldOk_accept.
  - (* Advance *)
    on_page He Hpage Hf.
    destruct (findDoc _ _) as [apt|] eqn:Hfind; [|discriminate].
    destruct (DoctorAppointments.getNextStatus _) as [ns|] eqn:Hnext; [|discriminate].
    injection Hf as <- <-. by eapply worldOk_advance.
  - (* AddPrescription *)
    on_page He Hpage Hf.
    destruct (findDoc _ _) as [apt|] eqn:Hfind; [|discriminate].
    case_match eqn:Hoff; [|discriminate]. injection Hf as <- <-.
    apply worldOk_replace_page; [done|].
    destruct (pageOk_lookup _ _ _ Hok Hpage) as (Hnd & Hcl & Hmodal).
    apply findDoc_Some in Hfind as [Hin Hid].
    apply andb_true_iff in Hoff as [Hc%bool_decide_eq_true Hn%bool_decide_eq_true].
    simpl. split_and!; [done..|]. intros id [= <-].
    split; [by rewrite <- Hid|]. by exists apt.
  - (* AddMedicine *)
    on_page He Hpage Hf. page_edit Hf.
    apply worldOk_replace_page; [done|].
    by apply pageOk_doctor_form, (pageOk_lookup w page).
  - (* RemoveMedicine *)
    on_page He Hpage Hf. page_edit Hf.
    apply worldOk_replace_page; [done|].
    pose proof (pageOk_lookup _ _ _ Hok Hpage) as Hst.
    unfold DoctorAppointments.handleRemoveMedicine. case_match; [|done].
    by apply pageOk_doctor_form.
  - (* ChangeMedicine *)
    on_page He Hpage Hf. page_edit Hf.
    apply worldOk_replace_page; [done|].
    by apply pageOk_doctor_form, (pageOk_lookup w page).
  - (* CancelPrescription *)
    on_page He Hpage Hf. page_edit Hf.
    apply worldOk_replace_page; [done|].
    by apply pageOk_doctor_closed, (pageOk_lookup w page).
  - (* SubmitPrescription *)
    on_page He Hpage Hf. page_edit Hf.
    apply worldOk_same_appointments; [done|apply handleSubmitPrescription_appointments|].
    by apply pageOk_submitPrescription, (pageOk_lookup w page).
  - (* LeaveFeedback *)
    on_page He Hpage Hf.
    destruct (findDoc _ _) as [apt|] eqn:Hfind; [|discriminate].
    case_match eqn:Hoff; [|discriminate]. injection Hf as <- <-.
    apply worldOk_replace_page; [done|].
    destruct (pageOk_lookup _ _ _ Hok Hpage) as (Hmodal & Hr).
    apply findDoc_Some in Hfind as [Hin Hid].
    apply andb_true_iff in Hoff as [[Hc%bool_decide_eq_true _]%andb_true_iff
                                      Hn%bool_decide_eq_true].
    simpl. split; [|done]. intros id [= <-].
    split; [by rewrite <- Hid|]. by exists apt.
  - (* Rate *)
    on_page He Hpage Hf.
    case_match; [|discriminate]. case_match eqn:Hstar; [|discriminate].
    injection Hf as <- <-. apply worldOk_replace_page; [done|].
    destruct (pageOk_lookup _ _ _ Hok Hpage) as (Hmodal & Hr).
    simpl. split; [done|].
    apply bool_decide_eq_true in Hstar. unfold PatientAppointments.stars in Hstar.
    repeat (apply elem_of_cons in Hstar as [->|Hstar]; [lia|]).
    by apply not_elem_of_nil in Hstar.
  - (* Comment *)
    on_page He Hpage Hf. page_edit Hf.
    apply worldOk_replace_page; [done|]. exact (pageOk_lookup w page _ Hok Hpage).
  - (* CancelFeedback *)
    on_page He Hpage Hf. page_edit Hf.
    apply worldOk_replace_page; [done|]. simpl. split; [intros id [=]|lia].
  - (* SubmitFeedback *)
    on_page He Hpage Hf.
    destruct (PatientAppointments.submitFeedbackClicked _ _ _ _) as [r|] eqn:Hr;
      [|discriminate].
    injection Hf as <- <-.
    unfold PatientAppointments.submitFeedbackClicked in Hr.
    repeat case_match; try discriminate. injection Hr as <-.
    apply worldOk_same_appointments; [done|apply handleSubmitFeedback_appointments|].
    by apply pageOk_submitFeedback, (pageOk_lookup w page).
Qed.

Lemma worldOk_initial : worldOk initialWorld.
Proof. split; [|constructor]. intros id a. simpl. by rewrite lookup_empty. Qed.

Lemma reachable_worldOk w : reachable w -> worldOk w.
Proof.
  induction 1 as [|w e w' _ IH He]; [apply worldOk_initial|].
  by eapply worldOk_exec.
Qed.

Lemma run_reachable es w w' : reachable w -> run es w = Some w' -> reachable w'.
Proof.
  revert w. induction es as [|e es IH]; simpl; intros w Hw Hrun.
  - by injection Hrun as <-.
  - destruct (exec e w) as [w1|] eqn:He; [|discriminate].
    eapply IH; [|exact Hrun]. by eapply reachable_step.
Qed.

Lemma worldAfter_reachable es :
  run es initialWorld <> None -> reachable (worldAfter es).
Proof.
  unfold worldAfter. destruct (run es initialWorld) as [w|] eqn:E; [|done].
  intros _. simpl. eapply run_reachable; [apply reachable_initial|exact E].
Qed.

Lemma reachable_pageOk w page p :
  reachable w -> pages w !! page = Some p -> pageOk (db w) p.
Proof. intros Hreach. apply pageOk_lookup. by apply reachable_worldOk. Qed.

(** ** How events change the appointments *)

Lemma exec_appointmentsChange w e w' :
  exec e w = Some w' -> appointmentsChange w e (coll_appointments (db w')).
Proof.
  intros He.
  destruct e; simpl in He;
    try (injection He as <-; by apply change_none);
    try (on_page He Hpage Hf; page_edit Hf; by apply change_none).
  - case_match eqn:Hg; [|discriminate]. injection He as <-. simpl.
    apply bool_decide_eq_true in Hg as Hfresh.
    destruct (handleSubmit_store u doctors formData now now' tz newId (db w))
      as [->|(a & Hst & Hdoc & Hpat & Hcr & ->)]; [by apply change_none|].
    by eapply change_create.
  - destruct (pages w !! page) as [[u st|u st|u st]|] eqn:Hpage; try discriminate.
    destruct (findDoc _ _) as [apt|] eqn:Hfind; [|discriminate].
    injection He as <-. simpl.
    destruct (coll_appointments (db w) !! appointmentId) as [a|] eqn:E.
    + rewrite (handleAcceptAppointment_found _ _ _ _ _ _ E). simpl.
      by eapply change_claim.
    + rewrite (handleAcceptAppointment_missing _ _ _ _ _ E). by apply change_none.
  - on_page He Hpage Hf.
    destruct (findDoc _ _) as [apt|] eqn:Hfind; [|discriminate].
    destruct (DoctorAppointments.getNextStatus _) as [ns|] eqn:Hnext; [|discriminate].
    injection Hf as <- <-. simpl.
    destruct (coll_appointments (db w) !! appointmentId) as [a|] eqn:E.
    + rewrite (handleStatusUpdate_found _ _ _ _ _ _ E). simpl.
      by eapply change_advance.
    + rewrite (handleStatusUpdate_missing _ _ _ _ _ E). by apply change_none.
  - on_page He Hpage Hf. page_edit Hf.
    apply change_none. apply handleSubmitPrescription_appointments.
  - on_page He Hpage Hf.
    destruct (PatientAppointments.submitFeedbackClicked _ _ _ _) as [r|] eqn:Hr;
      [|discriminate].
    injection Hf as <- <-.
    unfold PatientAppointments.submitFeedbackClicked in Hr.
    repeat case_match; try discriminate. injection Hr as <-.
    apply change_none. apply handleSubmitFeedback_appointments.
Qed.

(** One event on an appointment the acting page is in sync with leaves its
    status or moves it one state forward. *)
Lemma exec_status_in_sync w e w' id a :
  reachable w -> exec e w = Some w' ->
  coll_appointments (db w) !! id = Some a ->
  inSync id e w ->
  exists a', coll_appointments (db w') !! id = Some a' /\
             (status a' = status a \/
              statusRank (status a') = S (statusRank (status a))).
Proof.
  intros Hreach He Ha Hsync.
  destruct (exec_appointmentsChange _ _ _ He)
    as [->|u ds f now now' tz newId a0 -> Hfresh _ _ _ _ ->
        |page id0 now u st apt a0 -> Hpage Hfind Ha0 ->
        |page id0 now u st apt ns a0 -> Hpage Hfind Hnext Ha0 ->].
  - exists a. auto.
  - exists a. split; [|auto]. rewrite lookup_insert_ne; [done|]. congruence.
  - destruct (decide (id0 = id)) as [->|Hne].
    + rewrite lookup_insert_eq. eexists. split; [reflexivity|]. right. simpl.
      pose proof (reachable_pageOk _ _ _ Hreach Hpage) as Hst. simpl in Hst.
      pose proof (findDoc_Some _ _ _ Hfind) as [Hin Hid].
      specialize (Hsync (status apt.2)). unfold seenStatus, storedStatus in Hsync.
      rewrite Hpage, Hfind, Ha in Hsync. simpl in Hsync. rewrite Hid in Hsync.
      specialize (Hsync eq_refl). injection Hsync as Hsync.
      rewrite Hsync, (Hst apt Hin). reflexivity.
    + rewrite lookup_insert_ne by done. exists a. auto.
  - destruct (decide (id0 = id)) as [->|Hne].
    + rewrite lookup_insert_eq. eexists. split; [reflexivity|]. right. simpl.
      pose proof (findDoc_Some _ _ _ Hfind) as [Hin Hid].
      specialize (Hsync (status apt.2)). unfold seenStatus, storedStatus in Hsync.
      rewrite Hpage, Hfind, Ha in Hsync. simpl in Hsync. rewrite Hid in Hsync.
      specialize (Hsync eq_refl). injection Hsync as Hsync. rewrite Hsync.
      apply getNextStatus_Some in Hnext as [[-> ->]|[-> ->]]; reflexivity.
    + rewrite lookup_insert_ne by done. exists a. auto.
Qed.

(** ** Claim and advance: the claims *)

(** C1, counterexample.  Both doctors loaded the pending list while the
    request was pending and Dr Day accepted it.  The appointment is now
    confirmed and Dr Day's, Dr Eve's page still offers it, and her accept
    succeeds and replaces Dr Day by Dr Eve. *)
Lemma claim_on_confirmed_overwrites :
  let w := worldAfter raceTrace in
  run raceTrace initialWorld = Some w /\
  storedStatus w "a1" = Some confirmed /\
  doctorId <$> coll_appointments (db w) !! "a1" = Some (Some "d1") /\
  match pendingPageAt w 1 with
  | Some (u, st) =>
      u = drEve /\
      In "a1" (PendingAppointments.appointments st).*1 /\
      (PendingAppointments.handleAcceptAppointment
         u (onJune9 12) st "a1" (db w)).1.1
      = toast_success "Appointment accepted successfully!" /\
      doctorId <$> coll_appointments
                     (PendingAppointments.handleAcceptAppointment
                        u (onJune9 12) st "a1" (db w)).2 !! "a1"
      = Some (Some "d2") /\
      doctorName <$> coll_appointments
                       (PendingAppointments.handleAcceptAppointment
                          u (onJune9 12) st "a1" (db w)).2 !! "a1"
      = Some (Some "Dr Eve")
  | None => False
  end.
Proof. vm_compute. split_and!; try reflexivity. tauto. Qed.

(** C1, amended.  A claim succeeds exactly when the appointment exists,
    whatever its status: the stored appointment becomes confirmed and takes
    the claimer's id and name and the current time as [updatedAt], and
    nothing else in the store changes.  It fails, leaving store and page as
    they were, only when the appointment does not exist.  The pending page
    offers the claim only on appointments whose copy on the page is
    pending. *)
Theorem claim_succeeds_iff_appointment_exists :
  (forall u now st id db,
     match coll_appointments db !! id with
     | Some a =>
         PendingAppointments.handleAcceptAppointment u now st id db
         = (toast_success "Appointment accepted successfully!",
            PendingAppointments.mkState
              (filter (fun apt => apt.1 <> id) (PendingAppointments.appointments st)),
            mkStore (<[id := claimedBy u now a]> (coll_appointments db))
              (coll_prescriptions db) (coll_feedback db))
         /\ status (claimedBy u now a) = confirmed
         /\ doctorId (claimedBy u now a) = Some (uid u)
         /\ doctorName (claimedBy u now a) = Some (name u)
     | None =>
         PendingAppointments.handleAcceptAppointment u now st id db
         = (toast_error "Failed to accept appointment", st, db)
     end) /\
  (forall w page u st apt,
     reachable w -> pages w !! page = Some (PendingPage u st) ->
     apt ∈ PendingAppointments.appointments st -> status apt.2 = pending).
Proof.
  split.
  - intros u now st id db. destruct (coll_appointments db !! id) as [a|] eqn:E.
    + split; [by apply handleAcceptAppointment_found|done].
    + by apply handleAcceptAppointment_missing.
  - intros w page u st apt Hreach Hpage.
    exact (reachable_pageOk _ _ _ Hreach Hpage apt).
Qed.

Lemma claim_succeeds_iff_appointment_exists_witness :
  let w := worldAfter raceTrace in
  match pendingPageAt w 1 with
  | Some (u, st) =>
      Forall (fun apt : AppointmentDoc => status apt.2 = pending)
             (PendingAppointments.appointments st) /\
      (PendingAppointments.handleAcceptAppointment
         u (onJune9 12) st "none" (db w)
       = (toast_error "Failed to accept appointment", st, db w))
  | None => False
  end.
Proof.
  intros w.
  assert (Hreach : reachable w)
    by (apply worldAfter_reachable; vm_compute; discriminate).
  destruct claim_succeeds_iff_appointment_exists as [Hclaim Hpending].
  unfold pendingPageAt.
  destruct (pages w !! 1%nat) as [[u st|u st|u st]|] eqn:E;
    [|vm_compute in E; inversion E..].
  split.
  - apply Forall_forall. intros apt Hin. exact (Hpending w 1%nat u st apt Hreach E Hin).
  - exact (Hclaim u (onJune9 12) st "none" (db w)).
Defined.

(** C2, counterexample.  After Dr Day has completed the appointment, Dr
    Eve's accept from her stale pending list takes it from completed back to
    confirmed.  Likewise an advance from a second page of Dr Day's, which
    still shows the appointment as confirmed, takes it from completed back
    to in-progress. *)
Lemma stale_claim_regresses_status :
  let w := worldAfter careTrace in
  let w' := worldAfter (careTrace ++ [Accept 1 "a1" (onJune9 12)]) in
  let v := worldAfter twoDoctorTabsTrace in
  let v' := worldAfter (twoDoctorTabsTrace ++ [Advance 3 "a1" (onJune9 12)]) in
  run careTrace initialWorld = Some w /\
  exec (Accept 1 "a1" (onJune9 12)) w = Some w' /\
  storedStatus w "a1" = Some completed /\
  storedStatus w' "a1" = Some confirmed /\
  run twoDoctorTabsTrace initialWorld = Some v /\
  exec (Advance 3 "a1" (onJune9 12)) v = Some v' /\
  storedStatus v "a1" = Some completed /\
  storedStatus v' "a1" = Some in_progress /\
  (statusRank confirmed < statusRank in_progress < statusRank completed)%nat.
Proof. vm_compute. split_and!; try reflexivity; lia. Qed.

Lemma run_status_in_sync id es : forall w w' a,
  reachable w -> run es w = Some w' -> inSyncRun id es w ->
  coll_appointments (db w) !! id = Some a ->
  exists a', coll_appointments (db w') !! id = Some a' /\
             (statusRank (status a) <= statusRank (status a')
              <= statusRank (status a) + length es)%nat.
Proof.
  induction es as [|e es IH]; simpl; intros w w' a Hreach Hrun Hsync Ha.
  - injection Hrun as <-. exists a. split; [done|lia].
  - destruct Hsync as [Hsync Hrest].
    destruct (exec e w) as [w1|] eqn:He; [|discriminate].
    destruct (exec_status_in_sync _ _ _ _ _ Hreach He Ha Hsync)
      as (a1 & Ha1 & Hstep).
    destruct (IH w1 w' a1) as (a' & Ha' & Hle); [by eapply reachable_step|done..|].
    exists a'. split; [done|]. destruct Hstep as [Heq|Heq]; rewrite Heq in Hle; lia.
Qed.

(** C2, amended.  [getNextStatus] maps confirmed to in-progress and
    in-progress to completed and gives nothing for pending and completed.
    Over any run of events in which every claim or advance of the
    appointment is issued from a page whose copy shows the stored status,
    the status never decreases and rises by at most one state per event. *)
Theorem status_non_decreasing_in_sync :
  (forall s ns,
     DoctorAppointments.getNextStatus s = Some ns <->
     (s = confirmed /\ ns = in_progress) \/ (s = in_progress /\ ns = completed)) /\
  (forall id es w w' a,
     reachable w -> run es w = Some w' -> inSyncRun id es w ->
     coll_appointments (db w) !! id = Some a ->
     exists a', coll_appointments (db w') !! id = Some a' /\
                (statusRank (status a) <= statusRank (status a')
                 <= statusRank (status a) + length es)%nat).
Proof.
  split; [apply getNextStatus_Some|].
  intros id es. apply run_status_in_sync.
Qed.

Lemma status_non_decreasing_in_sync_witness :
  let w := worldAfter [Book alice staff (headacheForm june10) (onJune9 8) (onJune9 8) 0 "a1"] in
  let w' := worldAfter careTrace in
  exists a a',
    coll_appointments (db w) !! "a1" = Some a /\
    coll_appointments (db w') !! "a1" = Some a' /\
    (statusRank (status a) <= statusRank (status a')
     <= statusRank (status a) + length (tail careTrace))%nat.
Proof.
  intros w w'.
  destruct (coll_appointments (db w) !! "a1") as [a|] eqn:Ha;
    [|vm_compute in Ha; inversion Ha].
  assert (Hrun : run (tail careTrace) w = Some w') by (vm_compute; reflexivity).
  assert (Hreach : reachable w)
    by (apply worldAfter_reachable; vm_compute; discriminate).
  assert (Hsync : inSyncRun "a1" (tail careTrace) w).
  { vm_compute. repeat split; intros seen [= <-]; reflexivity. }
  destruct status_non_decreasing_in_sync as [_ H].
  destruct (H "a1" (tail careTrace) w w' a Hreach Hrun Hsync Ha) as (a' & Ha' & Hle).
  exists a, a'. split; [reflexivity|]. split; [exact Ha'|exact Hle].
Defined.

(** C3, counterexample.  Dr Day has claimed the appointment; Dr Eve's later
    accept, from the pending list she loaded before, changes the doctor of
    the appointment from Dr Day to Dr Eve. *)
Lemma later_claim_changes_doctor :
  let w := worldAfter raceTrace in
  let w' := worldAfter (raceTrace ++ [Accept 1 "a1" (onJune9 12)]) in
  run raceTrace initialWorld = Some w /\
  exec (Accept 1 "a1" (onJune9 12)) w = Some w' /\
  doctorId <$> coll_appointments (db w) !! "a1" = Some (Some "d1") /\
  doctorId <$> coll_appointments (db w') !! "a1" = Some (Some "d2").
Proof. vm_compute. split_and!; reflexivity. Qed.

(** C3, amended.  In every reachable store an appointment has no doctor
    exactly when it is pending.  Once it has a doctor, no event removes the
    doctor, and every event other than an accept of that very appointment
    leaves the doctor as it is. *)
Theorem doctor_null_iff_pending_and_kept w :
  reachable w ->
  (forall id a, coll_appointments (db w) !! id = Some a ->
                (doctorId a = None <-> status a = pending)) /\
  (forall e w' id a d,
     exec e w = Some w' ->
     coll_appointments (db w) !! id = Some a -> doctorId a = Some d ->
     exists a', coll_appointments (db w') !! id = Some a' /\
                is_Some (doctorId a') /\
                ((forall page now, e <> Accept page id now) ->
                 doctorId a' = Some d)).
Proof.
  intros Hreach. split; [apply (reachable_worldOk _ Hreach)|].
  intros e w' id a d He Ha Hd.
  destruct (exec_appointmentsChange _ _ _ He)
    as [->|u ds f now now' tz newId a0 -> Hfresh _ _ _ _ ->
        |page id0 now u st apt a0 -> Hpage Hfind Ha0 ->
        |page id0 now u st apt ns a0 -> Hpage Hfind Hnext Ha0 ->].
  - exists a. rewrite Hd. eauto.
  - exists a. rewrite lookup_insert_ne by congruence. rewrite Hd. eauto.
  - destruct (decide (id0 = id)) as [->|Hne].
    + rewrite lookup_insert_eq. eexists. split; [reflexivity|]. simpl.
      split; [eauto|]. intros Hnot. by destruct (Hnot page now).
    + rewrite lookup_insert_ne by done. exists a. rewrite Hd. eauto.
  - destruct (decide (id0 = id)) as [->|Hne].
    + rewrite lookup_insert_eq. eexists. split; [reflexivity|]. simpl.
      assert (a0 = a) as -> by congruence. rewrite Hd. eauto.
    + rewrite lookup_insert_ne by done. exists a. rewrite Hd. eauto.
Qed.

Lemma doctor_null_iff_pending_and_kept_witness :
  let w := worldAfter (raceTrace ++ [OpenDoctor drDay]) in
  let w' := worldAfter (raceTrace ++ [OpenDoctor drDay; Advance 2 "a1" (onJune9 10)]) in
  reachable w /\
  exists a', coll_appointments (db w') !! "a1" = Some a' /\
             doctorId a' = Some "d1" /\
             (doctorId a' = None <-> status a' = pending).
Proof.
  intros w w'.
  assert (Hreach : reachable w)
    by (apply worldAfter_reachable; vm_compute; discriminate).
  assert (He : exec (Advance 2 "a1" (onJune9 10)) w = Some w')
    by (vm_compute; reflexivity).
  assert (Hreach' : reachable w') by (by eapply reachable_step).
  split; [exact Hreach|].
  destruct (coll_appointments (db w) !! "a1") as [a|] eqn:Ha;
    [|vm_compute in Ha; inversion Ha].
  assert (Hd : doctorId a = Some "d1").
  { vm_compute in Ha. injection Ha as <-. reflexivity. }
  destruct (doctor_null_iff_pending_and_kept w Hreach) as [_ Hkept].
  destruct (Hkept _ _ _ _ _ He Ha Hd) as (a' & Ha' & _ & Hsame).
  exists a'. split; [exact Ha'|]. split.
  - apply Hsame. intros page now. discriminate.
  - destruct (doctor_null_iff_pending_and_kept w' Hreach') as [Hiff _].
    exact (Hiff _ _ Ha').
Defined.

(** ** Booking: the daily cap *)

(** C4, the code at the failing input.  On 2025-06-09 Alice has booked twice
    for 2025-06-10, so she has two appointments created on 2025-06-09; a
    third request on 2025-06-09 for 2025-06-10 is accepted and she then has
    three appointments created on that day.  Had the three requests been for
    2025-06-09 itself, the third would have been refused. *)
Lemma third_booking_same_day_accepted :
  let w := worldAfter twoBookings in
  let r := BookAppointment.handleSubmit alice staff (headacheForm june10)
             (onJune9 10) (onJune9 10) 0 "a3" (db w) in
  run twoBookings initialWorld = Some w /\
  length (createdOn 0 "p1" june9 (db w)) = 2%nat /\
  r.1 = toast_success "Appointment booked successfully!" /\
  length (createdOn 0 "p1" june9 r.2) = 3%nat /\
  (BookAppointment.handleSubmit alice staff (headacheForm june9)
     (onJune9 10) (onJune9 10) 0 "a3" (db (worldAfter twoBookingsToday))).1
  = toast_error "You cannot book more than 2 appointments on the same day".
Proof. vm_compute. split_and!; reflexivity. Qed.

(** The matches of the daily-cap query, in any time zone. *)
Lemma existingAppointments_window tz u day db (apt : AppointmentDoc) :
  apt ∈ BookAppointment.existingAppointments tz u day db <->
  coll_appointments db !! apt.1 = Some apt.2 /\
  patientId apt.2 = uid u /\
  BookAppointment.startOfDay tz day <= createdAt apt.2
  <= BookAppointment.endOfDay tz day.
Proof.
  unfold BookAppointment.existingAppointments. rewrite getDocs_elem.
  rewrite !andb_true_iff, bool_decide_eq_true, !Z.leb_le. tauto.
Qed.

(** Where the clocks are never changed, the window is one local calendar
    day: the one on which UTC midnight of the requested date falls. *)
Lemma window_iff (offset : Z) day t :
  BookAppointment.startOfDay offset day <= t <= BookAppointment.endOfDay offset day
  <-> localDay offset t = localDay offset (newDate day).
Proof.
  unfold BookAppointment.endOfDay, BookAppointment.startOfDay, setHours, localDay,
    msPerDay.
  cbn [offsetAtUTC offsetAtLocal fixedZone].
  set (k := (newDate day + offset) / 86400000).
  replace (k * 86400000 + (((0 * 60 + 0) * 60 + 0) * 1000 + 0) - offset + offset)
    with (k * 86400000) by lia.
  rewrite Z.div_mul by lia.
  pose proof (Z.div_mod (t + offset) 86400000 ltac:(lia)) as Hdm.
  pose proof (Z.mod_pos_bound (t + offset) 86400000 ltac:(lia)) as Hb.
  split; intros H; [|lia].
  symmetry. apply (Z.div_unique _ _ _ (t + offset - k * 86400000)); lia.
Qed.

Lemma existingAppointments_elem (offset : Z) u day db (apt : AppointmentDoc) :
  apt ∈ BookAppointment.existingAppointments offset u day db <->
  coll_appointments db !! apt.1 = Some apt.2 /\
  patientId apt.2 = uid u /\
  localDay offset (createdAt apt.2) = localDay offset (newDate day).
Proof. by rewrite existingAppointments_window, window_iff. Qed.



(** At and east of Greenwich the parsed date falls on the requested date. *)
Lemma window_day_east (offset : Z) day :
  0 <= offset < msPerDay -> localDay offset (newDate day) = day.
Proof.
  intros Htz. unfold localDay, newDate. cbn [offsetAtUTC fixedZone]. symmetry.
  apply (Z.div_unique _ _ _ offset); unfold msPerDay in *; lia.
Qed.


(** At and east of Greenwich, a request for a day later than the day on
    which it is made matches none of the appointments created so far,
    however many the patient has booked that day. *)
Lemma later_day_matches_nothing (offset : Z) u day now db :
  0 <= offset < msPerDay ->
  (forall id a, coll_appointments db !! id = Some a -> createdAt a <= now) ->
  localDay offset now < day ->
  BookAppointment.existingAppointments offset u day db = [].
Proof.
  intros Htz Hpast Hlater. apply elem_of_nil_inv. intros apt Hin.
  apply existingAppointments_elem in Hin as (Hl & _ & Hday).
  rewrite (window_day_east _ _ Htz) in Hday. specialize (Hpast _ _ Hl).
  assert (localDay offset (createdAt apt.2) <= localDay offset now).
  { unfold localDay. cbn [offsetAtUTC fixedZone].
    apply Z.div_le_mono; unfold msPerDay; lia. }
  lia.
Qed.




(** The window on a day on which the clocks are changed: in Berlin on
    2025-10-26 it runs from 22:00 UTC of the day before to 22:59:59.999 UTC,
    twenty-five hours less a millisecond, which is the window of no zone of
    constant offset. *)
Example window_on_a_day_of_clock_change :
  BookAppointment.startOfDay berlin oct26 = newDate oct26 - 2 * 3600000 /\
  BookAppointment.endOfDay berlin oct26 = newDate oct26 + 23 * 3600000 - 1 /\
  forall offset : Z,
    BookAppointment.endOfDay offset oct26 - BookAppointment.startOfDay offset oct26
    = msPerDay - 1.
Proof.
  split; [vm_compute; reflexivity|]. split; [vm_compute; reflexivity|].
  intros offset.
  unfold BookAppointment.endOfDay, BookAppointment.startOfDay, setHours, msPerDay.
  cbn [offsetAtUTC offsetAtLocal fixedZone].
  set (k := (newDate oct26 + offset) / 86400000).
  replace (k * 86400000 + (((0 * 60 + 0) * 60 + 0) * 1000 + 0) - offset + offset)
    with (k * 86400000) by lia.
  rewrite Z.div_mul by lia. lia.
Qed.



(** ** Booking: slots *)

Example generateTimeSlots_head :
  firstn 3 BookAppointment.generateTimeSlots = ["09:00"; "09:30"; "10:00"].
Proof. reflexivity. Qed.





(** ** Prescriptions *)

Lemma existsb_incomplete_false form :
  existsb DoctorAppointments.incomplete form = false <-> allFilled form.
Proof.
  unfold allFilled. induction form as [|med form IH]; simpl.
  - split; [constructor|done].
  - rewrite orb_false_iff, IH, Forall_cons.
    unfold DoctorAppointments.incomplete.
    rewrite !orb_false_iff, !bool_decide_eq_false. tauto.
Qed.

(** C5, counterexample.  Dr Day's page shows the appointment as completed
    and his, while in the store Dr Eve's accept has made it confirmed and
    hers.  Dr Day's prescription is stored all the same: no status or owner
    check refuses it. *)
Lemma prescription_on_unfinished_appointment :
  let w := worldAfter staleModalTrace in
  let w' := worldAfter (staleModalTrace ++ [SubmitPrescription 2 (onJune9 13)]) in
  run staleModalTrace initialWorld = Some w /\
  exec (SubmitPrescription 2 (onJune9 13)) w = Some w' /\
  storedStatus w "a1" = Some confirmed /\
  doctorId <$> coll_appointments (db w) !! "a1" = Some (Some "d2") /\
  coll_prescriptions (db w) = [] /\
  coll_prescriptions (db w')
  = [mkPrescription "a1" [mkMedicine "Paracetamol" "500mg" "3x daily"] (onJune9 13)] /\
  match doctorPageAt w 2 with
  | Some (u, st) =>
      u = drDay /\
      (DoctorAppointments.handleSubmitPrescription (onJune9 13) st "a1" (db w)).1.1
      = toast_success "Prescription added successfully!"
  | None => False
  end.
Proof. vm_compute. split_and!; reflexivity. Qed.

(** C5, amended.  [handleSubmitPrescription] refuses, creating nothing,
    exactly when some medicine entry lacks a name, a dosage or a frequency,
    and otherwise appends the prescription to the store; it looks neither at
    the stored status, nor at the caller, nor for an earlier prescription.
    The page opens the prescription form only on an appointment that its own
    copy shows as completed, as this doctor's, and without a prescription. *)
Theorem prescription_checks_medicines_only :
  (forall now st id db,
     ~ allFilled (DoctorAppointments.prescriptionForm st) ->
     DoctorAppointments.handleSubmitPrescription now st id db
     = (toast_error "Please fill in all medicine fields", st, db)) /\
  (forall now st id db,
     allFilled (DoctorAppointments.prescriptionForm st) ->
     (DoctorAppointments.handleSubmitPrescription now st id db).1.1
     = toast_success "Prescription added successfully!" /\
     (DoctorAppointments.handleSubmitPrescription now st id db).2
     = mkStore (coll_appointments db)
         (coll_prescriptions db ++
          [mkPrescription id (DoctorAppointments.prescriptionForm st) now])
         (coll_feedback db)) /\
  (forall w page u st id,
     reachable w -> pages w !! page = Some (DoctorPage u st) ->
     DoctorAppointments.showPrescriptionModal st = Some id ->
     DoctorAppointments.prescriptions st !! id = None /\
     exists apt, apt ∈ DoctorAppointments.appointments st /\ apt.1 = id /\
                 status apt.2 = completed /\ doctorId apt.2 = Some (uid u)).
Proof.
  split_and!.
  - intros now st id db Hnot. unfold DoctorAppointments.handleSubmitPrescription.
    destruct (existsb _ _) eqn:E; [done|].
    by apply existsb_incomplete_false in E.
  - intros now st id db Hall. apply existsb_incomplete_false in Hall.
    unfold DoctorAppointments.handleSubmitPrescription. by rewrite Hall.
  - intros w page u st id Hreach Hpage Hshow.
    destruct (reachable_pageOk _ _ _ Hreach Hpage) as (_ & Hcl & Hmodal).
    destruct (Hmodal id Hshow) as (Hnone & apt & Hin & Hid & Hst).
    split; [done|]. exists apt. split_and!; try done. by apply Hcl.
Qed.

Lemma prescription_checks_medicines_only_witness :
  let w := worldAfter (careTrace ++ [AddPrescription 2 "a1"]) in
  match doctorPageAt w 2 with
  | Some (u, st) =>
      DoctorAppointments.handleSubmitPrescription (onJune9 13) st "a1" (db w)
      = (toast_error "Please fill in all medicine fields", st, db w) /\
      exists apt, apt ∈ DoctorAppointments.appointments st /\ apt.1 = "a1" /\
                  status apt.2 = completed /\ doctorId apt.2 = Some (uid u)
  | None => False
  end.
Proof.
  intros w.
  assert (Hreach : reachable w)
    by (apply worldAfter_reachable; vm_compute; discriminate).
  destruct prescription_checks_medicines_only as (Hbad & _ & Hpage).
  unfold doctorPageAt.
  destruct (pages w !! 2%nat) as [[u st|u st|u st]|] eqn:E;
    [vm_compute in E; inversion E| |vm_compute in E; inversion E
    |vm_compute in E; inversion E].
  assert (Hshow : DoctorAppointments.showPrescriptionModal st = Some "a1").
  { vm_compute in E. injection E as <- <-. reflexivity. }
  split.
  - apply Hbad. intros Hall. apply existsb_incomplete_false in Hall.
    vm_compute in E. injection E as <- <-. vm_compute in Hall. inversion Hall.
  - exact (proj2 (Hpage w 2%nat u st "a1" Hreach E Hshow)).
Defined.

(** ** Feedback: once per appointment *)

(** C6, counterexample.  Alice has her appointments page open twice; each
    page was loaded before any feedback existed, each offers the feedback
    form, and each submit is stored: the appointment ends with two feedback
    records of the same patient. *)
Lemma second_feedback_is_stored :
  let w := worldAfter twoTabsTrace in
  run twoTabsTrace initialWorld = Some w /\
  length (feedbackRecords (db w) "a1" "p1") = 2%nat /\
  comment <$> feedbackRecords (db w) "a1" "p1" = [None; Some "Great"].
Proof. vm_compute. split_and!; reflexivity. Qed.

Lemma lookup_replaced_page (ps : list Page) page page0 p p0 p0' :
  ps !! page = Some p -> ps !! page0 = Some p0 ->
  <[page0 := p0']> ps !! page = Some (if decide (page0 = page) then p0' else p).
Proof.
  intros Hp Hp0. case_decide as Heq.
  - subst. apply list_lookup_insert_eq. by eapply lookup_lt_Some.
  - by rewrite list_lookup_insert_ne.
Qed.

Lemma handleSubmitFeedback_feedbacks_kept u now st id0 d db id :
  is_Some (PatientAppointments.feedbacks st !! id) ->
  is_Some (PatientAppointments.feedbacks
             (PatientAppointments.handleSubmitFeedback u now st id0 d db).1.2 !! id).
Proof.
  intros Hsome. unfold PatientAppointments.handleSubmitFeedback.
  repeat case_match; simpl; try done;
    rewrite lookup_insert_is_Some;
    (destruct (decide (id0 = id)); [by left|by right]).
Qed.

(** A patient's page never drops a feedback it holds. *)
Lemma exec_feedbacks_kept w e w' page u st id :
  exec e w = Some w' ->
  pages w !! page = Some (PatientPage u st) ->
  is_Some (PatientAppointments.feedbacks st !! id) ->
  exists st', pages w' !! page = Some (PatientPage u st') /\
              is_Some (PatientAppointments.feedbacks st' !! id).
Proof.
  intros He Hpage Hsome.
  assert (Hdoctor : forall page0 f,
            onDoctorPage w page0 f = Some w' ->
            exists st', pages w' !! page = Some (PatientPage u st') /\
                        is_Some (PatientAppointments.feedbacks st' !! id)).
  { intros page0 f (u0 & st0 & st' & db' & Hpage0 & _ & ->)%onDoctorPage_Some.
    exists st. split; [|done]. simpl.
    rewrite (lookup_replaced_page _ _ _ _ _ _ Hpage Hpage0).
    case_decide; [congruence|done]. }
  assert (Hpatient : forall page0 f,
            (forall u0 st0 st' db', f u0 st0 = Some (st', db') ->
               is_Some (PatientAppointments.feedbacks st0 !! id) ->
               is_Some (PatientAppointments.feedbacks st' !! id)) ->
            onPatientPage w page0 f = Some w' ->
            exists st', pages w' !! page = Some (PatientPage u st') /\
                        is_Some (PatientAppointments.feedbacks st' !! id)).
  { intros page0 f Hf (u0 & st0 & st' & db' & Hpage0 & Hf0 & ->)%onPatientPage_Some.
    simpl. rewrite (lookup_replaced_page _ _ _ _ _ _ Hpage Hpage0).
    case_decide as Heq; [|by exists st].
    subst page0. rewrite Hpage in Hpage0. injection Hpage0 as <- <-.
    exists st'. split; [done|]. by eapply Hf. }
  destruct e; simpl in He;
    try (by eapply Hdoctor);
    try (eapply Hpatient; [|exact He]; intros u0 st0 st' db' Hf0 Hs0;
         cbv beta in Hf0; repeat case_match; try discriminate;
         by injection Hf0 as <- <-).
  - case_match; [|discriminate]. injection He as <-. by exists st.
  - injection He as <-. exists st. split; [|done]. by apply lookup_app_l_Some.
  - injection He as <-. exists st. split; [|done]. by apply lookup_app_l_Some.
  - injection He as <-. exists st. split; [|done]. by apply lookup_app_l_Some.
  - destruct (pages w !! page0) as [[u0 st0|u0 st0|u0 st0]|] eqn:Hpage0;
      try discriminate.
    case_match; [|discriminate]. injection He as <-.
    exists st. split; [|done]. simpl.
    rewrite (lookup_replaced_page _ _ _ _ _ _ Hpage Hpage0).
    case_decide; [congruence|done].
  - eapply Hpatient; [|exact He]. intros u0 st0 st' db' Hf0 Hs0.
    cbv beta in Hf0.
    destruct (PatientAppointments.submitFeedbackClicked _ _ _ _) as [r|] eqn:Hr;
      [|discriminate].
    injection Hf0 as <- <-.
    unfold PatientAppointments.submitFeedbackClicked in Hr.
    repeat case_match; try discriminate. injection Hr as <-.
    by apply handleSubmitFeedback_feedbacks_kept.
Qed.

Lemma feedbackOf_is_Some db id patient_id f :
  f ∈ coll_feedback db -> fb_appointmentId f = id -> fb_patientId f = patient_id ->
  is_Some (PatientAppointments.feedbackOf db id patient_id).
Proof.
  intros Hin Hid Hpat. unfold PatientAppointments.feedbackOf.
  destruct (filter _ (coll_feedback db)) as [|f0 fs] eqn:E; [|by eexists].
  exfalso. eapply (filter_nil_not_elem_of _ _ f); [exact E| |exact Hin]. done.
Qed.

Lemma fetchFeedbacks_holds u db id l :
  is_Some (PatientAppointments.feedbackOf db id (uid u)) ->
  id ∈ l.*1 ->
  is_Some (PatientAppointments.fetchFeedbacks u db l !! id).
Proof.
  intros Hfb. unfold PatientAppointments.fetchFeedbacks.
  assert (Hkeep : forall l (acc : gmap string Feedback), is_Some (acc !! id) ->
            is_Some (foldl (fun feedbacksData (apt : AppointmentDoc) =>
                       match PatientAppointments.feedbackOf db apt.1 (uid u) with
                       | Some f => <[apt.1 := f]> feedbacksData
                       | None => feedbacksData
                       end) acc l !! id)).
  { clear. intros l. induction l as [|apt l IH]; simpl; intros acc Hacc; [done|].
    apply IH. case_match; [|done]. rewrite lookup_insert_is_Some.
    destruct (decide (apt.1 = id)); [by left|by right]. }
  generalize (∅ : gmap string Feedback).
  induction l as [|apt l IH]; csimpl; intros acc Hin.
  - by apply not_elem_of_nil in Hin.
  - apply elem_of_cons in Hin as [->|Hin]; [|by apply IH].
    apply Hkeep. destruct Hfb as [f ->]. rewrite lookup_insert_eq. by eexists.
Qed.

Lemma fetchAppointments_holds_feedback u db id a f :
  coll_appointments db !! id = Some a ->
  patientId a = uid u -> status a = completed ->
  f ∈ coll_feedback db -> fb_appointmentId f = id -> fb_patientId f = uid u ->
  is_Some (PatientAppointments.feedbacks
             (PatientAppointments.fetchAppointments u db) !! id).
Proof.
  intros Ha Hpat Hst Hin Hid Hfp. unfold PatientAppointments.fetchAppointments.
  simpl. apply fetchFeedbacks_holds; [by eapply feedbackOf_is_Some|].
  apply list_elem_of_fmap. exists (id, a). split; [done|].
  apply list_elem_of_filter. split; [done|].
  apply getDocs_elem. split; [|done]. by apply bool_decide_eq_true.
Qed.

Lemma handleSubmitFeedback_success u now st id d db :
  PatientAppointments.form_rating (PatientAppointments.feedbackForm st) <> 0 ->
  (String.length (PatientAppointments.form_comment
                    (PatientAppointments.feedbackForm st)) <= 150)%nat ->
  exists f,
    fb_appointmentId f = id /\ fb_patientId f = uid u /\ fb_doctorId f = d /\
    PatientAppointments.handleSubmitFeedback u now st id d db
    = (toast_success "Feedback submitted successfully!",
       PatientAppointments.mkState
         (PatientAppointments.appointments st)
         (PatientAppointments.prescriptions st)
         (<[id := mkFeedback id (uid u) d
                    (PatientAppointments.form_rating (PatientAppointments.feedbackForm st))
                    (Some (PatientAppointments.form_comment
                             (PatientAppointments.feedbackForm st)))
                    now]> (PatientAppointments.feedbacks st))
         None PatientAppointments.initialForm,
       mkStore (coll_appointments db) (coll_prescriptions db)
         (coll_feedback db ++ [f])).
Proof.
  intros Hr Hc. unfold PatientAppointments.handleSubmitFeedback.
  destruct (Z.eqb_spec (PatientAppointments.form_rating
                          (PatientAppointments.feedbackForm st)) 0); [done|].
  destruct (Nat.ltb_spec 150 (String.length
              (PatientAppointments.form_comment
                 (PatientAppointments.feedbackForm st)))); [lia|].
  eexists. split_and!; [..|reflexivity]; reflexivity.
Qed.

(** C6, amended.  On one mounted page feedback for an appointment is given
    at most once: the form is open only on an appointment that the page
    shows as completed and holds no feedback for; a successful submit closes
    the form and makes the page hold the feedback; no event makes a page
    drop a feedback it holds; and a page mounted when the store has the
    patient's feedback for a completed appointment of theirs holds it from
    the start.  [handleSubmitFeedback] itself never looks for an existing
    record: every call with a non-zero rating and a comment of at most 150
    characters stores one more record for the appointment and patient. *)
Theorem feedback_once_per_page :
  (forall w page u st id,
     reachable w -> pages w !! page = Some (PatientPage u st) ->
     PatientAppointments.showFeedbackModal st = Some id ->
     PatientAppointments.feedbacks st !! id = None /\
     exists apt, apt ∈ PatientAppointments.appointments st /\ apt.1 = id /\
                 status apt.2 = completed) /\
  (forall u now st id d db,
     PatientAppointments.form_rating (PatientAppointments.feedbackForm st) <> 0 ->
     (String.length (PatientAppointments.form_comment
                       (PatientAppointments.feedbackForm st)) <= 150)%nat ->
     let r := PatientAppointments.handleSubmitFeedback u now st id d db in
     r.1.1 = toast_success "Feedback submitted successfully!" /\
     PatientAppointments.showFeedbackModal r.1.2 = None /\
     is_Some (PatientAppointments.feedbacks r.1.2 !! id) /\
     length (feedbackRecords r.2 id (uid u))
     = S (length (feedbackRecords db id (uid u)))) /\
  (forall w e w' page u st id,
     exec e w = Some w' ->
     pages w !! page = Some (PatientPage u st) ->
     is_Some (PatientAppointments.feedbacks st !! id) ->
     exists st', pages w' !! page = Some (PatientPage u st') /\
                 is_Some (PatientAppointments.feedbacks st' !! id)) /\
  (forall u db id a f,
     coll_appointments db !! id = Some a ->
     patientId a = uid u -> status a = completed ->
     f ∈ coll_feedback db -> fb_appointmentId f = id -> fb_patientId f = uid u ->
     is_Some (PatientAppointments.feedbacks
                (PatientAppointments.fetchAppointments u db) !! id)).
Proof.
  split_and!.
  - intros w page u st id Hreach Hpage Hshow.
    destruct (reachable_pageOk _ _ _ Hreach Hpage) as [Hmodal _].
    by apply Hmodal.
  - intros u now st id d db Hr Hc r. subst r.
    destruct (handleSubmitFeedback_success u now st id d db Hr Hc)
      as (f & Hid & Hpat & _ & ->).
    cbn [fst snd PatientAppointments.showFeedbackModal PatientAppointments.feedbacks].
    split_and!; [done..| |].
    + rewrite lookup_insert_eq. by eexists.
    + unfold feedbackRecords. cbn [coll_feedback]. rewrite filter_app, length_app.
      rewrite (filter_cons_True _ f []) by done. simpl. lia.
  - apply exec_feedbacks_kept.
  - apply fetchAppointments_holds_feedback.
Qed.

Lemma feedback_once_per_page_witness :
  let w := worldAfter feedbackFormTrace in
  let w' := worldAfter (feedbackFormTrace ++ [SubmitFeedback 3 (onJune9 14)]) in
  match patientPageAt w 3, patientPageAt w' 3 with
  | Some (u, st), Some (u', st') =>
      PatientAppointments.feedbacks st !! "a1" = None /\
      is_Some (PatientAppointments.feedbacks st' !! "a1") /\
      length (feedbackRecords (db w') "a1" "p1")
      = S (length (feedbackRecords (db w) "a1" "p1")) /\
      is_Some (PatientAppointments.feedbacks
                 (PatientAppointments.fetchAppointments alice (db w')) !! "a1") /\
      forall e w'', exec e w' = Some w'' ->
        exists st'', pages w'' !! 3%nat = Some (PatientPage u' st'') /\
                     is_Some (PatientAppointments.feedbacks st'' !! "a1")
  | _, _ => False
  end.
Proof.
  intros w w'.
  assert (Hreach : reachable w)
    by (apply worldAfter_reachable; vm_compute; discriminate).
  destruct feedback_once_per_page as (Hopen & Hsubmit & Hkept & Hfetch).
  unfold patientPageAt.
  destruct (pages w !! 3%nat) as [[u st|u st|u st]|] eqn:E;
    [vm_compute in E; inversion E|vm_compute in E; inversion E|
    |vm_compute in E; inversion E].
  destruct (pages w' !! 3%nat) as [[u' st'|u' st'|u' st']|] eqn:E';
    [vm_compute in E'; inversion E'|vm_compute in E'; inversion E'|
    |vm_compute in E'; inversion E'].
  assert (Hshow : PatientAppointments.showFeedbackModal st = Some "a1").
  { vm_compute in E. injection E as <- <-. reflexivity. }
  assert (Hsome : is_Some (PatientAppointments.feedbacks st' !! "a1")).
  { vm_compute in E'. injection E' as <- <-. vm_compute. by eexists. }
  split; [exact (proj1 (Hopen w 3%nat u st "a1" Hreach E Hshow))|].
  split; [exact Hsome|].
  split.
  - assert (Hdb' : db w'
              = (PatientAppointments.handleSubmitFeedback
                   alice (onJune9 14) st "a1" "d1" (db w)).2).
    { vm_compute in E. injection E as <- <-. vm_compute. reflexivity. }
    rewrite Hdb'.
    apply (Hsubmit alice (onJune9 14) st "a1" "d1" (db w)).
    + vm_compute in E. injection E as <- <-. vm_compute. discriminate.
    + vm_compute in E. injection E as <- <-. vm_compute. lia.
  - split.
    + eapply (Hfetch alice (db w') "a1").
      * vm_compute. reflexivity.
      * reflexivity.
      * reflexivity.
      * instantiate (1 := mkFeedback "a1" "p1" "d1" 5 None (onJune9 14)).
        vm_compute. apply list_elem_of_here.
      * reflexivity.
      * reflexivity.
    + intros e w'' He. exact (Hkept w' e w'' 3%nat u' st' "a1" He E' Hsome).
Defined.

(** ** Feedback: rating and comment *)



(** ** Ratings *)

Lemma totalRating_foldr fs : totalRating fs = foldr Z.add 0 (map rating fs).
Proof.
  unfold totalRating.
  assert (H : forall acc, fold_left (fun sum f => sum + rating f) fs acc
                          = acc + foldr Z.add 0 (map rating fs)).
  { induction fs as [|f fs IH]; simpl; intros acc; [lia|]. rewrite IH. lia. }
  by rewrite H.
Qed.

(** C9, counterexample.  Alice has rated Dr Day with five stars for the
    appointment he completed; Dr Eve's accept from her stale list has then
    taken that appointment.  Dr Day has one feedback record, of mean 5, and
    his profile shows 5, but his dashboard, finding no completed appointment
    of his, shows 0. *)
Lemma dashboard_rating_zero_despite_feedback :
  let w := worldAfter ratedThenReclaimedTrace in
  run ratedThenReclaimedTrace initialWorld = Some w /\
  rating <$> feedbackFor (db w) "d1" = [5] /\
  meanRating (feedbackFor (db w) "d1") = 5%Q /\
  Profile.averageRating (Profile.fetchProfileData drDay (db w)) = 5%Q /\
  Dashboard.completedAppointments (Dashboard.fetchDashboardData drDay (db w)) = 0%nat /\
  Dashboard.averageRating (Dashboard.fetchDashboardData drDay (db w)) = 0%Q.
Proof. vm_compute. split_and!; reflexivity. Qed.

(** C9, amended.  For a doctor, the profile page's count is the number of
    feedback records with the doctor's id and its average is their
    arithmetic mean, or 0 when there are none.  The dashboard's average is
    the same value when the doctor has at least one completed appointment,
    and 0 when the doctor has none. *)
Theorem doctor_rating_is_mean u db :
  role u = doctor ->
  Profile.totalFeedbacks (Profile.fetchProfileData u db)
  = length (feedbackFor db (uid u)) /\
  (feedbackFor db (uid u) <> [] ->
   Profile.averageRating (Profile.fetchProfileData u db)
   = meanRating (feedbackFor db (uid u))) /\
  (feedbackFor db (uid u) = [] ->
   Profile.averageRating (Profile.fetchProfileData u db) = 0%Q) /\
  ((0 < Dashboard.completedAppointments (Dashboard.fetchDashboardData u db))%nat ->
   Dashboard.averageRating (Dashboard.fetchDashboardData u db)
   = Profile.averageRating (Profile.fetchProfileData u db)) /\
  (Dashboard.completedAppointments (Dashboard.fetchDashboardData u db) = 0%nat ->
   Dashboard.averageRating (Dashboard.fetchDashboardData u db) = 0%Q).
Proof.
  intros Hrole.
  unfold Profile.fetchProfileData, Dashboard.fetchDashboardData. rewrite Hrole.
  cbn [Profile.totalFeedbacks Profile.averageRating
       Dashboard.completedAppointments Dashboard.averageRating].
  rewrite bool_decide_true by done. cbn [andb].
  split_and!.
  - done.
  - intros Hne. destruct (feedbackFor db (uid u)) as [|f fs] eqn:E; [done|].
    cbn [length Nat.ltb Nat.leb]. unfold meanRating. by rewrite totalRating_foldr.
  - by intros ->.
  - intros Hpos. apply Nat.ltb_lt in Hpos. by rewrite Hpos.
  - by intros ->.
Qed.

Lemma doctor_rating_is_mean_witness :
  let db := db (worldAfter ratedThenReclaimedTrace) in
  Profile.totalFeedbacks (Profile.fetchProfileData drDay db) = 1%nat /\
  Profile.averageRating (Profile.fetchProfileData drDay db)
  = meanRating (feedbackFor db "d1") /\
  Dashboard.averageRating (Dashboard.fetchDashboardData drDay db) = 0%Q.
Proof.
  intros db.
  destruct (doctor_rating_is_mean drDay db eq_refl) as (Hn & Hmean & _ & _ & Hzero).
  split; [|split].
  - rewrite Hn. vm_compute. reflexivity.
  - apply Hmean. vm_compute. discriminate.
  - apply Hzero. vm_compute. reflexivity.
Defined.

(** * Further properties of the code *)

(** ** Booking: when it succeeds and what it writes *)

Lemma handleSubmit_admitted u doctors formData now now' tz newId db day d :
  admitted tz u doctors formData db day d ->
  BookAppointment.handleSubmit u doctors formData now now' tz newId db
  = (toast_success "Appointment booked successfully!",
     mkStore (<[newId := booked u formData now now' d]> (coll_appointments db))
       (coll_prescriptions db) (coll_feedback db)).
Proof.
  intros (Hd & Hp & Ht & Hc & Hlen & Hcap & Hfind).
  unfold BookAppointment.handleSubmit. rewrite Hd.
  rewrite !bool_decide_false by done. cbn [orb].
  destruct (Nat.ltb_spec 200
              (String.length (BookAppointment.fd_healthConcern formData))); [lia|].
  destruct (Nat.leb_spec 2
              (length (BookAppointment.existingAppointments tz u day db))); [lia|].
  rewrite Hfind. unfold booked, Firestore.addDoc. by rewrite Hd.
Qed.

Lemma handleSubmit_cases u doctors formData now now' tz newId db :
  (exists day d, admitted tz u doctors formData db day d) \/
  (exists msg, BookAppointment.handleSubmit u doctors formData now now' tz newId db
               = (toast_error msg, db)).
Proof.
  unfold BookAppointment.handleSubmit, admitted.
  destruct (BookAppointment.fd_date formData) as [|day] eqn:Hd; [right; eauto|].
  destruct (bool_decide _ || bool_decide _ || bool_decide _) eqn:Hf; [right; eauto|].
  apply orb_false_iff in Hf as [[Hp%bool_decide_eq_false Ht%bool_decide_eq_false]%orb_false_iff
                                  Hc%bool_decide_eq_false].
  destruct (Nat.ltb_spec 200
              (String.length (BookAppointment.fd_healthConcern formData)));
    [right; eauto|].
  destruct (Nat.leb_spec 2
              (length (BookAppointment.existingAppointments tz u day db)));
    [right; eauto|].
  destruct (find _ doctors) as [d|] eqn:Hfind; [|right; eauto].
  left. exists day, d. split_and!; done || lia.
Qed.

(** X1.  [handleSubmit] books exactly when the form has a date, a doctor, a
    time and a concern of 1 to 200 characters, the daily-cap query matches
    fewer than two documents and the chosen doctor is in the fetched list.
    It then adds one pending appointment under the new identifier, with the
    patient's id and name, no doctor, the preferred doctor's id and name,
    the form's date, time and concern, and as [createdAt] and [updatedAt]
    the two readings of the clock taken at booking.  In every other case it
    shows an error and leaves the store as it was. *)
Theorem booking_succeeds_iff_admitted u doctors formData now now' tz newId db :
  (forall day d,
     admitted tz u doctors formData db day d ->
     BookAppointment.handleSubmit u doctors formData now now' tz newId db
     = (toast_success "Appointment booked successfully!",
        mkStore (<[newId := booked u formData now now' d]> (coll_appointments db))
          (coll_prescriptions db) (coll_feedback db))) /\
  ((forall day d, ~ admitted tz u doctors formData db day d) ->
   exists msg, BookAppointment.handleSubmit u doctors formData now now' tz newId db
               = (toast_error msg, db)).
Proof.
  split; [intros day d; apply handleSubmit_admitted|].
  intros Hno.
  destruct (handleSubmit_cases u doctors formData now now' tz newId db)
    as [(day & d & Hadm)|Herr]; [|done].
  by destruct (Hno day d).
Qed.

Lemma booking_succeeds_iff_admitted_witness :
  BookAppointment.handleSubmit alice staff (headacheForm june10) (onJune9 8) (onJune9 8) 0 "a1"
    emptyStore
  = (toast_success "Appointment booked successfully!",
     mkStore (<["a1" := booked alice (headacheForm june10) (onJune9 8) (onJune9 8)
                          (mkDoctor "d1" "Dr Day")]> ∅) [] []) /\
  exists msg,
    BookAppointment.handleSubmit alice staff
      (BookAppointment.mkFormData "d1" (IsoDate june10) "" "headache")
      (onJune9 8) (onJune9 8) 0 "a1" emptyStore
    = (toast_error msg, emptyStore).
Proof.
  split.
  - apply (proj1 (booking_succeeds_iff_admitted alice staff (headacheForm june10)
                    (onJune9 8) (onJune9 8) 0 "a1" emptyStore) june10 (mkDoctor "d1" "Dr Day")).
    unfold admitted. split_and!; try done; vm_compute; lia.
  - apply (proj2 (booking_succeeds_iff_admitted alice staff
                    (BookAppointment.mkFormData "d1" (IsoDate june10) "" "headache")
                    (onJune9 8) (onJune9 8) 0 "a1" emptyStore)).
    intros day d (_ & _ & Ht & _). by apply Ht.
Defined.

(** ** Every write to the store *)

Lemma exec_storeChange w e w' :
  exec e w = Some w' -> storeChange w e (db w').
Proof.
  intros He.
  destruct e; simpl in He;
    try (injection He as <-; by apply store_same);
    try (on_page He Hpage Hf; page_edit Hf; by apply store_same).
  - (* Book *)
    case_match eqn:Hg; [|discriminate]. injection He as <-. simpl.
    apply bool_decide_eq_true in Hg as Hfresh.
    destruct (handleSubmit_cases u doctors formData now now' tz newId (db w))
      as [(day & d & Hadm)|(msg & ->)]; [|by apply store_same].
    rewrite (handleSubmit_admitted _ _ _ _ _ _ _ _ _ _ Hadm).
    by eapply store_book.
  - (* Accept *)
    destruct (pages w !! page) as [[u st|u st|u st]|] eqn:Hpage; try discriminate.
    destruct (findDoc _ _) as [apt|] eqn:Hfind; [|discriminate].
    injection He as <-. simpl.
    destruct (coll_appointments (db w) !! appointmentId) as [a|] eqn:E.
    + rewrite (handleAcceptAppointment_found _ _ _ _ _ _ E). simpl.
      by eapply store_claim.
    + rewrite (handleAcceptAppointment_missing _ _ _ _ _ E). by apply store_same.
  - (* Advance *)
    on_page He Hpage Hf.
    destruct (findDoc _ _) as [apt|] eqn:Hfind; [|discriminate].
    destruct (DoctorAppointments.getNextStatus _) as [ns|] eqn:Hnext; [|discriminate].
    injection Hf as <- <-. simpl.
    destruct (coll_appointments (db w) !! appointmentId) as [a|] eqn:E.
    + rewrite (handleStatusUpdate_found _ _ _ _ _ _ E). simpl.
      by eapply store_advance.
    + rewrite (handleStatusUpdate_missing _ _ _ _ _ E). by apply store_same.
  - (* SubmitPrescription *)
    on_page He Hpage Hf.
    destruct (DoctorAppointments.showPrescriptionModal _) as [id|] eqn:Hshow;
      [|discriminate].
    injection Hf as <- <-. simpl.
    unfold DoctorAppointments.handleSubmitPrescription.
    destruct (existsb _ _) eqn:Hex; [by apply store_same|].
    cbn [snd]. eapply store_prescribe; [done..| |done].
    by apply existsb_incomplete_false.
  - (* SubmitFeedback *)
    on_page He Hpage Hf.
    destruct (PatientAppointments.submitFeedbackClicked _ _ _ _) as [r|] eqn:Hr;
      [|discriminate].
    injection Hf as <- <-. simpl.
    unfold PatientAppointments.submitFeedbackClicked in Hr.
    destruct (PatientAppointments.showFeedbackModal _) as [id|] eqn:Hshow;
      [|discriminate].
    fold (findDoc id (PatientAppointments.appointments x0)) in Hr.
    destruct (findDoc _ _) as [apt|] eqn:Hfind; [|discriminate].
    destruct (doctorId apt.2) as [d|] eqn:Hdoc; [|discriminate].
    destruct (PatientAppointments.truthy (Some d)) eqn:Htr; [|discriminate].
    injection Hr as <-.
    unfold PatientAppointments.handleSubmitFeedback.
    destruct (Z.eqb_spec (PatientAppointments.form_rating
                            (PatientAppointments.feedbackForm x0)) 0);
      [by apply store_same|].
    destruct (Nat.ltb_spec 150 (String.length
                (PatientAppointments.form_comment
                   (PatientAppointments.feedbackForm x0))));
      [by apply store_same|].
    cbn [snd]. eapply store_rate; [done..| | | |done]; [|done|lia].
    simpl in Htr. apply negb_true_iff, bool_decide_eq_false in Htr. done.
Qed.

(** A stored appointment stays stored, with the fields written at booking;
    once it has a doctor it always has one. *)
Lemma storeChange_kept w e db' id a :
  storeChange w e db' ->
  coll_appointments (db w) !! id = Some a ->
  exists a', coll_appointments db' !! id = Some a' /\
             bookingFields a' = bookingFields a /\
             (doctorId a <> None -> doctorId a' <> None).
Proof.
  intros Hch Ha.
  destruct Hch
    as [->|u ds f now now' tz newId day d _ Hfresh _ ->
        |page id0 now u st apt a0 _ _ _ Ha0 ->
        |page id0 now u st apt ns a0 _ _ _ _ Ha0 ->
        |page now u st id0 _ _ _ _ ->
        |page now u st id0 apt d _ _ _ _ _ _ _ _ ->];
    cbn [coll_appointments]; try (by exists a).
  - exists a. split; [|done]. rewrite lookup_insert_ne; [done|]. congruence.
  - destruct (decide (id0 = id)) as [->|Hne].
    + rewrite lookup_insert_eq. eexists. split; [reflexivity|].
      assert (a0 = a) as -> by congruence. done.
    + rewrite lookup_insert_ne by done. by exists a.
  - destruct (decide (id0 = id)) as [->|Hne].
    + rewrite lookup_insert_eq. eexists. split; [reflexivity|].
      assert (a0 = a) as -> by congruence. done.
    + rewrite lookup_insert_ne by done. by exists a.
Qed.

(** X2.  No sequence of events deletes an appointment or changes what was
    written when it was booked: its patient's id and name, the preferred
    doctor's id and name, its date, time and health concern, and its time
    of creation.  An appointment that has a doctor never loses it (though
    the doctor may change). *)
Theorem booking_fields_never_change es w w' id a :
  run es w = Some w' ->
  coll_appointments (db w) !! id = Some a ->
  exists a', coll_appointments (db w') !! id = Some a' /\
             bookingFields a' = bookingFields a /\
             (doctorId a <> None -> doctorId a' <> None).
Proof.
  revert w a.
  induction es as [|e es IH]; simpl; intros w a Hrun Ha.
  - injection Hrun as <-. by exists a.
  - destruct (exec e w) as [w1|] eqn:He; [|discriminate].
    destruct (storeChange_kept _ _ _ _ _ (exec_storeChange _ _ _ He) Ha)
      as (a1 & Ha1 & Hf1 & Hd1).
    destruct (IH _ _ Hrun Ha1) as (a' & Ha' & Hf' & Hd').
    exists a'. split_and!; [done|congruence|auto].
Qed.

Lemma booking_fields_never_change_witness :
  let w := worldAfter [Book alice staff (headacheForm june10) (onJune9 8) (onJune9 8) 0 "a1"] in
  exists a', coll_appointments (db (worldAfter scenarioTrace)) !! "a1" = Some a' /\
             bookingFields a'
             = bookingFields (booked alice (headacheForm june10) (onJune9 8) (onJune9 8)
                                (mkDoctor "d1" "Dr Day")).
Proof.
  intros w.
  destruct (booking_fields_never_change (tail scenarioTrace) w
              (worldAfter scenarioTrace) "a1"
              (booked alice (headacheForm june10) (onJune9 8) (onJune9 8) (mkDoctor "d1" "Dr Day")))
    as (a' & Ha' & Hf & _).
  - vm_compute. reflexivity.
  - vm_compute. reflexivity.
  - by exists a'.
Defined.

Lemma storeChange_annotations w e db' :
  storeChange w e db' ->
  coll_prescriptions (db w) `prefix_of` coll_prescriptions db' /\
  coll_feedback (db w) `prefix_of` coll_feedback db'.
Proof.
  intros Hch.
  destruct Hch
    as [->|u ds f now now' tz newId day d _ _ _ ->
        |page id0 now u st apt a0 _ _ _ _ ->
        |page id0 now u st apt ns a0 _ _ _ _ _ ->
        |page now u st id0 _ _ _ _ ->
        |page now u st id0 apt d _ _ _ _ _ _ _ _ ->];
    cbn [coll_prescriptions coll_feedback]; split;
    try reflexivity; by apply prefix_app_r.
Qed.

(** X3.  Prescriptions and feedback are only ever added: after any sequence
    of events the stored prescriptions and the stored feedback begin with
    the records there were before, unchanged and in the same order. *)
Theorem annotations_append_only es : forall w w',
  run es w = Some w' ->
  coll_prescriptions (db w) `prefix_of` coll_prescriptions (db w') /\
  coll_feedback (db w) `prefix_of` coll_feedback (db w').
Proof.
  induction es as [|e es IH]; simpl; intros w w' Hrun.
  - injection Hrun as <-. done.
  - destruct (exec e w) as [w1|] eqn:He; [|discriminate].
    destruct (storeChange_annotations _ _ _ (exec_storeChange _ _ _ He)) as [Hp1 Hf1].
    destruct (IH _ _ Hrun) as [Hp Hf].
    split; etrans; eauto.
Qed.

Lemma annotations_append_only_witness :
  coll_prescriptions (db (worldAfter (take 12 scenarioTrace)))
  `prefix_of` coll_prescriptions (db (worldAfter scenarioTrace)) /\
  coll_feedback (db (worldAfter (take 12 scenarioTrace)))
  `prefix_of` coll_feedback (db (worldAfter scenarioTrace)).
Proof.
  apply (annotations_append_only (drop 12 scenarioTrace)). vm_compute. reflexivity.
Defined.

(** ** The further invariants hold in every reachable world *)

Lemma storeChange_claimed w e db' id :
  storeChange w e db' -> claimed (db w) id -> claimed db' id.
Proof.
  intros Hch (a & Ha & Hd).
  destruct (storeChange_kept _ _ _ _ _ Hch Ha) as (a' & Ha' & _ & Hd').
  exists a'. auto.
Qed.

Lemma storeChange_ownedBy w e db' patient_id id :
  storeChange w e db' -> ownedBy (db w) patient_id id -> ownedBy db' patient_id id.
Proof.
  intros Hch (a & Ha & Hp).
  destruct (storeChange_kept _ _ _ _ _ Hch Ha) as (a' & Ha' & Hf & _).
  exists a'. split; [done|]. unfold bookingFields in Hf. congruence.
Qed.

Lemma storeChange_stored w e db' id :
  storeChange w e db' ->
  is_Some (coll_appointments (db w) !! id) -> is_Some (coll_appointments db' !! id).
Proof.
  intros Hch [a Ha].
  destruct (storeChange_kept _ _ _ _ _ Hch Ha) as (a' & Ha' & _). by exists a'.
Qed.

Lemma copiesOk_mono w e db' p :
  storeChange w e db' -> copiesOk (db w) p -> copiesOk db' p.
Proof.
  intros Hch. destruct p as [u st|u st|u st]; simpl; [|done|].
  - intros H apt Hin. eapply storeChange_stored; eauto.
  - intros H apt Hin. eapply storeChange_ownedBy; eauto.
Qed.

Lemma appointmentOk_booked tz u doctors formData db day d now now' :
  admitted tz u doctors formData db day d ->
  appointmentOk (booked u formData now now' d).
Proof.
  intros (Hd & Hp & Ht & Hc & Hlen & _ & _). unfold appointmentOk, booked. simpl.
  rewrite Hd. split_and!; try done; eauto.
Qed.

Lemma appointmentOk_claimedBy u now a :
  appointmentOk a -> appointmentOk (claimedBy u now a).
Proof.
  intros (? & ? & ? & ? & ? & ? & ?). unfold appointmentOk. simpl.
  split_and!; done.
Qed.

Lemma appointmentOk_advancedTo ns now a :
  appointmentOk a -> appointmentOk (advancedTo ns now a).
Proof.
  intros (? & ? & ? & ? & ? & ? & ?). unfold appointmentOk. simpl.
  split_and!; done.
Qed.

Lemma getNextStatus_not_pending s ns :
  DoctorAppointments.getNextStatus s = Some ns -> ns <> pending.
Proof. intros [[_ ->]|[_ ->]]%getNextStatus_Some; discriminate. Qed.

Lemma appointments_insert_ok (m : gmap string Appointment) id a :
  (forall id0 a0, m !! id0 = Some a0 -> appointmentOk a0) ->
  appointmentOk a ->
  forall id0 a0, <[id := a]> m !! id0 = Some a0 -> appointmentOk a0.
Proof.
  intros Hm Ha id0 a0. destruct (decide (id = id0)) as [->|Hne].
  - rewrite lookup_insert_eq. by intros [= <-].
  - rewrite lookup_insert_ne by done. apply Hm.
Qed.

Lemma recordsOk_exec w e w' :
  worldOk w -> portalOk w -> exec e w = Some w' -> recordsOk (db w').
Proof.
  intros Hok [(Ha & Hp & Hf) Hpages] He.
  pose proof (exec_storeChange _ _ _ He) as Hch.
  assert (Hp' : Forall (prescriptionOk (db w')) (coll_prescriptions (db w))).
  { eapply Forall_impl; [exact Hp|]. intros p (? & ? & ?).
    split_and!; [done..|]. by eapply storeChange_claimed. }
  assert (Hf' : Forall (feedbackOk (db w')) (coll_feedback (db w))).
  { eapply Forall_impl; [exact Hf|]. intros f (? & ? & ? & ?).
    split; [done|]. split; [done|]. split; [done|]. by eapply storeChange_ownedBy. }
  assert (Hcl : forall id, claimed (db w) id -> claimed (db w') id)
    by (intros id; by eapply storeChange_claimed).
  assert (Hown : forall p id, ownedBy (db w) p id -> ownedBy (db w') p id)
    by (intros p id; by eapply storeChange_ownedBy).
  destruct Hch
    as [Heq|u ds f now now' tz newId day d _ Hfresh Hadm Heq
        |page id0 now u st apt a0 _ _ _ Ha0 Heq
        |page id0 now u st apt ns a0 _ _ _ Hnext Ha0 Heq
        |page now u st id0 _ Hpage Hshow Hfill Heq
        |page now u st id0 apt d _ Hpage Hshow Hfind Hdoc Hd Hr Hc Heq];
    rewrite Heq in *; unfold recordsOk; cbn [coll_appointments coll_prescriptions coll_feedback].
  - done.
  - split_and!; [|done..].
    apply appointments_insert_ok; [done|]. by eapply appointmentOk_booked.
  - split_and!; [|done..].
    apply appointments_insert_ok; [done|]. apply appointmentOk_claimedBy. by eapply Ha.
  - split_and!; [|done..].
    apply appointments_insert_ok; [done|].
    apply appointmentOk_advancedTo. by eapply Ha.
  - split_and!; [done| |done].
    apply Forall_app. split; [done|]. constructor; [|constructor].
    pose proof (Forall_lookup_1 _ _ _ _ Hpages Hpage) as [Hform _].
    destruct (pageOk_lookup _ _ _ Hok Hpage) as (_ & Hclaimed & Hmodal).
    destruct (Hmodal _ Hshow) as (_ & apt & Hin & <- & _).
    split_and!; [done..|]. cbn [presc_appointmentId].
    apply Hcl. by apply Hclaimed.
  - split_and!; [done..|].
    apply Forall_app. split; [done|]. constructor; [|constructor].
    destruct (pageOk_lookup _ _ _ Hok Hpage) as (_ & Hrat).
    pose proof (Forall_lookup_1 _ _ _ _ Hpages Hpage) as Hlist. simpl in Hlist.
    apply findDoc_Some in Hfind as [Hin <-].
    unfold feedbackOk, feedbackDoc. cbn [rating comment fb_doctorId fb_patientId fb_appointmentId].
    split_and!; [lia..| |done|].
    + case_decide; [done|]. split; [done|lia].
    + apply Hown. by apply Hlist.
Qed.

Lemma length_remove_medicine {A} (index : nat) (l : list A) :
  (1 < length l)%nat -> (take index l ++ drop (S index) l)%list <> [].
Proof.
  intros Hlen Hnil. apply (f_equal length) in Hnil.
  rewrite length_app, length_take, length_drop in Hnil. simpl in Hnil. lia.
Qed.

Lemma copiesOk_doctor db db' u st st' :
  copiesOk db (DoctorPage u st) ->
  DoctorAppointments.prescriptionForm st' <> [] ->
  (forall apt, apt ∈ DoctorAppointments.appointments st' ->
               status apt.2 <> pending \/ apt ∈ DoctorAppointments.appointments st) ->
  copiesOk db' (DoctorPage u st').
Proof.
  intros [_ Hst] Hform Hsub. split; [done|].
  intros apt [Hnp|Hin]%Hsub; [done|by apply Hst].
Qed.

Lemma copiesOk_patient db u st st' :
  PatientAppointments.appointments st' = PatientAppointments.appointments st ->
  copiesOk db (PatientPage u st) -> copiesOk db (PatientPage u st').
Proof. simpl. by intros ->. Qed.

Lemma copiesOk_exec w e w' :
  worldOk w -> portalOk w -> exec e w = Some w' ->
  Forall (copiesOk (db w')) (pages w').
Proof.
  intros Hok [Hrec Hpages] He.
  assert (Hmono : Forall (copiesOk (db w')) (pages w)).
  { eapply Forall_impl; [exact Hpages|]. intros p.
    apply copiesOk_mono with e. by apply exec_storeChange. }
  assert (Hat : forall page p, pages w !! page = Some p -> copiesOk (db w') p)
    by (intros page p; apply (Forall_lookup_1 _ _ _ _ Hmono)).
  destruct e; simpl in He.
  - (* Book *)
    case_match; [|discriminate]. by injection He as <-.
  - (* OpenPending *)
    injection He as <-. simpl in *. apply Forall_app. split; [done|].
    constructor; [|constructor]. simpl.
    intros apt [_ Hl]%getDocs_elem. by eexists.
  - (* OpenDoctor *)
    injection He as <-. simpl in *. apply Forall_app. split; [done|].
    constructor; [|constructor]. simpl. split; [done|].
    intros apt [Hd%bool_decide_eq_true Hl]%getDocs_elem Hpend.
    destruct Hok as [Hs _]. apply (Hs _ _ Hl) in Hpend. congruence.
  - (* OpenPatient *)
    injection He as <-. simpl in *. apply Forall_app. split; [done|].
    constructor; [|constructor]. simpl.
    intros apt [Hp%bool_decide_eq_true Hl]%getDocs_elem. by exists apt.2.
  - (* Accept *)
    destruct (pages w !! page) as [[u st|u st|u st]|] eqn:Hpage; try discriminate.
    case_match; [|discriminate]. injection He as <-. simpl in *.
    apply Forall_insert; [done|].
    pose proof (Hat _ _ Hpage) as Hst. simpl in Hst. simpl.
    intros apt Hin. apply Hst.
    destruct (coll_appointments (db w) !! appointmentId) as [a|] eqn:E.
    + rewrite (handleAcceptAppointment_found _ _ _ _ _ _ E) in Hin. simpl in Hin.
      by apply list_elem_of_filter in Hin as [_ Hin].
    + by rewrite (handleAcceptAppointment_missing _ _ _ _ _ E) in Hin.
  - (* Advance *)
    apply onDoctorPage_Some in He as (u & st & st' & db' & Hpage & Hf & ->).
    cbv beta in Hf. simpl in *. apply Forall_insert; [done|].
    destruct (findDoc _ _) as [apt|] eqn:Hfind; [|discriminate].
    destruct (DoctorAppointments.getNextStatus _) as [ns|] eqn:Hnext; [|discriminate].
    injection Hf as <- <-.
    eapply copiesOk_doctor; [exact (Hat _ _ Hpage)|..].
    + destruct (Hat _ _ Hpage) as [Hform _].
      unfold DoctorAppointments.handleStatusUpdate. by case_match.
    + intros apt'. unfold DoctorAppointments.handleStatusUpdate.
      case_match; cbn [fst snd DoctorAppointments.appointments]; [|by right].
      intros (apt0 & -> & Hin0)%list_elem_of_fmap.
      case_decide; [left|by right]. simpl. by eapply getNextStatus_not_pending.
  - (* AddPrescription *)
    apply onDoctorPage_Some in He as (u & st & st' & db' & Hpage & Hf & ->).
    cbv beta in Hf. simpl in *. apply Forall_insert; [done|]. page_edit Hf.
    destruct (Hat _ _ Hpage) as [Hform Hst]. split; simpl; done.
  - (* AddMedicine *)
    apply onDoctorPage_Some in He as (u & st & st' & db' & Hpage & Hf & ->).
    cbv beta in Hf. simpl in *. apply Forall_insert; [done|]. page_edit Hf.
    destruct (Hat _ _ Hpage) as [Hform Hst]. split; simpl; [|done].
    intros [? _]%app_eq_nil. done.
  - (* RemoveMedicine *)
    apply onDoctorPage_Some in He as (u & st & st' & db' & Hpage & Hf & ->).
    cbv beta in Hf. simpl in *. apply Forall_insert; [done|]. page_edit Hf.
    destruct (Hat _ _ Hpage) as [Hform Hst].
    unfold DoctorAppointments.handleRemoveMedicine.
    destruct (Nat.ltb_spec 1 (length (DoctorAppointments.prescriptionForm st)));
      [|by split].
    split; simpl; [|done]. by apply length_remove_medicine.
  - (* ChangeMedicine *)
    apply onDoctorPage_Some in He as (u & st & st' & db' & Hpage & Hf & ->).
    cbv beta in Hf. simpl in *. apply Forall_insert; [done|]. page_edit Hf.
    destruct (Hat _ _ Hpage) as [Hform Hst]. split; simpl; [|done].
    intros Hnil. apply (f_equal length) in Hnil. rewrite length_imap in Hnil.
    by destruct (DoctorAppointments.prescriptionForm st).
  - (* CancelPrescription *)
    apply onDoctorPage_Some in He as (u & st & st' & db' & Hpage & Hf & ->).
    cbv beta in Hf. simpl in *. apply Forall_insert; [done|]. page_edit Hf.
    destruct (Hat _ _ Hpage) as [Hform Hst]. split; simpl; done.
  - (* SubmitPrescription *)
    apply onDoctorPage_Some in He as (u & st & st' & db' & Hpage & Hf & ->).
    cbv beta in Hf. simpl in *. apply Forall_insert; [done|]. page_edit Hf.
    destruct (Hat _ _ Hpage) as [Hform Hst].
    unfold DoctorAppointments.handleSubmitPrescription.
    case_match; split; simpl; done.
  - (* LeaveFeedback *)
    apply onPatientPage_Some in He as (u & st & st' & db' & Hpage & Hf & ->).
    cbv beta in Hf. simpl in *. apply Forall_insert; [done|]. page_edit Hf.
    exact (Hat _ _ Hpage).
  - (* Rate *)
    apply onPatientPage_Some in He as (u & st & st' & db' & Hpage & Hf & ->).
    cbv beta in Hf. simpl in *. apply Forall_insert; [done|]. page_edit Hf.
    exact (Hat _ _ Hpage).
  - (* Comment *)
    apply onPatientPage_Some in He as (u & st & st' & db' & Hpage & Hf & ->).
    cbv beta in Hf. simpl in *. apply Forall_insert; [done|]. page_edit Hf.
    exact (Hat _ _ Hpage).
  - (* CancelFeedback *)
    apply onPatientPage_Some in He as (u & st & st' & db' & Hpage & Hf & ->).
    cbv beta in Hf. simpl in *. apply Forall_insert; [done|]. page_edit Hf.
    exact (Hat _ _ Hpage).
  - (* SubmitFeedback *)
    apply onPatientPage_Some in He as (u & st & st' & db' & Hpage & Hf & ->).
    cbv beta in Hf. simpl in *. apply Forall_insert; [done|].
    destruct (PatientAppointments.submitFeedbackClicked _ _ _ _) as [r|] eqn:Hr;
      [|discriminate].
    injection Hf as <- <-.
    unfold PatientAppointments.submitFeedbackClicked in Hr.
    repeat case_match; try discriminate. injection Hr as <-.
    eapply copiesOk_patient; [|exact (Hat _ _ Hpage)].
    unfold PatientAppointments.handleSubmitFeedback. by repeat case_match.
Qed.

Lemma portalOk_initial : portalOk initialWorld.
Proof.
  split; [|constructor]. split_and!; [|constructor..].
  intros id a. simpl. by rewrite lookup_empty.
Qed.

Lemma reachable_portalOk w : reachable w -> portalOk w.
Proof.
  induction 1 as [|w e w' Hreach IH He]; [apply portalOk_initial|].
  pose proof (reachable_worldOk _ Hreach) as Hok.
  split; [by eapply recordsOk_exec|by eapply copiesOk_exec].
Qed.

(** ** What is stored in a reachable world *)

(** X4.  Every appointment stored in a reachable world has what the booking
    form requires (a date, a time, a health concern of 1 to 200 characters,
    a preferred doctor with id and name), and its doctor's id and name are
    set or unset together. *)
Theorem stored_appointments_well_formed w id a :
  reachable w -> coll_appointments (db w) !! id = Some a -> appointmentOk a.
Proof. intros Hreach. by apply (reachable_portalOk _ Hreach). Qed.

Lemma stored_appointments_well_formed_witness :
  exists a, coll_appointments (db (worldAfter careTrace)) !! "a1" = Some a /\
            appointmentOk a.
Proof.
  destruct (coll_appointments (db (worldAfter careTrace)) !! "a1") as [a|] eqn:E;
    [|vm_compute in E; inversion E].
  exists a. split; [done|].
  apply (stored_appointments_well_formed (worldAfter careTrace) "a1" a); [|exact E].
  apply worldAfter_reachable. vm_compute. discriminate.
Defined.

(** X5.  Every prescription stored in a reachable world has at least one
    medicine, every medicine with a name, a dosage and a frequency, and is
    for a stored appointment that has a doctor. *)
Theorem stored_prescriptions_well_formed w p :
  reachable w -> p ∈ coll_prescriptions (db w) -> prescriptionOk (db w) p.
Proof.
  intros Hreach Hin.
  destruct (reachable_portalOk _ Hreach) as [(_ & Hp & _) _].
  by apply (proj1 (Forall_forall _ _) Hp).
Qed.

Lemma stored_prescriptions_well_formed_witness :
  prescriptionOk (db (worldAfter scenarioTrace))
    (mkPrescription "a1" [mkMedicine "Paracetamol" "500mg" "3x daily"] (onJune9 12)).
Proof.
  apply stored_prescriptions_well_formed.
  - apply worldAfter_reachable. vm_compute. discriminate.
  - vm_compute. apply list_elem_of_here.
Defined.

(** X6.  Every feedback stored in a reachable world has a rating from 1 to
    5, a comment that is absent or has 1 to 150 characters, a doctor id
    that is not empty, and is for a stored appointment of the patient who
    gave it. *)
Theorem stored_feedback_well_formed w f :
  reachable w -> f ∈ coll_feedback (db w) -> feedbackOk (db w) f.
Proof.
  intros Hreach Hin.
  destruct (reachable_portalOk _ Hreach) as [(_ & _ & Hf) _].
  by apply (proj1 (Forall_forall _ _) Hf).
Qed.

Lemma stored_feedback_well_formed_witness :
  feedbackOk (db (worldAfter scenarioTrace))
    (mkFeedback "a1" "p1" "d1" 5 (Some "Great") (onJune9 13)).
Proof.
  apply stored_feedback_well_formed.
  - apply worldAfter_reachable. vm_compute. discriminate.
  - vm_compute. apply list_elem_of_here.
Defined.

(** ** The doctor's pages in a reachable world *)

Lemma statusButton_cases (apt : AppointmentDoc) :
  status apt.2 <> pending ->
  match DoctorAppointments.statusButton apt with
  | Some (newStatus, label) =>
      is_Some label /\ statusRank newStatus = S (statusRank (status apt.2))
  | None => status apt.2 = completed
  end.
Proof.
  unfold DoctorAppointments.statusButton. destruct (status apt.2); simpl; try done;
    intros _; split; by eauto.
Qed.

(** X7.  On a doctor's page of a reachable world no listed appointment is
    shown as pending.  So every status badge has the colour the patient's
    page gives that status (the grey default is never used), and every card
    either has the status button, which then carries a label and leads one
    state forward, or shows a completed appointment; the status button and
    the add-prescription button are never on the same card. *)
Theorem doctor_cards_have_a_labelled_button_or_are_completed w page u st apt :
  reachable w -> pages w !! page = Some (DoctorPage u st) ->
  apt ∈ DoctorAppointments.appointments st ->
  status apt.2 <> pending /\
  DoctorAppointments.getStatusColor (status apt.2)
  = PatientAppointments.getStatusColor (status apt.2) /\
  match DoctorAppointments.statusButton apt with
  | Some (newStatus, label) =>
      is_Some label /\ statusRank newStatus = S (statusRank (status apt.2)) /\
      DoctorAppointments.addPrescriptionOffered st apt = false
  | None => status apt.2 = completed
  end.
Proof.
  intros Hreach Hpage Hin.
  destruct (reachable_portalOk _ Hreach) as [_ Hpages].
  destruct (Forall_lookup_1 _ _ _ _ Hpages Hpage) as [_ Hst].
  specialize (Hst apt Hin). split; [done|].
  split; [by destruct (status apt.2)|].
  pose proof (statusButton_cases apt Hst) as Hb.
  destruct (DoctorAppointments.statusButton apt) as [[ns label]|] eqn:E; [|done].
  destruct Hb as [Hl Hr]. split_and!; [done..|].
  unfold DoctorAppointments.addPrescriptionOffered.
  rewrite bool_decide_false; [done|]. intros Hc. rewrite Hc in Hr.
  destruct ns; discriminate.
Qed.

Lemma doctor_cards_have_a_labelled_button_or_are_completed_witness :
  let w := worldAfter (raceTrace ++ [OpenDoctor drDay])%list in
  match doctorPageAt w 2 with
  | Some (u, st) =>
      forall apt, apt ∈ DoctorAppointments.appointments st ->
        status apt.2 <> pending /\
        DoctorAppointments.getStatusColor (status apt.2)
        = PatientAppointments.getStatusColor (status apt.2) /\
        match DoctorAppointments.statusButton apt with
        | Some (newStatus, label) =>
            is_Some label /\ statusRank newStatus = S (statusRank (status apt.2)) /\
            DoctorAppointments.addPrescriptionOffered st apt = false
        | None => status apt.2 = completed
        end
  | None => False
  end.
Proof.
  intros w.
  assert (Hreach : reachable w)
    by (apply worldAfter_reachable; vm_compute; discriminate).
  unfold doctorPageAt.
  destruct (pages w !! 2%nat) as [[u st|u st|u st]|] eqn:E;
    [vm_compute in E; inversion E| |vm_compute in E; inversion E..].
  intros apt Hin.
  exact (doctor_cards_have_a_labelled_button_or_are_completed w 2 u st apt Hreach E Hin).
Defined.

(** X8.  In a reachable world the two updates always find their document:
    accepting any appointment listed on a pending page succeeds, and so does
    a status update of any appointment listed on a doctor's page.  The
    failure messages of [handleAcceptAppointment] and [handleStatusUpdate]
    are shown only when the store itself fails. *)
Theorem listed_appointments_can_be_updated w page :
  reachable w ->
  (forall u st apt now,
     pages w !! page = Some (PendingPage u st) ->
     apt ∈ PendingAppointments.appointments st ->
     (PendingAppointments.handleAcceptAppointment u now st apt.1 (db w)).1.1
     = toast_success "Appointment accepted successfully!") /\
  (forall u st apt now newStatus,
     pages w !! page = Some (DoctorPage u st) ->
     apt ∈ DoctorAppointments.appointments st ->
     (DoctorAppointments.handleStatusUpdate now st apt.1 newStatus (db w)).1.1
     = toast_success ("Appointment " ++ statusWords newStatus ++ " successfully!")).
Proof.
  intros Hreach. split.
  - intros u st apt now Hpage Hin.
    destruct (reachable_portalOk _ Hreach) as [_ Hpages].
    destruct (Forall_lookup_1 _ _ _ _ Hpages Hpage apt Hin) as [a Ha].
    by rewrite (handleAcceptAppointment_found _ _ _ _ _ _ Ha).
  - intros u st apt now ns Hpage Hin.
    destruct (reachable_pageOk _ _ _ Hreach Hpage) as (_ & Hcl & _).
    destruct (Hcl apt Hin) as [_ (a & Ha & _)].
    by rewrite (handleStatusUpdate_found _ _ _ _ _ _ Ha).
Qed.

Lemma listed_appointments_can_be_updated_witness :
  let w := worldAfter (raceTrace ++ [OpenDoctor drDay])%list in
  match pendingPageAt w 1, doctorPageAt w 2 with
  | Some (u, st), Some (u', st') =>
      (forall apt now, apt ∈ PendingAppointments.appointments st ->
         (PendingAppointments.handleAcceptAppointment u now st apt.1 (db w)).1.1
         = toast_success "Appointment accepted successfully!") /\
      (forall apt now, apt ∈ DoctorAppointments.appointments st' ->
         (DoctorAppointments.handleStatusUpdate now st' apt.1 in_progress (db w)).1.1
         = toast_success "Appointment in progress successfully!")
  | _, _ => False
  end.
Proof.
  intros w.
  assert (Hreach : reachable w)
    by (apply worldAfter_reachable; vm_compute; discriminate).
  unfold pendingPageAt, doctorPageAt.
  destruct (pages w !! 1%nat) as [[u st|u st|u st]|] eqn:E;
    [|vm_compute in E; inversion E..].
  destruct (pages w !! 2%nat) as [[u' st'|u' st'|u' st']|] eqn:E';
    [vm_compute in E'; inversion E'| |vm_compute in E'; inversion E'..].
  split.
  - intros apt now Hin.
    exact (proj1 (listed_appointments_can_be_updated w 1 Hreach) u st apt now E Hin).
  - intros apt now Hin.
    exact (proj2 (listed_appointments_can_be_updated w 2 Hreach)
             u' st' apt now in_progress E' Hin).
Defined.

Lemma findDoc_filtered id (l : list AppointmentDoc) :
  findDoc id (filter (fun apt => apt.1 <> id) l) = None.
Proof.
  destruct (findDoc id _) as [apt|] eqn:E; [|done].
  apply findDoc_Some in E as [[Hne _]%list_elem_of_filter Hid]. done.
Qed.

(** X9.  In a reachable world, accepting a request from a pending page
    writes the accepting doctor into the stored appointment and takes the
    request off that page's list, the other requests staying in place; the
    page then no longer offers to accept it. *)
Theorem accepted_request_leaves_the_list w page id now w' :
  reachable w -> exec (Accept page id now) w = Some w' ->
  exists u st a,
    pages w !! page = Some (PendingPage u st) /\
    coll_appointments (db w) !! id = Some a /\
    coll_appointments (db w') = <[id := claimedBy u now a]> (coll_appointments (db w)) /\
    pages w' !! page
    = Some (PendingPage u
              (PendingAppointments.mkState
                 (filter (fun apt => apt.1 <> id)
                    (PendingAppointments.appointments st)))) /\
    forall now', exec (Accept page id now') w' = None.
Proof.
  intros Hreach He. simpl in He.
  destruct (pages w !! page) as [[u st|u st|u st]|] eqn:Hpage; try discriminate.
  destruct (findDoc _ _) as [apt|] eqn:Hfind; [|discriminate].
  injection He as <-.
  apply findDoc_Some in Hfind as [Hin <-].
  destruct (reachable_portalOk _ Hreach) as [_ Hpages].
  destruct (Forall_lookup_1 _ _ _ _ Hpages Hpage apt Hin) as [a Ha].
  exists u, st, a.
  rewrite (handleAcceptAppointment_found _ _ _ _ _ _ Ha).
  cbn [fst snd db pages coll_appointments].
  assert (Hnew : <[page := PendingPage u
                     (PendingAppointments.mkState
                        (filter (fun apt0 : AppointmentDoc => apt0.1 <> apt.1)
                           (PendingAppointments.appointments st)))]> (pages w) !! page
                 = Some (PendingPage u
                     (PendingAppointments.mkState
                        (filter (fun apt0 : AppointmentDoc => apt0.1 <> apt.1)
                           (PendingAppointments.appointments st))))).
  { apply list_lookup_insert_eq. by eapply lookup_lt_Some. }
  split_and!; [done..|].
  intros now'. cbn [exec pages]. rewrite Hnew.
  cbn [PendingAppointments.appointments]. by rewrite findDoc_filtered.
Qed.

Lemma accepted_request_leaves_the_list_witness :
  let w := worldAfter (take 3 raceTrace) in
  exists u st a,
    pages w !! 0%nat = Some (PendingPage u st) /\
    coll_appointments (db w) !! "a1" = Some a /\
    coll_appointments (db (worldAfter raceTrace))
    = <["a1" := claimedBy u (onJune9 9) a]> (coll_appointments (db w)) /\
    pages (worldAfter raceTrace) !! 0%nat
    = Some (PendingPage u
              (PendingAppointments.mkState
                 (filter (fun apt => apt.1 <> "a1")
                    (PendingAppointments.appointments st)))) /\
    forall now', exec (Accept 0 "a1" now') (worldAfter raceTrace) = None.
Proof.
  intros w.
  apply (accepted_request_leaves_the_list w 0 "a1" (onJune9 9) (worldAfter raceTrace)).
  - apply worldAfter_reachable. vm_compute. discriminate.
  - vm_compute. reflexivity.
Defined.

(** ** The dashboard and the profile in a reachable world *)

(** X10.  In a reachable world a doctor's dashboard never counts a pending
    appointment: the query on the doctor's id only finds appointments that
    have been accepted. *)
Theorem doctor_dashboard_counts_no_pending w u :
  reachable w -> role u = doctor ->
  Dashboard.pendingAppointments (Dashboard.fetchDashboardData u (db w)) = 0%nat.
Proof.
  intros Hreach Hrole. destruct (reachable_worldOk _ Hreach) as [Hs _].
  unfold Dashboard.fetchDashboardData. cbn [Dashboard.pendingAppointments].
  unfold countStatus, appointmentsOf. rewrite Hrole.
  apply length_zero_iff_nil.
  destruct (filter _ _) as [|apt l] eqn:E; [done|]. exfalso.
  assert (Hin : apt ∈ apt :: l) by apply list_elem_of_here.
  rewrite <- E in Hin.
  apply list_elem_of_filter in Hin as [Hpend [Hd%bool_decide_eq_true Hl]%getDocs_elem].
  apply (Hs _ _ Hl) in Hpend. congruence.
Qed.

Lemma doctor_dashboard_counts_no_pending_witness :
  Dashboard.pendingAppointments
    (Dashboard.fetchDashboardData drDay (db (worldAfter raceTrace))) = 0%nat.
Proof.
  apply doctor_dashboard_counts_no_pending; [|reflexivity].
  apply worldAfter_reachable. vm_compute. discriminate.
Defined.

Lemma totalRating_bounds fs :
  Forall (fun f => 1 <= rating f <= 5) fs ->
  Z.of_nat (length fs) <= totalRating fs <= 5 * Z.of_nat (length fs).
Proof.
  rewrite totalRating_foldr.
  induction 1 as [|f fs Hf _ IH]; simpl; lia.
Qed.

(** X11.  In a reachable world the average a doctor's profile shows is a
    mean of ratings from 1 to 5: whenever the doctor has feedback, it lies
    between 1 and 5. *)
Theorem profile_average_between_one_and_five w u :
  reachable w -> role u = doctor -> feedbackFor (db w) (uid u) <> [] ->
  (1 <= Profile.averageRating (Profile.fetchProfileData u (db w)) <= 5)%Q.
Proof.
  intros Hreach Hrole Hne.
  destruct (reachable_portalOk _ Hreach) as [(_ & _ & Hf) _].
  assert (Hall : Forall (fun f => 1 <= rating f <= 5) (feedbackFor (db w) (uid u))).
  { apply Forall_forall. intros f [_ Hin]%list_elem_of_filter.
    by destruct (proj1 (Forall_forall _ _) Hf f Hin) as [? _]. }
  apply totalRating_bounds in Hall.
  unfold Profile.fetchProfileData. rewrite Hrole. cbn [Profile.averageRating].
  destruct (feedbackFor (db w) (uid u)) as [|f fs] eqn:E; [done|].
  assert ((0 <? length (f :: fs))%nat = true) as -> by done.
  set (n := Z.of_nat (length (f :: fs))) in *.
  assert (Hn : (0 < inject_Z n)%Q).
  { unfold Qlt. simpl. subst n. simpl. lia. }
  split.
  - apply Qle_shift_div_l; [done|]. rewrite Qmult_1_l.
    rewrite <- Zle_Qle. lia.
  - apply Qle_shift_div_r; [done|]. change 5%Q with (inject_Z 5).
    rewrite <- inject_Z_mult, <- Zle_Qle. lia.
Qed.

Lemma profile_average_between_one_and_five_witness :
  (1 <= Profile.averageRating
          (Profile.fetchProfileData drDay (db (worldAfter scenarioTrace))) <= 5)%Q.
Proof.
  apply profile_average_between_one_and_five.
  - apply worldAfter_reachable. vm_compute. discriminate.
  - reflexivity.
  - vm_compute. discriminate.
Defined.

(** ** The prescription form *)

(** X12.  [handleRemoveMedicine] removes exactly the entry at the given
    index, the entries before it staying in place and those after it moving
    up by one; it does nothing when the form has a single entry or the
    index is past the end.  It never empties a form that has an entry. *)
Theorem remove_medicine_drops_one_entry index st :
  let form := DoctorAppointments.prescriptionForm st in
  let form' := DoctorAppointments.prescriptionForm
                 (DoctorAppointments.handleRemoveMedicine index st) in
  (form <> [] -> form' <> []) /\
  ((length form <= 1)%nat \/ (length form <= index)%nat -> form' = form) /\
  ((1 < length form)%nat -> (index < length form)%nat ->
   length form' = (length form - 1)%nat /\
   (forall j, (j < index)%nat -> form' !! j = form !! j) /\
   (forall j, (index <= j)%nat -> form' !! j = form !! S j)).
Proof.
  intros form form'. subst form'. unfold DoctorAppointments.handleRemoveMedicine.
  fold form.
  destruct (Nat.ltb_spec 1 (length form)) as [Hlen|Hlen];
    cbn [DoctorAppointments.prescriptionForm]; fold form.
  - split_and!.
    + intros _. by apply length_remove_medicine.
    + intros [?|Hge]; [lia|].
      rewrite take_ge, drop_ge by lia. by rewrite app_nil_r.
    + intros _ Hlt. split_and!.
      * rewrite length_app, length_take, length_drop. lia.
      * intros j Hj. rewrite lookup_app_l by (rewrite length_take; lia).
        by apply lookup_take_lt.
      * intros j Hj. rewrite lookup_app_r by (rewrite length_take; lia).
        rewrite length_take, lookup_drop. f_equal. lia.
  - split_and!; [done..|]. lia.
Qed.

Lemma remove_medicine_drops_one_entry_witness :
  let st :=
    DoctorAppointments.mkState [] ∅ (Some "a1")
      [mkMedicine "A" "1" "x"; mkMedicine "B" "2" "y"; mkMedicine "C" "3" "z"] in
  let form' := DoctorAppointments.prescriptionForm
                 (DoctorAppointments.handleRemoveMedicine 1 st) in
  form' <> [] /\
  DoctorAppointments.prescriptionForm (DoctorAppointments.handleRemoveMedicine 3 st)
  = DoctorAppointments.prescriptionForm st /\
  length form' = 2%nat /\
  form' !! 0%nat = Some (mkMedicine "A" "1" "x") /\
  form' !! 1%nat = Some (mkMedicine "C" "3" "z").
Proof.
  intros st form'.
  destruct (remove_medicine_drops_one_entry 1 st) as (Hne & _ & Hrem).
  destruct (remove_medicine_drops_one_entry 3 st) as (_ & Hsame & _).
  destruct Hrem as (Hlen & Hbefore & Hafter); [simpl; lia..|].
  split_and!.
  - apply Hne. discriminate.
  - apply Hsame. right. simpl. lia.
  - exact Hlen.
  - apply (Hbefore 0%nat). lia.
  - apply (Hafter 1%nat). lia.
Defined.

(** X13.  [handleMedicineChange] keeps the number of entries, changes no
    entry but the one at the given index, and in that entry sets the given
    field to the given value and keeps the other two fields; with an index
    past the end it changes nothing. *)
Theorem medicine_change_sets_one_field index field value st :
  let form := DoctorAppointments.prescriptionForm st in
  let form' := DoctorAppointments.prescriptionForm
                 (DoctorAppointments.handleMedicineChange index field value st) in
  length form' = length form /\
  (forall j, j <> index -> form' !! j = form !! j) /\
  (forall m, form !! index = Some m ->
     exists m', form' !! index = Some m' /\ fieldOf field m' = value /\
                forall field', field' <> field -> fieldOf field' m' = fieldOf field' m) /\
  ((length form <= index)%nat -> form' = form).
Proof.
  intros form form'. subst form'. unfold DoctorAppointments.handleMedicineChange.
  cbn [DoctorAppointments.prescriptionForm]. fold form.
  assert (Hother : forall j, j <> index ->
            imap (fun i medicine => if decide (i = index)
                                    then DoctorAppointments.setField field value medicine
                                    else medicine) form !! j = form !! j).
  { intros j Hj. rewrite list_lookup_imap. destruct (form !! j); simpl; [|done].
    by rewrite decide_False. }
  split_and!.
  - apply length_imap.
  - exact Hother.
  - intros m Hm. rewrite list_lookup_imap, Hm. simpl. rewrite decide_True by done.
    eexists. split; [reflexivity|].
    split; [by destruct field|]. intros field' Hne. by destruct field, field'.
  - intros Hge. apply list_eq. intros j.
    destruct (decide (j = index)) as [->|Hne]; [|by apply Hother].
    rewrite list_lookup_imap. by rewrite (lookup_ge_None_2 form index Hge).
Qed.

Lemma medicine_change_sets_one_field_witness :
  let st :=
    DoctorAppointments.mkState [] ∅ (Some "a1")
      [mkMedicine "A" "1" "x"; mkMedicine "B" "2" "y"] in
  exists m',
    DoctorAppointments.prescriptionForm
      (DoctorAppointments.handleMedicineChange 1 DoctorAppointments.fDosage "500mg" st)
    !! 1%nat = Some m' /\
    dosage m' = "500mg" /\ med_name m' = "B" /\ frequency m' = "y".
Proof.
  intros st.
  destruct (medicine_change_sets_one_field 1 DoctorAppointments.fDosage "500mg" st)
    as (_ & _ & Hat & _).
  destruct (Hat (mkMedicine "B" "2" "y") eq_refl) as (m' & Hm' & Hv & Hrest).
  exists m'. split_and!; [done|exact Hv|..].
  - apply (Hrest DoctorAppointments.fName). discriminate.
  - apply (Hrest DoctorAppointments.fFrequency). discriminate.
Defined.

Lemma existsb_incomplete_blank form :
  existsb DoctorAppointments.incomplete (form ++ [DoctorAppointments.blankMedicine])
  = true.
Proof. rewrite existsb_app. simpl. apply orb_true_r. Qed.

(** X14.  [handleAddMedicine] appends one blank entry and changes nothing
    else.  As long as that entry is blank, [handleSubmitPrescription]
    refuses the form and stores nothing; and removing the added entry gives
    back the page state there was before. *)
Theorem added_medicine_is_blank_and_can_be_removed now st id db :
  DoctorAppointments.prescriptionForm st <> [] ->
  DoctorAppointments.handleSubmitPrescription now
    (DoctorAppointments.handleAddMedicine st) id db
  = (toast_error "Please fill in all medicine fields",
     DoctorAppointments.handleAddMedicine st, db) /\
  DoctorAppointments.handleRemoveMedicine
    (length (DoctorAppointments.prescriptionForm st))
    (DoctorAppointments.handleAddMedicine st)
  = st.
Proof.
  intros Hne. split.
  - unfold DoctorAppointments.handleSubmitPrescription, DoctorAppointments.handleAddMedicine.
    cbn [DoctorAppointments.prescriptionForm].
    by rewrite existsb_incomplete_blank.
  - unfold DoctorAppointments.handleRemoveMedicine, DoctorAppointments.handleAddMedicine.
    cbn [DoctorAppointments.prescriptionForm DoctorAppointments.appointments
         DoctorAppointments.prescriptions DoctorAppointments.showPrescriptionModal].
    destruct st as [apts prescs modal form]. simpl in *.
    destruct (Nat.ltb_spec 1 (length (form ++ [DoctorAppointments.blankMedicine])))
      as [_|Hlen].
    + rewrite take_app_length, drop_ge by (rewrite length_app; simpl; lia).
      by rewrite app_nil_r.
    + rewrite length_app in Hlen. simpl in Hlen. destruct form; [done|simpl in Hlen; lia].
Qed.

Lemma added_medicine_is_blank_and_can_be_removed_witness :
  let st := DoctorAppointments.mkState [] ∅ (Some "a1") [mkMedicine "A" "1" "x"] in
  DoctorAppointments.handleSubmitPrescription 0
    (DoctorAppointments.handleAddMedicine st) "a1" emptyStore
  = (toast_error "Please fill in all medicine fields",
     DoctorAppointments.handleAddMedicine st, emptyStore) /\
  DoctorAppointments.handleRemoveMedicine 1 (DoctorAppointments.handleAddMedicine st)
  = st.
Proof.
  intros st.
  apply (added_medicine_is_blank_and_can_be_removed 0 st "a1" emptyStore).
  discriminate.
Defined.

(** ** Stars *)

(** X15.  [renderStars] draws the first stars filled and the others empty:
    as many filled stars as the rating says, none for a rating below 1 and
    all five for a rating above 5.  The profile page's [renderStars] draws
    the same. *)
Theorem render_stars_fills_rating_many rating :
  let filled := Z.to_nat (Z.min (Z.max rating 0) 5) in
  PatientAppointments.renderStars rating
  = (replicate filled true ++ replicate (5 - filled) false)%list /\
  Profile.renderStars rating = PatientAppointments.renderStars rating.
Proof.
  intros filled. split; [|reflexivity].
  unfold PatientAppointments.renderStars, PatientAppointments.stars.
  cbn [fmap list_fmap].
  repeat case_bool_decide; try lia;
    first [ replace filled with 0%nat by lia
          | replace filled with 1%nat by lia
          | replace filled with 2%nat by lia
          | replace filled with 3%nat by lia
          | replace filled with 4%nat by lia
          | replace filled with 5%nat by lia ];
    reflexivity.
Qed.

(** ** Counts of the dashboard and the profile *)



(** ** The dashboard's recent appointments *)

Lemma insertByCreatedAt_Permutation d l :
  Firestore.insertByCreatedAt d l ≡ₚ d :: l.
Proof.
  induction l as [|d' l IH]; simpl; [done|].
  case_match; [done|]. rewrite IH. apply Permutation_swap.
Qed.

Lemma orderByCreatedAtDesc_Permutation l :
  Firestore.orderByCreatedAtDesc l ≡ₚ l.
Proof.
  unfold Firestore.orderByCreatedAtDesc.
  induction l as [|d l IH]; simpl; [done|].
  by rewrite insertByCreatedAt_Permutation, IH.
Qed.

Lemma insertByCreatedAt_sorted d l :
  StronglySorted notOlder l -> StronglySorted notOlder (Firestore.insertByCreatedAt d l).
Proof.
  induction 1 as [|d' l Hs IH Hall]; simpl.
  - constructor; [constructor|constructor].
  - destruct (Z.ltb_spec (createdAt d'.2) (createdAt d.2)) as [Hlt|Hge].
    + constructor; [by constructor|].
      constructor; [unfold notOlder; lia|].
      eapply Forall_impl; [exact Hall|]. unfold notOlder. intros y Hy. lia.
    + constructor; [done|].
      rewrite insertByCreatedAt_Permutation. constructor; [|done].
      unfold notOlder. lia.
Qed.

Lemma orderByCreatedAtDesc_sorted l :
  StronglySorted notOlder (Firestore.orderByCreatedAtDesc l).
Proof.
  unfold Firestore.orderByCreatedAtDesc.
  induction l as [|d l IH]; simpl; [constructor|].
  by apply insertByCreatedAt_sorted.
Qed.

Lemma StronglySorted_app_elem {A} (R : relation A) l1 l2 x y :
  StronglySorted R (l1 ++ l2) -> x ∈ l1 -> y ∈ l2 -> R x y.
Proof.
  induction l1 as [|z l1 IH]; simpl; [by intros _ ?%not_elem_of_nil|].
  intros Hs Hx Hy. apply StronglySorted_inv in Hs as [Hs Hall].
  apply elem_of_cons in Hx as [->|Hx]; [|by apply IH].
  apply (proj1 (Forall_forall _ _) Hall). apply elem_of_app. by right.
Qed.

Lemma StronglySorted_take {A} (R : relation A) n l :
  StronglySorted R l -> StronglySorted R (take n l).
Proof.
  revert n. induction l as [|x l IH]; intros [|n] Hs; simpl; try constructor.
  - apply IH. by apply StronglySorted_inv in Hs as [? _].
  - apply StronglySorted_inv in Hs as [_ Hall].
    apply Forall_forall. intros y [i [Hi _]]%elem_of_take.
    apply (proj1 (Forall_forall _ _) Hall). by eapply list_elem_of_lookup_2.
Qed.

(** X17.  The dashboard's recent list holds the five latest appointments of
    the user, or all of them when there are fewer: it has no more than five
    entries, each of the user's appointments, in the order of falling time
    of creation, and no appointment left out was created later than one
    that is shown. *)
Theorem dashboard_recent_are_the_latest_five u db :
  let all := appointmentsOf u db in
  let recent := Dashboard.recentAppointments u db in
  length recent = min 5 (Dashboard.totalAppointments (Dashboard.fetchDashboardData u db)) /\
  (forall apt, apt ∈ recent -> apt ∈ all) /\
  StronglySorted notOlder recent /\
  (forall shown other, shown ∈ recent -> other ∈ all -> other ∉ recent ->
                       createdAt other.2 <= createdAt shown.2).
Proof.
  intros all recent. subst recent. unfold Dashboard.recentAppointments. fold all.
  pose proof (orderByCreatedAtDesc_Permutation all) as Hperm.
  pose proof (orderByCreatedAtDesc_sorted all) as Hsorted.
  split_and!.
  - rewrite length_take. unfold Dashboard.fetchDashboardData.
    cbn [Dashboard.totalAppointments]. fold all. by rewrite Hperm.
  - intros apt (i & Hi & _)%elem_of_take. rewrite <- Hperm.
    by eapply list_elem_of_lookup_2.
  - by apply StronglySorted_take.
  - intros shown other Hshown Hother Hnot.
    rewrite <- Hperm, <- (take_drop 5 (Firestore.orderByCreatedAtDesc all)) in Hother.
    apply elem_of_app in Hother as [?|Hdrop]; [done|].
    rewrite <- (take_drop 5 (Firestore.orderByCreatedAtDesc all)) in Hsorted.
    exact (StronglySorted_app_elem _ _ _ _ _ Hsorted Hshown Hdrop).
Qed.

Lemma dashboard_recent_are_the_latest_five_witness :
  let db := db (worldAfter sixBookings) in
  let recent := Dashboard.recentAppointments alice db in
  length recent = 5%nat /\
  (forall shown, shown ∈ recent -> onJune9 1 <= createdAt shown.2).
Proof.
  intros db recent.
  destruct (dashboard_recent_are_the_latest_five alice db) as (Hlen & _ & _ & Hlatest).
  fold recent in Hlen, Hlatest.
  split.
  - rewrite Hlen. vm_compute. reflexivity.
  - intros shown Hshown.
    apply (Hlatest shown
             ("a1", booked alice (headacheForm june10) (onJune9 1) (onJune9 1)
                      (mkDoctor "d1" "Dr Day"))
             Hshown).
    + apply getDocs_elem. split; vm_compute; reflexivity.
    + vm_compute. intros Hin.
      repeat (apply elem_of_cons in Hin as [Heq|Hin]; [discriminate Heq|]).
      by apply not_elem_of_nil in Hin.
Defined.

(** ** The profile's recent feedback *)

Lemma findDoc_getDocs p (m : gmap string Appointment) id :
  findDoc id (Firestore.getDocs p m)
  = match m !! id with
    | Some a => if p a then Some (id, a) else None
    | None => None
    end.
Proof.
  destruct (findDoc id _) as [apt|] eqn:E.
  - apply findDoc_Some in E as [[Hp Hl]%getDocs_elem <-].
    rewrite Hl, Hp. by destruct apt.
  - destruct (m !! id) as [a|] eqn:Hl; [|done].
    destruct (p a) eqn:Hp; [|done]. exfalso.
    assert (Hin : (id, a) ∈ Firestore.getDocs p m) by (by apply getDocs_elem).
    apply list_elem_of_In in Hin.
    apply (find_none _ _ E) in Hin. simpl in Hin.
    by rewrite bool_decide_true in Hin.
Qed.

(** X18.  A doctor's profile shows at most five of the doctor's feedback
    records, five when there are that many and all of them when there are
    fewer; none is shown more often than it is stored.  Each comes with a
    name that is never empty: the patient's name of the appointment the
    feedback is for when that appointment is (still) this doctor's and the
    name is not empty, and [Unknown Patient] when the appointment is not
    among this doctor's.  (Which five are shown when there are more is left
    to the order of the query result.) *)
Theorem profile_recent_feedback_names u db :
  role u = doctor ->
  let recent := Profile.recentFeedbacks u db in
  length recent = min 5 (length (feedbackFor db (uid u))) /\
  recent.*1 ⊆+ feedbackFor db (uid u) /\
  ((length (feedbackFor db (uid u)) <= 5)%nat ->
   recent.*1 ≡ₚ feedbackFor db (uid u)) /\
  forall f nm, (f, nm) ∈ recent ->
    f ∈ feedbackFor db (uid u) /\
    nm <> "" /\
    (forall a, coll_appointments db !! fb_appointmentId f = Some a ->
               doctorId a = Some (uid u) -> patientName a <> "" ->
               nm = patientName a) /\
    ((forall a, coll_appointments db !! fb_appointmentId f = Some a ->
                doctorId a <> Some (uid u)) ->
     nm = "Unknown Patient").
Proof.
  intros Hrole recent. subst recent.
  unfold Profile.recentFeedbacks, appointmentsOf. rewrite Hrole.
  assert (Hfst : forall (g : Feedback -> string) (l : list Feedback),
            ((fun feedback => (feedback, g feedback)) <$> l).*1 = l).
  { intros g l. rewrite <- list_fmap_compose.
    induction l as [|x l IH]; csimpl; [done|]. by rewrite IH. }
  rewrite Hfst. split_and!.
  - by rewrite length_fmap, length_take.
  - apply sublist_submseteq, sublist_take.
  - intros Hle. by rewrite take_ge.
  - intros f nm (f0 & [= <- ->] & (i & Hi & _)%elem_of_take)%list_elem_of_fmap.
    split; [by eapply list_elem_of_lookup_2|].
    fold (findDoc (fb_appointmentId f)
            (Firestore.getDocs
               (fun a => bool_decide (doctorId a = Some (uid u)))
               (coll_appointments db))).
    rewrite findDoc_getDocs.
    destruct (coll_appointments db !! fb_appointmentId f) as [a|] eqn:Ha.
    + case_bool_decide as Hd; simpl.
      * split_and!.
        -- unfold orElse. by case_bool_decide.
        -- intros a' [= <-] _ Hnm. unfold orElse. by rewrite bool_decide_false.
        -- intros Hno. by destruct (Hno a eq_refl).
      * split_and!; [done| |done]. intros a' [= <-] Hd'. done.
    + simpl. split_and!; [done| |done]. intros a' [=].
Qed.

Lemma profile_recent_feedback_names_witness :
  Profile.recentFeedbacks drDay (db (worldAfter scenarioTrace))
  = [(mkFeedback "a1" "p1" "d1" 5 (Some "Great") (onJune9 13), "Alice")] /\
  Profile.recentFeedbacks drDay (db (worldAfter ratedThenReclaimedTrace))
  = [(mkFeedback "a1" "p1" "d1" 5 None (onJune9 14), "Unknown Patient")].
Proof.
  split.
  - destruct (profile_recent_feedback_names drDay (db (worldAfter scenarioTrace))
                eq_refl) as (_ & _ & _ & Hnames).
    destruct (Profile.recentFeedbacks drDay (db (worldAfter scenarioTrace)))
      as [|[f nm] l] eqn:E; [vm_compute in E; inversion E|].
    destruct (Hnames f nm (list_elem_of_here _ _)) as (_ & _ & Hname & _).
    assert (Hf : f = mkFeedback "a1" "p1" "d1" 5 (Some "Great") (onJune9 13))
      by (vm_compute in E; by injection E).
    assert (Hl : l = []) by (vm_compute in E; by injection E).
    rewrite Hl. rewrite Hf in Hname |- *.
    rewrite (Hname (mkAppointment "p1" "Alice" (Some "d1") (Some "Dr Day")
                      (Some "d1") (Some "Dr Day") (IsoDate june10) "09:00"
                      "headache" completed (onJune9 8) (onJune9 11)));
      [reflexivity|..].
    + vm_compute. reflexivity.
    + reflexivity.
    + discriminate.
  - destruct (profile_recent_feedback_names drDay
                (db (worldAfter ratedThenReclaimedTrace)) eq_refl)
      as (_ & _ & _ & Hnames).
    destruct (Profile.recentFeedbacks drDay (db (worldAfter ratedThenReclaimedTrace)))
      as [|[f nm] l] eqn:E; [vm_compute in E; inversion E|].
    destruct (Hnames f nm (list_elem_of_here _ _)) as (_ & _ & _ & Hunknown).
    assert (Hf : f = mkFeedback "a1" "p1" "d1" 5 None (onJune9 14))
      by (vm_compute in E; by injection E).
    assert (Hl : l = []) by (vm_compute in E; by injection E).
    rewrite Hl. rewrite Hf in Hunknown |- *.
    rewrite Hunknown; [reflexivity|].
    intros a Ha. vm_compute in Ha. injection Ha as <-. discriminate.
Defined.

(** ** From one page to the next: what a freshly opened page shows *)

Lemma getDocs_insert_fresh p (m : gmap string Appointment) id a :
  m !! id = None -> p a = true ->
  Firestore.getDocs p (<[id := a]> m) ≡ₚ (id, a) :: Firestore.getDocs p m.
Proof.
  intros Hfresh Hp. unfold Firestore.getDocs.
  rewrite (map_to_list_insert m id a Hfresh), filter_cons. simpl.
  by rewrite decide_True.
Qed.

Lemma countStatus_Permutation s l l' : l ≡ₚ l' -> countStatus s l = countStatus s l'.
Proof. intros H. unfold countStatus. by rewrite H. Qed.

(** X19.  An appointment just booked is on every pending page and on the
    patient's own appointments page opened afterwards, and on no doctor's
    page; the pending list has grown by one, and so have the total and the
    pending count of the patient's dashboard. *)
Theorem booked_appointment_is_listed
    tz u doctors formData now now' newId db day d :
  admitted tz u doctors formData db day d ->
  coll_appointments db !! newId = None ->
  let db' :=
    (BookAppointment.handleSubmit u doctors formData now now' tz newId db).2 in
  let apt := (newId, booked u formData now now' d) in
  apt ∈ PendingAppointments.appointments
          (PendingAppointments.fetchPendingAppointments db') /\
  apt ∈ PatientAppointments.appointments
          (PatientAppointments.fetchAppointments u db') /\
  (forall v apt', apt' ∈ DoctorAppointments.appointments
                           (DoctorAppointments.fetchMyAppointments v db') ->
                  apt'.1 <> newId) /\
  length (PendingAppointments.appointments
            (PendingAppointments.fetchPendingAppointments db'))
  = S (length (PendingAppointments.appointments
                 (PendingAppointments.fetchPendingAppointments db))) /\
  (role u = patient ->
   Dashboard.totalAppointments (Dashboard.fetchDashboardData u db')
   = S (Dashboard.totalAppointments (Dashboard.fetchDashboardData u db)) /\
   Dashboard.pendingAppointments (Dashboard.fetchDashboardData u db')
   = S (Dashboard.pendingAppointments (Dashboard.fetchDashboardData u db))).
Proof.
  intros Hadm Hfresh db' apt. subst db' apt.
  rewrite (handleSubmit_admitted _ _ _ _ _ _ _ _ _ _ Hadm). cbn [snd].
  split_and!.
  - apply getDocs_elem. cbn [fst snd coll_appointments].
    by rewrite lookup_insert_eq.
  - apply getDocs_elem. cbn [fst snd coll_appointments].
    rewrite lookup_insert_eq. split; [|done]. by apply bool_decide_eq_true.
  - intros v apt' [Hd%bool_decide_eq_true Hl]%getDocs_elem Heq.
    cbn [coll_appointments] in Hl. rewrite Heq, lookup_insert_eq in Hl.
    injection Hl as Hl. by rewrite <- Hl in Hd.
  - unfold PendingAppointments.fetchPendingAppointments.
    cbn [PendingAppointments.appointments coll_appointments].
    by rewrite getDocs_insert_fresh.
  - intros Hrole. unfold Dashboard.fetchDashboardData, appointmentsOf.
    rewrite Hrole.
    cbn [Dashboard.totalAppointments Dashboard.pendingAppointments coll_appointments].
    assert (Hperm :
      Firestore.getDocs (fun a => bool_decide (patientId a = uid u))
        (<[newId := booked u formData now now' d]> (coll_appointments db))
      ≡ₚ (newId, booked u formData now now' d)
         :: Firestore.getDocs (fun a => bool_decide (patientId a = uid u))
              (coll_appointments db)).
    { apply getDocs_insert_fresh; [done|]. by apply bool_decide_eq_true. }
    split.
    + by rewrite Hperm.
    + rewrite (countStatus_Permutation _ _ _ Hperm). unfold countStatus.
      rewrite filter_cons. by rewrite decide_True.
Qed.

Lemma booked_appointment_is_listed_witness :
  let db' :=
    db (worldAfter
          [Book alice staff (headacheForm june10) (onJune9 8) (onJune9 8) 0 "a1"]) in
  let apt := ("a1", booked alice (headacheForm june10) (onJune9 8) (onJune9 8)
                      (mkDoctor "d1" "Dr Day")) in
  apt ∈ PendingAppointments.appointments
          (PendingAppointments.fetchPendingAppointments db') /\
  apt ∈ PatientAppointments.appointments
          (PatientAppointments.fetchAppointments alice db') /\
  Dashboard.totalAppointments (Dashboard.fetchDashboardData alice db') = 1%nat.
Proof.
  intros db' apt.
  destruct (booked_appointment_is_listed 0 alice staff (headacheForm june10)
              (onJune9 8) (onJune9 8) "a1" emptyStore june10
              (mkDoctor "d1" "Dr Day"))
    as (Hpending & Hpatient & _ & _ & Hdash).
  - unfold admitted. split_and!; try done; vm_compute; lia.
  - reflexivity.
  - split_and!; [exact Hpending|exact Hpatient|].
    exact (proj1 (Hdash eq_refl)).
Defined.

(** X20.  Once [handleAcceptAppointment] has found the appointment, a
    pending page opened afterwards no longer lists it, the accepting
    doctor's page lists it as confirmed and this doctor's, no other
    doctor's page lists it, and the patient's page shows it with the
    doctor's name and the status confirmed. *)
Theorem accepted_appointment_moves_to_the_doctor u now st id db a :
  coll_appointments db !! id = Some a ->
  let db' := (PendingAppointments.handleAcceptAppointment u now st id db).2 in
  (id, claimedBy u now a)
    ∈ DoctorAppointments.appointments (DoctorAppointments.fetchMyAppointments u db') /\
  (forall apt, apt ∈ PendingAppointments.appointments
                       (PendingAppointments.fetchPendingAppointments db') ->
               apt.1 <> id) /\
  (forall v apt, uid v <> uid u ->
                 apt ∈ DoctorAppointments.appointments
                         (DoctorAppointments.fetchMyAppointments v db') ->
                 apt.1 <> id) /\
  (forall p, patientId a = uid p ->
             (id, claimedBy u now a)
               ∈ PatientAppointments.appointments
                   (PatientAppointments.fetchAppointments p db')).
Proof.
  intros Ha db'. subst db'.
  rewrite (handleAcceptAppointment_found _ _ _ _ _ _ Ha). cbn [snd].
  split_and!.
  - apply getDocs_elem. cbn [fst snd coll_appointments].
    rewrite lookup_insert_eq. split; [|done]. by apply bool_decide_eq_true.
  - intros apt [Hp%bool_decide_eq_true Hl]%getDocs_elem Heq.
    cbn [coll_appointments] in Hl. rewrite Heq, lookup_insert_eq in Hl.
    injection Hl as Hl. by rewrite <- Hl in Hp.
  - intros v apt Hne [Hd%bool_decide_eq_true Hl]%getDocs_elem Heq.
    cbn [coll_appointments] in Hl. rewrite Heq, lookup_insert_eq in Hl.
    injection Hl as Hl. rewrite <- Hl in Hd. simpl in Hd. congruence.
  - intros p Hp. apply getDocs_elem. cbn [fst snd coll_appointments].
    rewrite lookup_insert_eq. split; [|done]. by apply bool_decide_eq_true.
Qed.

Lemma accepted_appointment_moves_to_the_doctor_witness :
  let w := worldAfter (take 3 raceTrace) in
  let a := booked alice (headacheForm june10) (onJune9 8) (onJune9 8) (mkDoctor "d1" "Dr Day") in
  ("a1", claimedBy drDay (onJune9 9) a)
    ∈ DoctorAppointments.appointments
        (DoctorAppointments.fetchMyAppointments drDay (db (worldAfter raceTrace))) /\
  forall apt, apt ∈ DoctorAppointments.appointments
                      (DoctorAppointments.fetchMyAppointments drEve
                         (db (worldAfter raceTrace))) ->
              apt.1 <> "a1".
Proof.
  intros w a.
  destruct (pages w !! 0%nat) as [[u st|u st|u st]|] eqn:E;
    [|vm_compute in E; inversion E..].
  assert (Hdb : db (worldAfter raceTrace)
                = (PendingAppointments.handleAcceptAppointment
                     drDay (onJune9 9) st "a1" (db w)).2)
    by (vm_compute; reflexivity).
  rewrite Hdb.
  destruct (accepted_appointment_moves_to_the_doctor drDay (onJune9 9) st "a1" (db w) a)
    as (Hmine & _ & Hothers & _).
  - vm_compute. reflexivity.
  - split; [exact Hmine|]. intros apt. apply Hothers. discriminate.
Defined.

Lemma fetchPrescriptions_lookup db (l : list AppointmentDoc) id :
  DoctorAppointments.fetchPrescriptions db l !! id
  = if decide (id ∈ l.*1) then DoctorAppointments.prescriptionOf db id else None.
Proof.
  unfold DoctorAppointments.fetchPrescriptions.
  assert (Hgen : forall (acc : gmap string Prescription),
            acc !! id = None \/ acc !! id = DoctorAppointments.prescriptionOf db id ->
            foldl (fun prescriptionsData (apt : AppointmentDoc) =>
                     match DoctorAppointments.prescriptionOf db apt.1 with
                     | Some p => <[apt.1 := p]> prescriptionsData
                     | None => prescriptionsData
                     end) acc l !! id
            = if decide (id ∈ l.*1) then DoctorAppointments.prescriptionOf db id
              else acc !! id).
  { induction l as [|apt l IH]; intros acc Hacc.
    - cbn [foldl]. destruct (decide _) as [H|H]; [by inversion H|done].
    - rewrite fmap_cons. cbn [foldl]. rewrite IH.
      + destruct (decide (id ∈ l.*1)) as [Hin|Hnin];
          destruct (decide (id ∈ apt.1 :: l.*1)) as [Hin'|Hnin'].
        * done.
        * exfalso. apply Hnin'. by right.
        * apply elem_of_cons in Hin' as [->|?]; [|done].
          destruct (DoctorAppointments.prescriptionOf db apt.1) as [p|] eqn:Hp.
          -- by rewrite lookup_insert_eq.
          -- by destruct Hacc as [->| ->].
        * assert (apt.1 <> id) by (intros <-; apply Hnin'; left).
          destruct (DoctorAppointments.prescriptionOf db apt.1); [|done].
          by rewrite lookup_insert_ne.
      + destruct (decide (apt.1 = id)) as [Heq|Hne].
        * rewrite Heq.
          destruct (DoctorAppointments.prescriptionOf db id) as [p|] eqn:Hp; [|done].
          right. by rewrite lookup_insert_eq.
        * destruct (DoctorAppointments.prescriptionOf db apt.1); [|done].
          by rewrite lookup_insert_ne. }
  rewrite Hgen by (left; apply lookup_empty).
  case_decide; [done|apply lookup_empty].
Qed.

Lemma prescriptionOf_is_Some db id presc :
  presc ∈ coll_prescriptions db -> presc_appointmentId presc = id ->
  is_Some (DoctorAppointments.prescriptionOf db id).
Proof.
  intros Hin Hid. unfold DoctorAppointments.prescriptionOf.
  destruct (filter _ (coll_prescriptions db)) as [|p0 ps] eqn:E; [|by eexists].
  exfalso. eapply (filter_nil_not_elem_of _ _ presc); [exact E| |exact Hin]. done.
Qed.

Lemma completed_ids p (m : gmap string Appointment) id :
  id ∈ (filter (fun apt : AppointmentDoc => status apt.2 = completed)
          (Firestore.getDocs p m)).*1
  <-> exists a, m !! id = Some a /\ p a = true /\ status a = completed.
Proof.
  rewrite list_elem_of_fmap. split.
  - intros (apt & -> & [Hst [Hp Hl]%getDocs_elem]%list_elem_of_filter).
    by exists apt.2.
  - intros (a & Hl & Hp & Hst). exists (id, a). split; [done|].
    apply list_elem_of_filter. split; [done|]. by apply getDocs_elem.
Qed.

Lemma head_filter_elem {A} (P : A -> Prop) `{!forall x, Decision (P x)}
    (l : list A) x :
  head (filter P l) = Some x -> x ∈ filter P l.
Proof. destruct (filter P l); simpl; [done|]. intros [= ->]. left. Qed.

(** X21.  What the pages show of the stored prescriptions.  For a completed
    appointment that has prescriptions in the store, the page of its doctor
    opened afterwards holds one of the prescriptions stored for it and does
    not offer to add another, and the page of its patient shows one of
    them; so where a single prescription is stored, that is the one on both
    pages.  With no prescription stored, neither page holds one.  For an
    appointment that is not completed in the store, neither page shows a
    prescription, stored or not.  (Which one is shown where several are
    stored is left to the order of the query result.) *)
Theorem stored_prescription_is_shown db id a :
  coll_appointments db !! id = Some a ->
  (status a = completed -> prescriptionRecords db id <> [] ->
   (forall u, doctorId a = Some (uid u) ->
      let st := DoctorAppointments.fetchMyAppointments u db in
      (exists presc, DoctorAppointments.prescriptions st !! id = Some presc /\
                     presc ∈ prescriptionRecords db id) /\
      DoctorAppointments.addPrescriptionOffered st (id, a) = false) /\
   (forall p, patientId a = uid p ->
      exists presc,
        PatientAppointments.prescriptionShown
          (PatientAppointments.fetchAppointments p db) (id, a) = Some presc /\
        presc ∈ prescriptionRecords db id)) /\
  (status a = completed -> prescriptionRecords db id = [] ->
   (forall u, doctorId a = Some (uid u) ->
      let st := DoctorAppointments.fetchMyAppointments u db in
      DoctorAppointments.prescriptions st !! id = None /\
      DoctorAppointments.addPrescriptionOffered st (id, a) = true) /\
   (forall p, PatientAppointments.prescriptionShown
                (PatientAppointments.fetchAppointments p db) (id, a) = None)) /\
  (status a <> completed ->
   (forall u, DoctorAppointments.prescriptions
                (DoctorAppointments.fetchMyAppointments u db) !! id = None) /\
   (forall p, PatientAppointments.prescriptionShown
                (PatientAppointments.fetchAppointments p db) (id, a) = None)).
Proof.
  intros Ha.
  assert (Hdoctor : forall u, status a = completed -> doctorId a = Some (uid u) ->
            DoctorAppointments.prescriptions
              (DoctorAppointments.fetchMyAppointments u db) !! id
            = head (prescriptionRecords db id)).
  { intros u Hst Hd. unfold DoctorAppointments.fetchMyAppointments.
    cbn [DoctorAppointments.prescriptions].
    rewrite fetchPrescriptions_lookup, decide_True; [done|].
    apply completed_ids. exists a. split_and!; [done| |done].
    by apply bool_decide_eq_true. }
  assert (Hpatient : forall p, status a = completed ->
            PatientAppointments.prescriptionShown
              (PatientAppointments.fetchAppointments p db) (id, a)
            = head (prescriptionRecords db id) \/
            PatientAppointments.prescriptionShown
              (PatientAppointments.fetchAppointments p db) (id, a) = None).
  { intros p Hst. unfold PatientAppointments.prescriptionShown. cbn [fst snd].
    rewrite bool_decide_true by done.
    unfold PatientAppointments.fetchAppointments.
    cbn [PatientAppointments.prescriptions].
    rewrite fetchPrescriptions_lookup. case_decide; [by left|by right]. }
  split_and!.
  - intros Hst Hne.
    destruct (head (prescriptionRecords db id)) as [presc|] eqn:Hhead;
      [|by destruct (prescriptionRecords db id)].
    pose proof (head_filter_elem _ _ _ Hhead) as Hin.
    split.
    + intros u Hd st. subst st. rewrite (Hdoctor u Hst Hd).
      split; [by exists presc|].
      unfold DoctorAppointments.addPrescriptionOffered. cbn [fst snd].
      rewrite (Hdoctor u Hst Hd).
      rewrite (bool_decide_false (Some presc = None)) by done. apply andb_false_r.
    + intros p Hp. exists presc. split; [|done].
      unfold PatientAppointments.prescriptionShown. cbn [fst snd].
      rewrite bool_decide_true by done.
      unfold PatientAppointments.fetchAppointments.
      cbn [PatientAppointments.prescriptions].
      rewrite fetchPrescriptions_lookup, decide_True; [done|].
      apply completed_ids. exists a. split_and!; [done| |done].
      by apply bool_decide_eq_true.
  - intros Hst Hnil. split.
    + intros u Hd st. subst st.
      unfold DoctorAppointments.addPrescriptionOffered. cbn [fst snd].
      rewrite (Hdoctor u Hst Hd), Hnil. simpl.
      by rewrite !bool_decide_true.
    + intros p. destruct (Hpatient p Hst) as [->| ->]; [|done]. by rewrite Hnil.
  - intros Hst. split.
    + intros u. unfold DoctorAppointments.fetchMyAppointments.
      cbn [DoctorAppointments.prescriptions].
      rewrite fetchPrescriptions_lookup, decide_False; [done|].
      intros (a' & Ha' & _ & Hst')%completed_ids. congruence.
    + intros p. unfold PatientAppointments.prescriptionShown. cbn [fst snd].
      by rewrite bool_decide_false.
Qed.

Lemma stored_prescription_is_shown_witness :
  let db1 := db (worldAfter scenarioTrace) in
  let db2 := db (worldAfter (staleModalTrace ++ [SubmitPrescription 2 (onJune9 13)])%list) in
  let a1 := mkAppointment "p1" "Alice" (Some "d1") (Some "Dr Day")
              (Some "d1") (Some "Dr Day") (IsoDate june10) "09:00"
              "headache" completed (onJune9 8) (onJune9 11) in
  DoctorAppointments.addPrescriptionOffered
    (DoctorAppointments.fetchMyAppointments drDay db1) ("a1", a1) = false /\
  PatientAppointments.prescriptionShown
    (PatientAppointments.fetchAppointments alice db1) ("a1", a1)
  = Some (mkPrescription "a1" [mkMedicine "Paracetamol" "500mg" "3x daily"]
            (onJune9 12)) /\
  length (coll_prescriptions db2) = 1%nat /\
  forall u, DoctorAppointments.prescriptions
              (DoctorAppointments.fetchMyAppointments u db2) !! "a1" = None.
Proof.
  intros db1 db2 a1. split_and!.
  - destruct (stored_prescription_is_shown db1 "a1" a1) as (Hsome & _);
      [vm_compute; reflexivity|].
    destruct Hsome as [Hdoctor _]; [reflexivity|vm_compute; discriminate|].
    exact (proj2 (Hdoctor drDay eq_refl)).
  - destruct (stored_prescription_is_shown db1 "a1" a1) as (Hsome & _);
      [vm_compute; reflexivity|].
    destruct Hsome as [_ Hpatient]; [reflexivity|vm_compute; discriminate|].
    destruct (Hpatient alice eq_refl) as (presc & -> & Hin).
    vm_compute in Hin. apply list_elem_of_singleton in Hin. by rewrite Hin.
  - vm_compute. reflexivity.
  - destruct (stored_prescription_is_shown db2 "a1"
                (mkAppointment "p1" "Alice" (Some "d2") (Some "Dr Eve")
                   (Some "d1") (Some "Dr Day") (IsoDate june10) "09:00"
                   "headache" confirmed (onJune9 8) (onJune9 12)))
      as (_ & _ & Hunfinished); [vm_compute; reflexivity|].
    destruct Hunfinished as [Hnone _]; [discriminate|]. exact Hnone.
Defined.

(** X22.  A feedback that [handleSubmitFeedback] accepts is added to the
    records of the doctor it names and of no other doctor: that doctor's
    number of feedbacks on the profile page grows by one and the sum of the
    ratings by the rating given. *)
Theorem submitted_feedback_counts_for_its_doctor u now st id d db :
  PatientAppointments.form_rating (PatientAppointments.feedbackForm st) <> 0 ->
  (String.length (PatientAppointments.form_comment
                    (PatientAppointments.feedbackForm st)) <= 150)%nat ->
  let db' := (PatientAppointments.handleSubmitFeedback u now st id d db).2 in
  feedbackFor db' d = (feedbackFor db d ++ [feedbackDoc u st id d now])%list /\
  (forall d', d' <> d -> feedbackFor db' d' = feedbackFor db d') /\
  totalRating (feedbackFor db' d)
  = totalRating (feedbackFor db d)
    + PatientAppointments.form_rating (PatientAppointments.feedbackForm st) /\
  (forall doc, role doc = doctor -> uid doc = d ->
     Profile.totalFeedbacks (Profile.fetchProfileData doc db')
     = S (Profile.totalFeedbacks (Profile.fetchProfileData doc db))).
Proof.
  intros Hr Hc db'. subst db'.
  unfold PatientAppointments.handleSubmitFeedback.
  destruct (Z.eqb_spec (PatientAppointments.form_rating
                          (PatientAppointments.feedbackForm st)) 0); [done|].
  destruct (Nat.ltb_spec 150 (String.length
              (PatientAppointments.form_comment
                 (PatientAppointments.feedbackForm st)))); [lia|].
  cbn [snd]. fold (feedbackDoc u st id d now).
  assert (Hfor : feedbackFor
                   (mkStore (coll_appointments db) (coll_prescriptions db)
                      (coll_feedback db ++ [feedbackDoc u st id d now])) d
                 = (feedbackFor db d ++ [feedbackDoc u st id d now])%list).
  { unfold feedbackFor. cbn [coll_feedback]. rewrite filter_app.
    by rewrite (filter_cons_True _ (feedbackDoc u st id d now) []). }
  split_and!.
  - exact Hfor.
  - intros d' Hne. unfold feedbackFor. cbn [coll_feedback]. rewrite filter_app.
    rewrite (filter_cons_False _ (feedbackDoc u st id d now) []); [|simpl; congruence].
    apply app_nil_r.
  - rewrite Hfor, !totalRating_foldr, map_app, foldr_app. simpl.
    generalize (map rating (feedbackFor db d)). intros l.
    induction l as [|x l IH]; simpl; lia.
  - intros doc Hrole <-. unfold Profile.fetchProfileData. rewrite Hrole.
    cbn [Profile.totalFeedbacks]. rewrite Hfor, length_app. simpl. lia.
Qed.

Lemma submitted_feedback_counts_for_its_doctor_witness :
  let w := worldAfter feedbackFormTrace in
  match patientPageAt w 3 with
  | Some (u, st) =>
      let db' := (PatientAppointments.handleSubmitFeedback
                    u (onJune9 14) st "a1" "d1" (db w)).2 in
      Profile.totalFeedbacks (Profile.fetchProfileData drDay db')
      = S (Profile.totalFeedbacks (Profile.fetchProfileData drDay (db w))) /\
      feedbackFor db' "d2" = feedbackFor (db w) "d2"
  | None => False
  end.
Proof.
  intros w. unfold patientPageAt.
  destruct (pages w !! 3%nat) as [[u st|u st|u st]|] eqn:E;
    [vm_compute in E; inversion E|vm_compute in E; inversion E|
    |vm_compute in E; inversion E].
  destruct (submitted_feedback_counts_for_its_doctor u (onJune9 14) st "a1" "d1" (db w))
    as (_ & Hothers & _ & Hcount).
  - vm_compute in E. injection E as <- <-. vm_compute. discriminate.
  - vm_compute in E. injection E as <- <-. vm_compute. lia.
  - split; [by apply Hcount|]. apply Hothers. discriminate.
Defined.

(** ** Accounts *)

Lemma string_length_append (s t : string) :
  String.length (s ++ t) = (String.length s + String.length t)%nat.
Proof. induction s as [|c s IH]; simpl; [done|]. by rewrite IH. Qed.

Lemma substring_append_r (p x : string) n :
  substring (String.length p) n (p ++ x) = substring 0 n x.
Proof. induction p as [|c p IH]; simpl; [done|]. exact IH. Qed.

Lemma substring_0_length (x : string) : substring 0 (String.length x) x = x.
Proof. induction x as [|c x IH]; simpl; [done|]. by rewrite IH. Qed.

Lemma substring_split (s : string) : forall k,
  (k <= String.length s)%nat ->
  s = substring 0 k s ++ substring k (String.length s - k) s.
Proof.
  induction s as [|c s IH]; intros [|k] Hk; simpl in *.
  - done.
  - lia.
  - by rewrite substring_0_length.
  - change (String c s
            = String c (substring 0 k s ++ substring k (String.length s - k) s)).
    f_equal. apply IH. lia.
Qed.

Lemma endsWith_spec s suffix :
  endsWith s suffix = true <-> exists p, s = p ++ suffix.
Proof.
  unfold endsWith. rewrite andb_true_iff, bool_decide_eq_true. split.
  - intros [Hlen%Nat.leb_le Hsub].
    exists (substring 0 (String.length s - String.length suffix) s).
    pose proof (substring_split s (String.length s - String.length suffix)) as Hsplit.
    replace (String.length s - (String.length s - String.length suffix))%nat
      with (String.length suffix) in Hsplit by lia.
    rewrite Hsub in Hsplit. apply Hsplit. lia.
  - intros [p ->]. rewrite string_length_append. split; [apply Nat.leb_le; lia|].
    replace (String.length p + String.length suffix - String.length suffix)%nat
      with (String.length p) by lia.
    by rewrite substring_append_r, substring_0_length.
Qed.

Lemma handleSubmit_registrable formData auth now users :
  registrable formData ->
  Register.handleSubmit formData auth now users
  = match auth with
    | authCreated newUid =>
        (toast_success "Account created successfully!", Some "/dashboard",
         <[newUid := registered formData newUid now]> users)
    | authRejected message =>
        (toast_error (if bool_decide (message = "") then "Registration failed"
                      else message),
         None, users)
    end.
Proof.
  intros (Hn & Hdom & Hpw & Hlen).
  assert (He : endsWith (Register.fd_email formData) "@meditrack.local" = true)
    by (by apply endsWith_spec).
  assert (Hemail : Register.fd_email formData <> "").
  { destruct Hdom as [local ->]. intros Heq. apply (f_equal String.length) in Heq.
    rewrite string_length_append in Heq. simpl in Heq. lia. }
  assert (Hpass : Register.fd_password formData <> "").
  { intros Heq. rewrite Heq in Hlen. simpl in Hlen. lia. }
  unfold Register.handleSubmit, AuthContext.signup, AuthContext.domain.
  rewrite He. rewrite <- Hpw.
  rewrite !bool_decide_false by done. rewrite bool_decide_true by done.
  cbn [orb negb].
  destruct (Nat.ltb_spec (String.length (Register.fd_password formData)) 6); [lia|].
  by destruct auth.
Qed.

Lemma handleSubmit_register_cases formData auth now users :
  registrable formData \/
  exists msg, Register.handleSubmit formData auth now users
              = (toast_error msg, None, users).
Proof.
  unfold Register.handleSubmit.
  destruct (bool_decide _ || bool_decide _ || bool_decide _ || bool_decide _) eqn:Hf;
    [right; eauto|].
  apply orb_false_iff in Hf as [[[Hn%bool_decide_eq_false _]%orb_false_iff _]%orb_false_iff _].
  destruct (endsWith (Register.fd_email formData) "@meditrack.local") eqn:He;
    cbn [negb]; [|right; eauto].
  destruct (bool_decide (Register.fd_password formData
                         = Register.fd_confirmPassword formData)) eqn:Hp;
    cbn [negb]; [|right; eauto].
  destruct (Nat.ltb_spec (String.length (Register.fd_password formData)) 6);
    [right; eauto|].
  left. split_and!; [done| |by apply bool_decide_eq_true in Hp|done].
  by apply endsWith_spec.
Qed.

(** X23.  [Register]'s [handleSubmit] creates an account exactly when the
    form has a name, an e-mail address ending in [@meditrack.local] and a
    password of at least six characters typed the same twice, and the
    authentication service accepts it.  It then stores one user document
    under the new [uid], with the form's name, address and role, and goes to
    the dashboard.  A rejection by the service is shown with its message,
    and in every case but the first nothing is stored. *)
Theorem register_creates_account_iff_registrable formData auth now users :
  (registrable formData ->
   forall newUid, auth = authCreated newUid ->
     Register.handleSubmit formData auth now users
     = (toast_success "Account created successfully!", Some "/dashboard",
        <[newUid := registered formData newUid now]> users)) /\
  (registrable formData ->
   forall message, auth = authRejected message ->
     Register.handleSubmit formData auth now users
     = (toast_error (if bool_decide (message = "") then "Registration failed"
                     else message),
        None, users)) /\
  (~ registrable formData ->
   exists msg, Register.handleSubmit formData auth now users
               = (toast_error msg, None, users)).
Proof.
  split_and!.
  - intros Hreg newUid ->. by rewrite handleSubmit_registrable.
  - intros Hreg message ->. by rewrite handleSubmit_registrable.
  - intros Hnot.
    by destruct (handleSubmit_register_cases formData auth now users) as [?|?].
Qed.

Lemma register_creates_account_iff_registrable_witness :
  Register.handleSubmit drDayForm (authCreated "d1") 0 ∅
  = (toast_success "Account created successfully!", Some "/dashboard",
     <["d1" := registered drDayForm "d1" 0]> ∅) /\
  Register.handleSubmit drDayForm (authRejected "") 0 ∅
  = (toast_error "Registration failed", None, ∅) /\
  exists msg,
    Register.handleSubmit
      (Register.mkFormData "Dr Day" "day@example.org" "secret1" "secret1" doctor)
      (authCreated "d1") 0 ∅
    = (toast_error msg, None, ∅).
Proof.
  assert (Hreg : registrable drDayForm).
  { split_and!; [done|by exists "day"|done|vm_compute; lia]. }
  split_and!.
  - by apply (proj1 (register_creates_account_iff_registrable
                       drDayForm (authCreated "d1") 0 ∅) Hreg).
  - exact (proj1 (proj2 (register_creates_account_iff_registrable
                           drDayForm (authRejected "") 0 ∅)) Hreg "" eq_refl).
  - apply (proj2 (proj2 (register_creates_account_iff_registrable
                           (Register.mkFormData "Dr Day" "day@example.org"
                              "secret1" "secret1" doctor)
                           (authCreated "d1") 0 ∅))).
    intros (_ & Hdom & _). apply endsWith_spec in Hdom. vm_compute in Hdom.
    discriminate.
Defined.

Lemma usersOk_handleSubmit formData auth now users :
  usersOk users -> usersOk (Register.handleSubmit formData auth now users).2.
Proof.
  intros Hok.
  destruct (handleSubmit_register_cases formData auth now users)
    as [Hreg|[msg ->]]; [|done].
  rewrite (handleSubmit_registrable _ _ _ _ Hreg).
  destruct auth as [message|newUid]; [done|]. cbn [snd].
  intros id d. destruct (decide (newUid = id)) as [->|Hne].
  - rewrite lookup_insert_eq. intros [= <-].
    destruct Hreg as (Hn & Hdom & _). by split_and!.
  - rewrite lookup_insert_ne by done. apply Hok.
Qed.

Lemma usersOk_registrations l : forall users,
  usersOk users -> usersOk (Register.registrations l users).
Proof.
  induction l as [|[[formData auth] now] l IH]; simpl; intros users Hok; [done|].
  by apply IH, usersOk_handleSubmit.
Qed.

Lemma usersOk_empty : usersOk ∅.
Proof. intros id d. by rewrite lookup_empty. Qed.

(** X24.  Whatever registration forms are submitted, and whatever the
    authentication service answers, every stored user document is stored
    under its own [uid], has a name, and has an e-mail address of the
    domain [@meditrack.local]. *)
Theorem registered_users_are_well_formed l :
  usersOk (Register.registrations l ∅).
Proof. apply usersOk_registrations, usersOk_empty. Qed.

Lemma fetchDoctors_insert_fresh users newUid d :
  users !! newUid = None ->
  BookAppointment.fetchDoctors (<[newUid := d]> users)
  ≡ₚ (if decide (user_role d = doctor)
      then [mkDoctor (user_uid d) (user_name d)] else [])
     ++ BookAppointment.fetchDoctors users.
Proof.
  intros Hfresh. unfold BookAppointment.fetchDoctors.
  rewrite (map_to_list_insert users newUid d Hfresh), filter_cons. simpl.
  by case_decide.
Qed.

(** X25.  A user who has registered is the [currentUser] the pages get for
    the new [uid], with the form's name and role.  A newly registered doctor
    is added to the doctors offered by the booking form, under the new
    [uid] and the form's name; registering a patient leaves them as they
    were. *)
Theorem registered_doctor_is_offered formData newUid now users :
  registrable formData -> users !! newUid = None ->
  let users' := (Register.handleSubmit formData (authCreated newUid) now users).2 in
  AuthContext.currentUserOf newUid users'
  = Some (mkUser newUid (Register.fd_name formData) (Register.fd_role formData)) /\
  (Register.fd_role formData = doctor ->
   BookAppointment.fetchDoctors users'
   ≡ₚ mkDoctor newUid (Register.fd_name formData) :: BookAppointment.fetchDoctors users) /\
  (Register.fd_role formData = patient ->
   BookAppointment.fetchDoctors users' ≡ₚ BookAppointment.fetchDoctors users).
Proof.
  intros Hreg Hfresh users'. subst users'.
  rewrite (handleSubmit_registrable _ _ _ _ Hreg). cbn [snd].
  split_and!.
  - unfold AuthContext.currentUserOf. by rewrite lookup_insert_eq.
  - intros Hrole. rewrite (fetchDoctors_insert_fresh _ _ _ Hfresh).
    unfold registered. cbn [user_role user_uid user_name].
    by rewrite decide_True.
  - intros Hrole. rewrite (fetchDoctors_insert_fresh _ _ _ Hfresh).
    unfold registered. cbn [user_role]. rewrite decide_False; [done|].
    rewrite Hrole. discriminate.
Qed.

Lemma registered_doctor_is_offered_witness :
  let users' := (Register.handleSubmit drDayForm (authCreated "d1") 0 ∅).2 in
  AuthContext.currentUserOf "d1" users' = Some (mkUser "d1" "Dr Day" doctor) /\
  BookAppointment.fetchDoctors users'
  ≡ₚ mkDoctor "d1" "Dr Day" :: BookAppointment.fetchDoctors ∅.
Proof.
  intros users'.
  destruct (registered_doctor_is_offered drDayForm "d1" 0 ∅) as (Hcur & Hdoc & _).
  - split_and!; [done|by exists "day"|done|vm_compute; lia].
  - apply lookup_empty.
  - split; [exact Hcur|by apply Hdoc].
Defined.

(** X26.  When the doctor chosen in the booking form is one of the options
    of its selector, [handleSubmit] never fails for want of the doctor's
    name.  If the doctors were fetched from well-formed user documents, the
    preferred doctor written into a booked appointment is a stored user with
    the role doctor, and the name written is that user's name. *)
Theorem offered_doctor_is_always_found users u formData now now' tz newId db :
  BookAppointment.fd_preferredDoctorId formData
    ∈ BookAppointment.doctorOptions (BookAppointment.fetchDoctors users) ->
  let r := BookAppointment.handleSubmit u (BookAppointment.fetchDoctors users)
             formData now now' tz newId db in
  r.1 <> toast_error "Failed to book appointment" /\
  (usersOk users ->
   forall m, r.1 = toast_success m ->
     exists a d,
       coll_appointments r.2 !! newId = Some a /\
       users !! BookAppointment.fd_preferredDoctorId formData = Some d /\
       user_role d = doctor /\
       preferredDoctorId a = Some (BookAppointment.fd_preferredDoctorId formData) /\
       preferredDoctorName a = Some (user_name d)).
Proof.
  intros Hopt r. subst r.
  destruct (handleSubmit_cases u (BookAppointment.fetchDoctors users)
              formData now now' tz newId db) as [(day & d & Hadm)|Herr].
  - rewrite (handleSubmit_admitted _ _ _ _ _ _ _ _ _ _ Hadm). cbn [fst snd].
    split; [discriminate|]. intros Hok m _.
    destruct Hadm as (_ & _ & _ & _ & _ & _ & Hfind).
    apply find_some in Hfind as [Hin Huid%bool_decide_eq_true].
    apply list_elem_of_In in Hin.
    unfold BookAppointment.fetchDoctors in Hin.
    apply list_elem_of_fmap in Hin as ([k ud] & -> & [Hrole Hl]%list_elem_of_filter).
    apply elem_of_map_to_list in Hl. simpl in *.
    destruct (Hok _ _ Hl) as (Hkey & _). rewrite Hkey in Huid. subst k.
    exists (booked u formData now now' (mkDoctor (user_uid ud) (user_name ud))), ud.
    cbn [coll_appointments]. rewrite lookup_insert_eq. by split_and!.
  - split.
    + intros Hfail.
      unfold BookAppointment.handleSubmit in Hfail.
      destruct (BookAppointment.fd_date formData) as [|day]; [discriminate|].
      destruct (bool_decide _ || bool_decide _ || bool_decide _) eqn:Hf;
        [discriminate|].
      apply orb_false_iff in Hf as [[Hp%bool_decide_eq_false _]%orb_false_iff _].
      destruct (200 <? _)%nat; [discriminate|].
      destruct (2 <=? _)%nat; [discriminate|].
      destruct (find _ _) as [d|] eqn:Hfind; [discriminate|].
      unfold BookAppointment.doctorOptions in Hopt.
      apply elem_of_cons in Hopt as [?|Hin]; [done|].
      apply list_elem_of_fmap in Hin as (d & Hd & Hin).
      apply list_elem_of_In in Hin.
      apply (find_none _ _ Hfind) in Hin. simpl in Hin.
      by rewrite bool_decide_true in Hin.
    + intros _ m Hm. destruct Herr as [msg Herr]. rewrite Herr in Hm. discriminate.
Qed.

Lemma offered_doctor_is_always_found_witness :
  let users := Register.registrations [(drDayForm, authCreated "d1", 0)] ∅ in
  let r := BookAppointment.handleSubmit alice (BookAppointment.fetchDoctors users)
             (headacheForm june10) (onJune9 8) (onJune9 8) 0 "a1" emptyStore in
  r.1 <> toast_error "Failed to book appointment" /\
  exists a d,
    coll_appointments r.2 !! "a1" = Some a /\
    users !! "d1" = Some d /\ user_role d = doctor /\
    preferredDoctorId a = Some "d1" /\
    preferredDoctorName a = Some (user_name d).
Proof.
  intros users r.
  destruct (offered_doctor_is_always_found users alice (headacheForm june10)
              (onJune9 8) (onJune9 8) 0 "a1" emptyStore) as [Hnot Hname].
  - vm_compute. right. left.
  - split; [exact Hnot|].
    apply (Hname (usersOk_registrations _ ∅ usersOk_empty)
             "Appointment booked successfully!").
    vm_compute. reflexivity.
Defined.

(** ** After an advance *)

Lemma findDoc_fmap id (f : AppointmentDoc -> AppointmentDoc) l :
  (forall apt, (f apt).1 = apt.1) ->
  findDoc id (f <$> l) = f <$> findDoc id l.
Proof.
  intros Hf. unfold findDoc. induction l as [|apt l IH]; csimpl; [done|].
  rewrite Hf. by case_bool_decide.
Qed.

(** X27.  In a reachable world, when a doctor's page advances an
    appointment, the status written to the store is the one [getNextStatus]
    gives for the status the page showed, one state further on; afterwards
    the stored status is that next status and the page's copy shows it too,
    so that for this appointment the page is in step with the store,
    whatever the store held before. *)
Theorem advance_brings_page_in_step w page id now w' :
  reachable w -> exec (Advance page id now) w = Some w' ->
  exists u st apt newStatus,
    pages w !! page = Some (DoctorPage u st) /\
    findDoc id (DoctorAppointments.appointments st) = Some apt /\
    DoctorAppointments.getNextStatus (status apt.2) = Some newStatus /\
    statusRank newStatus = S (statusRank (status apt.2)) /\
    storedStatus w' id = Some newStatus /\
    (forall now', seenStatus (Advance page id now') w' = Some (id, newStatus)) /\
    (forall now', inSync id (Advance page id now') w').
Proof.
  intros Hreach He. simpl in He.
  apply onDoctorPage_Some in He as (u & st & st' & db' & Hpage & Hf & ->).
  cbv beta in Hf.
  destruct (findDoc _ _) as [apt|] eqn:Hfind; [|discriminate].
  destruct (DoctorAppointments.getNextStatus _) as [ns|] eqn:Hnext; [|discriminate].
  injection Hf as <- <-.
  pose proof (findDoc_Some _ _ _ Hfind) as [Hin Hid].
  destruct (reachable_pageOk _ _ _ Hreach Hpage) as (_ & Hcl & _).
  destruct (Hcl apt Hin) as [_ (a & Ha & _)]. rewrite Hid in Ha.
  rewrite (handleStatusUpdate_found _ _ _ _ _ _ Ha). cbn [fst snd].
  exists u, st, apt, ns.
  assert (Hstored : storedStatus
            (mkWorld
               (mkStore (<[id := advancedTo ns now a]> (coll_appointments (db w)))
                  (coll_prescriptions (db w)) (coll_feedback (db w)))
               (<[page := DoctorPage u
                    (DoctorAppointments.mkState
                       ((fun apt0 : AppointmentDoc =>
                           if decide (apt0.1 = id)
                           then (apt0.1, DoctorAppointments.withStatus ns apt0.2)
                           else apt0) <$> DoctorAppointments.appointments st)
                       (DoctorAppointments.prescriptions st)
                       (DoctorAppointments.showPrescriptionModal st)
                       (DoctorAppointments.prescriptionForm st))]> (pages w))) id
            = Some ns).
  { unfold storedStatus. cbn [db coll_appointments]. by rewrite lookup_insert_eq. }
  assert (Hseen : forall now',
            seenStatus (Advance page id now')
              (mkWorld
                 (mkStore (<[id := advancedTo ns now a]> (coll_appointments (db w)))
                    (coll_prescriptions (db w)) (coll_feedback (db w)))
                 (<[page := DoctorPage u
                      (DoctorAppointments.mkState
                         ((fun apt0 : AppointmentDoc =>
                             if decide (apt0.1 = id)
                             then (apt0.1, DoctorAppointments.withStatus ns apt0.2)
                             else apt0) <$> DoctorAppointments.appointments st)
                         (DoctorAppointments.prescriptions st)
                         (DoctorAppointments.showPrescriptionModal st)
                         (DoctorAppointments.prescriptionForm st))]> (pages w)))
            = Some (id, ns)).
  { intros now'. unfold seenStatus. cbn [pages].
    rewrite list_lookup_insert_eq by (by eapply lookup_lt_Some).
    cbn [DoctorAppointments.appointments].
    rewrite findDoc_fmap by (intros apt0; by case_decide).
    rewrite Hfind. cbn [fmap option_fmap option_map].
    rewrite decide_True by done. simpl. by rewrite Hid. }
  split_and!; [done..| | | |].
  - apply getNextStatus_Some in Hnext as [[-> ->]|[-> ->]]; reflexivity.
  - exact Hstored.
  - exact Hseen.
  - intros now' seen Hs. rewrite Hseen in Hs. injection Hs as <-. exact Hstored.
Qed.

Lemma advance_brings_page_in_step_witness :
  storedStatus (worldAfter twoDoctorTabsTrace) "a1" = Some completed /\
  (forall now', seenStatus (Advance 2 "a1" now') (worldAfter twoDoctorTabsTrace)
                = Some ("a1", completed)) /\
  (forall now', inSync "a1" (Advance 2 "a1" now') (worldAfter twoDoctorTabsTrace)).
Proof.
  destruct (advance_brings_page_in_step
              (worldAfter (take 7 twoDoctorTabsTrace)) 2 "a1" (onJune9 11)
              (worldAfter twoDoctorTabsTrace))
    as (u & st & apt & ns & Hpage & Hfind & Hnext & _ & Hstored & Hseen & Hsync).
  - apply worldAfter_reachable. vm_compute. discriminate.
  - vm_compute. reflexivity.
  - assert (ns = completed) as ->.
    { vm_compute in Hpage. injection Hpage as <- <-.
      vm_compute in Hfind. injection Hfind as <-.
      vm_compute in Hnext. by injection Hnext as <-. }
    done.
Defined.

(** ** What the cards say *)

(** X28.  Of an appointment stored in a reachable world, a card names the
    preferred doctor while it is pending, never an accepting one; once it is
    no longer pending, it names the doctor who accepted it (when that name
    is not empty).  On a doctor's dashboard the row carries the patient's
    name. *)
Theorem card_names_preferred_then_accepting_doctor w id a :
  reachable w -> coll_appointments (db w) !! id = Some a ->
  (status a = pending ->
   PatientAppointments.doctorHeading a
   = orElse (preferredDoctorName a) "To be assigned" /\
   forall p, role p = patient ->
     Dashboard.rowName p a = orElse (preferredDoctorName a) "Doctor TBD") /\
  (status a <> pending ->
   exists n, doctorName a = Some n /\
     (n <> "" ->
      PatientAppointments.doctorHeading a = n /\
      forall p, role p = patient -> Dashboard.rowName p a = n)) /\
  (forall d, role d = doctor -> Dashboard.rowName d a = patientName a).
Proof.
  intros Hreach Ha.
  destruct (reachable_worldOk _ Hreach) as [Hs _].
  destruct (reachable_portalOk _ Hreach) as [(Happ & _) _].
  destruct (Happ _ _ Ha) as (_ & _ & _ & _ & _ & _ & Hboth).
  specialize (Hs _ _ Ha).
  split_and!.
  - intros Hpend. assert (Hnone : doctorName a = None) by tauto.
    unfold PatientAppointments.doctorHeading, Dashboard.rowName. rewrite Hnone.
    split; [done|]. by intros p ->.
  - intros Hnp. destruct (doctorName a) as [n|] eqn:Hn; [|tauto].
    exists n. split; [done|]. intros Hne.
    unfold PatientAppointments.doctorHeading, Dashboard.rowName. rewrite Hn.
    unfold orElse at 1. rewrite bool_decide_false by done.
    split; [done|]. intros p ->. unfold orElse at 1.
    by rewrite bool_decide_false.
  - intros d Hd. unfold Dashboard.rowName. by rewrite Hd.
Qed.

Lemma card_names_preferred_then_accepting_doctor_witness :
  exists a b,
    coll_appointments (db (worldAfter (take 1 raceTrace))) !! "a1" = Some a /\
    PatientAppointments.doctorHeading a = "Dr Day" /\
    coll_appointments (db (worldAfter ratedThenReclaimedTrace)) !! "a1" = Some b /\
    PatientAppointments.doctorHeading b = "Dr Eve".
Proof.
  destruct (coll_appointments (db (worldAfter (take 1 raceTrace))) !! "a1")
    as [a|] eqn:Ea; [|vm_compute in Ea; inversion Ea].
  destruct (coll_appointments (db (worldAfter ratedThenReclaimedTrace)) !! "a1")
    as [b|] eqn:Eb; [|vm_compute in Eb; inversion Eb].
  exists a, b.
  destruct (card_names_preferred_then_accepting_doctor _ _ _
              (worldAfter_reachable (take 1 raceTrace)
                 ltac:(vm_compute; discriminate)) Ea) as (Hpend & _ & _).
  destruct (card_names_preferred_then_accepting_doctor _ _ _
              (worldAfter_reachable ratedThenReclaimedTrace
                 ltac:(vm_compute; discriminate)) Eb) as (_ & Hacc & _).
  split_and!; [done| |done|].
  - destruct Hpend as [-> _].
    + vm_compute in Ea. by injection Ea as <-.
    + vm_compute in Ea. by injection Ea as <-.
  - destruct Hacc as (n & Hn & Hhead).
    + vm_compute in Eb. by injection Eb as <-.
    + assert (n = "Dr Eve") as ->.
      { vm_compute in Eb. injection Eb as <-. simpl in Hn. congruence. }
      apply Hhead. discriminate.
Defined.

(** ** The patient's page and the stored feedback *)

Lemma fetchFeedbacks_lookup u db (l : list AppointmentDoc) id :
  PatientAppointments.fetchFeedbacks u db l !! id
  = if decide (id ∈ l.*1) then PatientAppointments.feedbackOf db id (uid u)
    else None.
Proof.
  unfold PatientAppointments.fetchFeedbacks.
  assert (Hgen : forall (acc : gmap string Feedback),
            acc !! id = None \/
            acc !! id = PatientAppointments.feedbackOf db id (uid u) ->
            foldl (fun feedbacksData (apt : AppointmentDoc) =>
                     match PatientAppointments.feedbackOf db apt.1 (uid u) with
                     | Some f => <[apt.1 := f]> feedbacksData
                     | None => feedbacksData
                     end) acc l !! id
            = if decide (id ∈ l.*1)
              then PatientAppointments.feedbackOf db id (uid u)
              else acc !! id).
  { induction l as [|apt l IH]; intros acc Hacc.
    - cbn [foldl]. destruct (decide _) as [H|H]; [by inversion H|done].
    - rewrite fmap_cons. cbn [foldl]. rewrite IH.
      + destruct (decide (id ∈ l.*1)) as [Hin|Hnin];
          destruct (decide (id ∈ apt.1 :: l.*1)) as [Hin'|Hnin'].
        * done.
        * exfalso. apply Hnin'. by right.
        * apply elem_of_cons in Hin' as [->|?]; [|done].
          destruct (PatientAppointments.feedbackOf db apt.1 (uid u)) as [f|] eqn:Hp.
          -- by rewrite lookup_insert_eq.
          -- by destruct Hacc as [->| ->].
        * assert (apt.1 <> id) by (intros <-; apply Hnin'; left).
          destruct (PatientAppointments.feedbackOf db apt.1 (uid u)); [|done].
          by rewrite lookup_insert_ne.
      + destruct (decide (apt.1 = id)) as [Heq|Hne].
        * rewrite Heq.
          destruct (PatientAppointments.feedbackOf db id (uid u)) as [f|] eqn:Hp;
            [|done].
          right. by rewrite lookup_insert_eq.
        * destruct (PatientAppointments.feedbackOf db apt.1 (uid u)); [|done].
          by rewrite lookup_insert_ne. }
  rewrite Hgen by (left; apply lookup_empty).
  case_decide; [done|apply lookup_empty].
Qed.

(** X29.  On a patient's page just opened, a completed appointment of the
    patient that has a doctor shows one of the feedback records the patient
    has stored for it and no feedback button when there is such a record (so
    the one record, where there is a single one), and shows no feedback and
    offers the button when there is none; an appointment that is not
    completed shows no feedback and offers no button.  (Which record is
    shown where the patient has stored several is left to the order of the
    query result.) *)
Theorem stored_feedback_is_shown db id a p :
  coll_appointments db !! id = Some a -> patientId a = uid p ->
  let st := PatientAppointments.fetchAppointments p db in
  (status a = completed -> PatientAppointments.truthy (doctorId a) = true ->
   (feedbackRecords db id (uid p) <> [] ->
    (exists f, PatientAppointments.feedbackShown st (id, a) = Some f /\
               f ∈ feedbackRecords db id (uid p)) /\
    PatientAppointments.leaveFeedbackOffered st (id, a) = false) /\
   (feedbackRecords db id (uid p) = [] ->
    PatientAppointments.feedbackShown st (id, a) = None /\
    PatientAppointments.leaveFeedbackOffered st (id, a) = true)) /\
  (status a <> completed ->
   PatientAppointments.feedbackShown st (id, a) = None /\
   PatientAppointments.leaveFeedbackOffered st (id, a) = false).
Proof.
  intros Ha Hp st. subst st. split.
  - intros Hst Htr.
    assert (Hlook : PatientAppointments.feedbacks
                      (PatientAppointments.fetchAppointments p db) !! id
                    = head (feedbackRecords db id (uid p))).
    { unfold PatientAppointments.fetchAppointments.
      cbn [PatientAppointments.feedbacks].
      rewrite fetchFeedbacks_lookup, decide_True; [done|].
      apply completed_ids. exists a. split_and!; [done| |done].
      by apply bool_decide_eq_true. }
    unfold PatientAppointments.feedbackShown, PatientAppointments.leaveFeedbackOffered.
    cbn [fst snd]. rewrite Htr, Hlook, (bool_decide_true _ Hst). cbn [andb].
    split.
    + intros Hne.
      destruct (head (feedbackRecords db id (uid p))) as [f|] eqn:Hhead;
        [|by destruct (feedbackRecords db id (uid p))].
      split; [|by case_bool_decide].
      exists f. split; [done|]. by apply head_filter_elem.
    + intros ->. by simpl.
  - intros Hst.
    unfold PatientAppointments.feedbackShown, PatientAppointments.leaveFeedbackOffered.
    cbn [fst snd]. by rewrite (bool_decide_false _ Hst).
Qed.

Lemma stored_feedback_is_shown_witness :
  let db := db (worldAfter scenarioTrace) in
  let a := mkAppointment "p1" "Alice" (Some "d1") (Some "Dr Day")
             (Some "d1") (Some "Dr Day") (IsoDate june10) "09:00"
             "headache" completed (onJune9 8) (onJune9 11) in
  let st := PatientAppointments.fetchAppointments alice db in
  PatientAppointments.feedbackShown st ("a1", a)
  = Some (mkFeedback "a1" "p1" "d1" 5 (Some "Great") (onJune9 13)) /\
  PatientAppointments.leaveFeedbackOffered st ("a1", a) = false.
Proof.
  intros db a st.
  destruct (stored_feedback_is_shown db "a1" a alice) as [Hcompleted _];
    [vm_compute; reflexivity|reflexivity|].
  destruct (Hcompleted eq_refl eq_refl) as [Hsome _].
  destruct Hsome as [(f & Hshown & Hin) Hoffered]; [vm_compute; discriminate|].
  fold st in Hshown, Hoffered. split; [|exact Hoffered].
  rewrite Hshown. vm_compute in Hin. apply list_elem_of_singleton in Hin.
  by rewrite Hin.
Defined.
